(** * The RIFF/AVI container writer of [asset_extraction_framework/Asset/Avi.py]

    A shallow embedding of the [AviFile] class and of its four header records,
    followed by the properties of the written byte stream.

    Python integers are [Z]; [bytes] objects are lists of bytes; an attribute
    whose value may be Python's [None] is an [option]; a raised exception is
    the [Raise] case of a result type. *)

From Stdlib Require Import Bool String ZArith List Lia.
From coqutil Require Import Byte Word.LittleEndianList.
Import ListNotations.
Local Open Scope bool_scope.
Local Open Scope Z_scope.

(** ** Bytes and exceptions *)

Definition bytes := list byte.

(** A bytes literal such as [b'RIFF']. *)
Definition b (s : string) : bytes := list_byte_of_string s.

(** The exceptions the modelled code can raise. *)
Inductive exn : Set :=
| AttributeError
| TypeError
| IndexError
| ZeroDivisionError
| StructError.

Inductive result (A : Type) : Type :=
| Ok (a : A)
| Raise (e : exn).
Arguments Ok {A} a.
Arguments Raise {A} e.

Definition rbind {A B} (r : result A) (k : A -> result B) : result B :=
  match r with
  | Ok a => k a
  | Raise e => Raise e
  end.

Declare Scope result_scope.
Delimit Scope result_scope with result.
Notation "x <- r ;; k" := (rbind r (fun x => k))
  (at level 61, r at next level, right associativity) : result_scope.

(** ** The struct encoder ([self_documenting_struct]) *)

Module Type_.
(** The members of [self_documenting_struct.Type] that the writer uses,
    with the one-byte ones for completeness. *)
Inductive t : Set :=
| uint8 | int8
| uint16_le | int16_le
| uint32_le | int32_le.

Definition width (ty : t) : nat :=
  match ty with
  | uint8 | int8 => 1
  | uint16_le | int16_le => 2
  | uint32_le | int32_le => 4
  end.

Definition signed (ty : t) : bool :=
  match ty with
  | int8 | int16_le | int32_le => true
  | uint8 | uint16_le | uint32_le => false
  end.

Definition bits (ty : t) : Z := 8 * Z.of_nat (width ty).

Definition min_value (ty : t) : Z :=
  if signed ty then - 2 ^ (bits ty - 1) else 0.

Definition max_value (ty : t) : Z :=
  if signed ty then 2 ^ (bits ty - 1) - 1 else 2 ^ bits ty - 1.

Definition in_range (ty : t) (v : Z) : bool :=
  (min_value ty <=? v) && (v <=? max_value ty).
End Type_.

Module pack.
Import Type_.
Local Open Scope result_scope.

(** Modelled from the spec: the package [self_documenting_struct] is
    imported by Avi.py and is not among the sources.  Section 4.1 of the
    specification gives its contract: every declared field is written
    little-endian on exactly its declared width, with no padding, and a
    field that does not resolve to an integer makes the encoding fail.
    A value outside the range of its declared type fails likewise, as
    Python's [struct.pack] does. *)
Definition value (ty : t) (v : option Z) : result bytes :=
  match v with
  | None => Raise StructError
  | Some z =>
      if in_range ty z then Ok (le_split (width ty) z) else Raise StructError
  end.

(** [struct.pack.from_list(fields)]: the fields in order, one after the
    other. *)
Fixpoint from_list (fields : list (t * option Z)) : result bytes :=
  match fields with
  | [] => Ok []
  | (ty, v) :: rest =>
      head <- value ty v ;;
      tail <- from_list rest ;;
      Ok (head ++ tail)
  end.

(** [struct.pack.uint32_le(v)]. *)
Definition uint32_le (v : Z) : result bytes := value Type_.uint32_le (Some v).
End pack.

(** Reading an integer back from little-endian bytes, as
    [int.from_bytes(bs, 'little', signed = ...)] does. *)
Definition int_from_bytes (signed : bool) (bs : bytes) : Z :=
  let u := le_combine bs in
  let n := 8 * Z.of_nat (length bs) in
  if signed && (0 <? n) && (2 ^ (n - 1) <=? u) then u - 2 ^ n else u.

(** The slice [bs[start : start + len]]. *)
Definition slice (start len : nat) (bs : bytes) : bytes :=
  firstn len (skipn start bs).

(** ** The binary stream the file is written to

    A file opened with mode ['wb']: a buffer and a position.  Writing
    overwrites from the position on and extends the buffer when it runs past
    its end; a write that starts past the end first fills the gap with zero
    bytes. *)

Record stream : Type := { buf : bytes; pos : nat }.

Definition empty_stream : stream := {| buf := []; pos := 0 |}.

Definition stream_write (data : bytes) (s : stream) : stream :=
  let padded := buf s ++ repeat Byte.x00 (pos s - length (buf s)) in
  {| buf := firstn (pos s) padded ++ data ++ skipn (pos s + length data) padded;
     pos := pos s + length data |}.

Definition stream_tell (s : stream) : nat := pos s.

Definition stream_seek (p : nat) (s : stream) : stream :=
  {| buf := buf s; pos := p |}.

(** Stream computations that may raise.  When an exception escapes, the
    contents of the partly written file are not modelled. *)
Definition W (A : Type) : Type := stream -> result (A * stream).

Definition wret {A} (a : A) : W A := fun s => Ok (a, s).

Definition wbind {A B} (m : W A) (k : A -> W B) : W B :=
  fun s => match m s with
           | Ok (a, s') => k a s'
           | Raise e => Raise e
           end.

Definition wlift {A} (r : result A) : W A :=
  fun s => match r with
           | Ok a => Ok (a, s)
           | Raise e => Raise e
           end.

Module Stream.
Definition write (data : bytes) : W unit :=
  fun s => Ok (tt, stream_write data s).
Definition tell : W nat := fun s => Ok (stream_tell s, s).
Definition seek (p : nat) : W unit := fun s => Ok (tt, stream_seek p s).
End Stream.

Declare Scope stream_scope.
Delimit Scope stream_scope with stream.
Notation "x <- m ;; k" := (wbind m (fun x => k))
  (at level 61, m at next level, right associativity) : stream_scope.
Notation "m ;; k" := (wbind m (fun _ => k))
  (at level 61, right associativity) : stream_scope.

(** [struct.pack.from_list(fields, into = stream)] and
    [struct.pack.uint32_le(v, into = stream)]. *)
Definition pack_from_list_into (fields : list (Type_.t * option Z)) : W unit :=
  (data <- wlift (pack.from_list fields) ;; Stream.write data)%stream.

Definition pack_uint32_le_into (v : Z) : W unit :=
  (data <- wlift (pack.uint32_le v) ;; Stream.write data)%stream.

(** Indexing a Python list: [l[i]] and [l[i] = v]. *)
Definition list_get (l : list Z) (i : nat) : result Z :=
  match nth_error l i with
  | Some v => Ok v
  | None => Raise IndexError
  end.

Fixpoint list_set (l : list Z) (i : nat) (v : Z) : result (list Z) :=
  match l, i with
  | [], _ => Raise IndexError
  | _ :: rest, O => Ok (v :: rest)
  | x :: rest, S i' => rbind (list_set rest i' v) (fun rest' => Ok (x :: rest'))
  end.

(** The product of two attribute values; [None] as a factor is a
    [TypeError]. *)
Definition py_mul (x y : option Z) : result Z :=
  match x, y with
  | Some a, Some c => Ok (a * c)
  | _, _ => Raise TypeError
  end.

(** ** The header records *)

(** The stream types and the two-character codes of the data chunks. *)
Module AviStreamType.
Definition Audio : bytes := b "auds".
Definition Midi : bytes := b "mids".
Definition Text : bytes := b "txts".
Definition Video : bytes := b "vids".
End AviStreamType.

Module AviStreamTwoCC.
Definition UncompressedVideo : bytes := b "db".
Definition CompressedVideo : bytes := b "dc".
Definition PaletteChange : bytes := b "pc".
Definition Audio : bytes := b "wb".
End AviStreamTwoCC.

Module AviMainHeader.
Import Type_.

Record t : Type := {
  micro_seconds_per_frame : option Z;
  max_bytes_per_second : Z;
  padding_in_bytes : Z;
  flags : Z;
  total_frames : Z;
  initial_frames : Z;
  stream_count : Z;
  suggested_buffer_size : Z;
  width : option Z;
  height : option Z;
  reserved : list Z
}.

(** [AviMainHeader()]: the class defaults. *)
Definition new : t := {|
  micro_seconds_per_frame := None;
  max_bytes_per_second := 0;
  padding_in_bytes := 1;
  flags := 0;
  total_frames := 0;
  initial_frames := 0;
  stream_count := 1;
  suggested_buffer_size := 0;
  width := None;
  height := None;
  reserved := [0; 0; 0; 0]
|}.

Definition set_micro_seconds_per_frame (v : Z) (h : t) : t := {|
  micro_seconds_per_frame := Some v;
  max_bytes_per_second := max_bytes_per_second h;
  padding_in_bytes := padding_in_bytes h;
  flags := flags h;
  total_frames := total_frames h;
  initial_frames := initial_frames h;
  stream_count := stream_count h;
  suggested_buffer_size := suggested_buffer_size h;
  width := width h;
  height := height h;
  reserved := reserved h
|}.

Definition set_width (v : Z) (h : t) : t := {|
  micro_seconds_per_frame := micro_seconds_per_frame h;
  max_bytes_per_second := max_bytes_per_second h;
  padding_in_bytes := padding_in_bytes h;
  flags := flags h;
  total_frames := total_frames h;
  initial_frames := initial_frames h;
  stream_count := stream_count h;
  suggested_buffer_size := suggested_buffer_size h;
  width := Some v;
  height := height h;
  reserved := reserved h
|}.

Definition set_height (v : Z) (h : t) : t := {|
  micro_seconds_per_frame := micro_seconds_per_frame h;
  max_bytes_per_second := max_bytes_per_second h;
  padding_in_bytes := padding_in_bytes h;
  flags := flags h;
  total_frames := total_frames h;
  initial_frames := initial_frames h;
  stream_count := stream_count h;
  suggested_buffer_size := suggested_buffer_size h;
  width := width h;
  height := Some v;
  reserved := reserved h
|}.

(** The tuple of fields [encode] hands to [from_list]; building it reads
    the four reserved entries. *)
Definition fields (self : t) : result (list (Type_.t * option Z)) :=
  (r0 <- list_get (reserved self) 0 ;;
   r1 <- list_get (reserved self) 1 ;;
   r2 <- list_get (reserved self) 2 ;;
   r3 <- list_get (reserved self) 3 ;;
   Ok [ (uint32_le, micro_seconds_per_frame self);
        (uint32_le, Some (max_bytes_per_second self));
        (uint32_le, Some (padding_in_bytes self));
        (uint32_le, Some (flags self));
        (uint32_le, Some (total_frames self));
        (uint32_le, Some (initial_frames self));
        (uint32_le, Some (stream_count self));
        (uint32_le, Some (suggested_buffer_size self));
        (int32_le, width self);
        (int32_le, height self);
        (uint32_le, Some r0);
        (uint32_le, Some r1);
        (uint32_le, Some r2);
        (uint32_le, Some r3) ])%result.

Definition encode (self : t) : W unit :=
  (fs <- wlift (fields self) ;; pack_from_list_into fs)%stream.
End AviMainHeader.

Module BitmapInfo.
Import Type_.

Record t : Type := {
  STRUCTURE_SIZE : Z;
  width : option Z;
  height : option Z;
  planes : Z;
  bits_per_pixel : option Z;
  compression : Z;
  image_length : Z;
  horizontal_resolution : Z;
  vertical_resolution : Z;
  used_colors : Z;
  important_colors : Z;
  palette : option bytes
}.

(** [BitmapInfo()]: the class defaults, [STRUCTURE_SIZE = 0x28]. *)
Definition new : t := {|
  STRUCTURE_SIZE := 40;
  width := None;
  height := None;
  planes := 1;
  bits_per_pixel := None;
  compression := 0;
  image_length := 0;
  horizontal_resolution := 0;
  vertical_resolution := 0;
  used_colors := 0;
  important_colors := 0;
  palette := None
|}.

Definition fields (self : t) : list (Type_.t * option Z) :=
  [ (uint32_le, Some (STRUCTURE_SIZE self));
    (int32_le, width self);
    (int32_le, height self);
    (uint16_le, Some (planes self));
    (uint16_le, bits_per_pixel self);
    (uint32_le, Some (compression self));
    (uint32_le, Some (image_length self));
    (uint32_le, Some (horizontal_resolution self));
    (uint32_le, Some (vertical_resolution self));
    (uint32_le, Some (used_colors self));
    (uint32_le, Some (important_colors self)) ].

(** [if self.palette:] holds for a palette that is neither [None] nor
    empty. *)
Definition encode (self : t) : W unit :=
  (pack_from_list_into (fields self) ;;
   match palette self with
   | Some (x :: rest) => Stream.write (x :: rest)
   | Some [] | None => wret tt
   end)%stream.
End BitmapInfo.

Module PcmWaveFormatEx.
Import Type_.

Record t : Type := {
  format_tag : Z;
  channel_count : option Z;
  samples_per_second : option Z;
  bits_per_sample : option Z;
  additional_information_size : Z
}.

(** [PcmWaveFormatEx()]: [format_tag = 1] is WAVE_FORMAT_PCM. *)
Definition new : t := {|
  format_tag := 1;
  channel_count := None;
  samples_per_second := None;
  bits_per_sample := None;
  additional_information_size := 0
|}.

(** The two properties, computed from the stored fields on every read. *)
Definition block_alignment (self : t) : result Z :=
  py_mul (channel_count self) (bits_per_sample self).

Definition average_bytes_per_second_transfer_rate (self : t) : result Z :=
  (ba <- block_alignment self ;;
   py_mul (samples_per_second self) (Some ba))%result.

Definition fields (self : t) : result (list (Type_.t * option Z)) :=
  (rate <- average_bytes_per_second_transfer_rate self ;;
   ba <- block_alignment self ;;
   Ok [ (uint16_le, Some (format_tag self));
        (uint16_le, channel_count self);
        (uint32_le, samples_per_second self);
        (uint32_le, Some rate);
        (uint16_le, Some ba);
        (uint16_le, bits_per_sample self);
        (uint16_le, Some (additional_information_size self)) ])%result.

Definition encode (self : t) : W unit :=
  (fs <- wlift (fields self) ;; pack_from_list_into fs)%stream.
End PcmWaveFormatEx.

Module AviStreamHeader.
Import Type_.

(** The attributes an instance holds.  [stream_rectangle] is not among
    them: the class body creates that list once, no instance ever rebinds
    it, and every instance therefore reads and updates the same list
    object (see [heap] below). *)
Record t : Type := {
  FOURCC : bytes;
  STRUCTURE_SIZE : Z;
  stream_type : option bytes;
  stream_data_handler : bytes;
  flags : Z;
  priority : Z;
  language : Z;
  frames_before_this_stream : Z;
  scale : Z;
  rate : option Z;
  start_time : Z;
  stream_size : Z;
  suggested_buffer_size : Z;
  quality : Z;
  sample_size : Z
}.

Definition new : t := {|
  FOURCC := b "strh";
  STRUCTURE_SIZE := 0;
  stream_type := None;
  stream_data_handler := b "DIB ";
  flags := 0;
  priority := 0;
  language := 0;
  frames_before_this_stream := 0;
  scale := 1;
  rate := None;
  start_time := 0;
  stream_size := 0;
  suggested_buffer_size := 0;
  quality := -1;
  sample_size := 0
|}.

Definition set_stream_type (v : bytes) (h : t) : t := {|
  FOURCC := FOURCC h;
  STRUCTURE_SIZE := STRUCTURE_SIZE h;
  stream_type := Some v;
  stream_data_handler := stream_data_handler h;
  flags := flags h;
  priority := priority h;
  language := language h;
  frames_before_this_stream := frames_before_this_stream h;
  scale := scale h;
  rate := rate h;
  start_time := start_time h;
  stream_size := stream_size h;
  suggested_buffer_size := suggested_buffer_size h;
  quality := quality h;
  sample_size := sample_size h
|}.

Definition set_rate (v : Z) (h : t) : t := {|
  FOURCC := FOURCC h;
  STRUCTURE_SIZE := STRUCTURE_SIZE h;
  stream_type := stream_type h;
  stream_data_handler := stream_data_handler h;
  flags := flags h;
  priority := priority h;
  language := language h;
  frames_before_this_stream := frames_before_this_stream h;
  scale := scale h;
  rate := Some v;
  start_time := start_time h;
  stream_size := stream_size h;
  suggested_buffer_size := suggested_buffer_size h;
  quality := quality h;
  sample_size := sample_size h
|}.

Definition set_stream_size (v : Z) (h : t) : t := {|
  FOURCC := FOURCC h;
  STRUCTURE_SIZE := STRUCTURE_SIZE h;
  stream_type := stream_type h;
  stream_data_handler := stream_data_handler h;
  flags := flags h;
  priority := priority h;
  language := language h;
  frames_before_this_stream := frames_before_this_stream h;
  scale := scale h;
  rate := rate h;
  start_time := start_time h;
  stream_size := v;
  suggested_buffer_size := suggested_buffer_size h;
  quality := quality h;
  sample_size := sample_size h
|}.

Definition fields (stream_rectangle : list Z) (self : t)
  : result (list (Type_.t * option Z)) :=
  (x0 <- list_get stream_rectangle 0 ;;
   x1 <- list_get stream_rectangle 1 ;;
   x2 <- list_get stream_rectangle 2 ;;
   x3 <- list_get stream_rectangle 3 ;;
   Ok [ (uint32_le, Some (flags self));
        (uint16_le, Some (priority self));
        (uint16_le, Some (language self));
        (uint32_le, Some (frames_before_this_stream self));
        (uint32_le, Some (scale self));
        (uint32_le, rate self);
        (uint32_le, Some (start_time self));
        (uint32_le, Some (stream_size self));
        (uint32_le, Some (suggested_buffer_size self));
        (int32_le, Some (quality self));
        (uint32_le, Some (sample_size self));
        (int16_le, Some x0);
        (int16_le, Some x1);
        (int16_le, Some x2);
        (int16_le, Some x3) ])%result.

(** [stream.write(None)] is a [TypeError]. *)
Definition encode (stream_rectangle : list Z) (self : t) : W unit :=
  (match stream_type self with
   | Some ty => Stream.write ty
   | None => wlift (Raise TypeError)
   end ;;
   Stream.write (stream_data_handler self) ;;
   fs <- wlift (fields stream_rectangle self) ;;
   pack_from_list_into fs)%stream.
End AviStreamHeader.

(** ** The chunk and list writer *)

(** What a chunk of the RIFF structure can carry besides a sublist: [None],
    a [bytes] object, or one of the four header objects, all of which have
    an [encode] method. *)
Inductive header : Type :=
| MainHeader (h : AviMainHeader.t)
| StreamHeader (h : AviStreamHeader.t)
| Bitmap (h : BitmapInfo.t)
| WaveFormat (h : PcmWaveFormatEx.t).

Inductive chunk_data : Type :=
| PyNone
| PyBytes (data : bytes)
| PyObject (h : header).

Local Set Warnings "-register-all".

(** An entry of the structure is a 2-tuple: its name, and either a list of
    entries or the data of a chunk. *)
Inductive entry : Type :=
| Sublist (name : bytes) (structure : list entry)
| Chunk (name : bytes) (data : chunk_data).

Definition for_each {A} (f : A -> W unit) : list A -> W unit :=
  fix loop (l : list A) : W unit :=
    match l with
    | [] => wret tt
    | x :: rest => (f x ;; loop rest)%stream
    end.

Definition placeholder : bytes := [Byte.x00; Byte.x00; Byte.x00; Byte.x00].

Section Writer.
(** The list bound to the class attribute
    [AviStreamHeader.stream_rectangle] when the file is written. *)
Variable stream_rectangle : list Z.

Local Open Scope stream_scope.

(** [chunk_data.encode(stream)]. *)
Definition encode (h : header) : W unit :=
  match h with
  | MainHeader m => AviMainHeader.encode m
  | StreamHeader s => AviStreamHeader.encode stream_rectangle s
  | Bitmap i => BitmapInfo.encode i
  | WaveFormat w => PcmWaveFormatEx.encode w
  end.

Definition _write_chunk (chunk_name : bytes) (data : chunk_data) : W unit :=
  match data with
  | PyNone => wret tt
  | PyBytes payload =>
      Stream.write chunk_name ;;
      pack_uint32_le_into (Z.of_nat (length payload)) ;;
      Stream.write payload
  | PyObject h =>
      Stream.write chunk_name ;;
      size_pointer <- Stream.tell ;;
      Stream.write placeholder ;;
      content_start_pointer <- Stream.tell ;;
      encode h ;;
      end_pointer <- Stream.tell ;;
      let list_size := Z.of_nat end_pointer - Z.of_nat content_start_pointer in
      current_position <- Stream.tell ;;
      Stream.seek size_pointer ;;
      pack_uint32_le_into list_size ;;
      Stream.seek current_position
  end.

(** [_write_list], with the treatment of one entry (the body of its loop)
    as a parameter. *)
Definition _write_list_with (write_entry : entry -> W unit)
    (list_name : bytes) (list_structure : list entry) (list_fourcc : bytes)
  : W unit :=
  Stream.write list_fourcc ;;
  size_pointer <- Stream.tell ;;
  Stream.write placeholder ;;
  content_start_pointer <- Stream.tell ;;
  Stream.write list_name ;;
  for_each write_entry list_structure ;;
  end_pointer <- Stream.tell ;;
  let list_size := Z.of_nat end_pointer - Z.of_nat content_start_pointer in
  current_position <- Stream.tell ;;
  Stream.seek size_pointer ;;
  pack_uint32_le_into list_size ;;
  Stream.seek current_position.

(** The body of the loop: a sublist is written by [_write_list] with the
    default [list_fourcc = b'LIST'], anything else by [_write_chunk]. *)
Fixpoint write_entry (e : entry) : W unit :=
  match e with
  | Sublist name structure =>
      _write_list_with write_entry name structure (b "LIST")
  | Chunk name data => _write_chunk name data
  end.

Definition _write_list : bytes -> list entry -> bytes -> W unit :=
  _write_list_with write_entry.
End Writer.

(** ** The container assembler *)

Module AviFile.
Record t : Type := {
  main_header : AviMainHeader.t;
  audio_stream_header : option AviStreamHeader.t;
  wave_header : option PcmWaveFormatEx.t;
  audio_chunks : list (bytes * option bytes);
  video_stream_header : option AviStreamHeader.t;
  video_chunks : list (bytes * bytes);
  (** [__init__] does not create this attribute: [None] stands for an
      attribute that does not exist yet, not for Python's [None]. *)
  bitmap_header : option BitmapInfo.t
}.

(** What the operations act on: the [AviFile] object, and the one list
    that the class [AviStreamHeader] shares among all its instances. *)
Record heap : Type := {
  cls_stream_rectangle : list Z;
  self : t
}.

(** State passing in which what was done before an exception stays
    done. *)
Definition M (A : Type) : Type := heap -> result A * heap.

Definition mret {A} (a : A) : M A := fun hp => (Ok a, hp).
Definition raise {A} (e : exn) : M A := fun hp => (Raise e, hp).
Definition mbind {A B} (m : M A) (k : A -> M B) : M B :=
  fun hp => match m hp with
            | (Ok a, hp') => k a hp'
            | (Raise e, hp') => (Raise e, hp')
            end.
Definition get_self : M t := fun hp => (Ok (self hp), hp).
Definition put_self (a : t) : M unit :=
  fun hp => (Ok tt, {| cls_stream_rectangle := cls_stream_rectangle hp; self := a |}).
Definition get_rectangle : M (list Z) := fun hp => (Ok (cls_stream_rectangle hp), hp).
Definition put_rectangle (r : list Z) : M unit :=
  fun hp => (Ok tt, {| cls_stream_rectangle := r; self := self hp |}).
Definition mlift {A} (r : result A) : M A :=
  fun hp => (r, hp).

Declare Scope heap_scope.
Delimit Scope heap_scope with heap.
Notation "x <- m ;; k" := (mbind m (fun x => k))
  (at level 61, m at next level, right associativity) : heap_scope.
Notation "m ;; k" := (mbind m (fun _ => k))
  (at level 61, right associativity) : heap_scope.
Local Open Scope heap_scope.

Definition set_main_header (v : AviMainHeader.t) (a : t) : t := {|
  main_header := v;
  audio_stream_header := audio_stream_header a;
  wave_header := wave_header a;
  audio_chunks := audio_chunks a;
  video_stream_header := video_stream_header a;
  video_chunks := video_chunks a;
  bitmap_header := bitmap_header a
|}.

Definition set_audio_stream_header (v : AviStreamHeader.t) (a : t) : t := {|
  main_header := main_header a;
  audio_stream_header := Some v;
  wave_header := wave_header a;
  audio_chunks := audio_chunks a;
  video_stream_header := video_stream_header a;
  video_chunks := video_chunks a;
  bitmap_header := bitmap_header a
|}.

Definition set_wave_header (v : PcmWaveFormatEx.t) (a : t) : t := {|
  main_header := main_header a;
  audio_stream_header := audio_stream_header a;
  wave_header := Some v;
  audio_chunks := audio_chunks a;
  video_stream_header := video_stream_header a;
  video_chunks := video_chunks a;
  bitmap_header := bitmap_header a
|}.

Definition set_audio_chunks (v : list (bytes * option bytes)) (a : t) : t := {|
  main_header := main_header a;
  audio_stream_header := audio_stream_header a;
  wave_header := wave_header a;
  audio_chunks := v;
  video_stream_header := video_stream_header a;
  video_chunks := video_chunks a;
  bitmap_header := bitmap_header a
|}.

Definition set_video_stream_header (v : AviStreamHeader.t) (a : t) : t := {|
  main_header := main_header a;
  audio_stream_header := audio_stream_header a;
  wave_header := wave_header a;
  audio_chunks := audio_chunks a;
  video_stream_header := Some v;
  video_chunks := video_chunks a;
  bitmap_header := bitmap_header a
|}.

Definition set_video_chunks (v : list (bytes * bytes)) (a : t) : t := {|
  main_header := main_header a;
  audio_stream_header := audio_stream_header a;
  wave_header := wave_header a;
  audio_chunks := audio_chunks a;
  video_stream_header := video_stream_header a;
  video_chunks := v;
  bitmap_header := bitmap_header a
|}.

Definition set_bitmap_header (v : BitmapInfo.t) (a : t) : t := {|
  main_header := main_header a;
  audio_stream_header := audio_stream_header a;
  wave_header := wave_header a;
  audio_chunks := audio_chunks a;
  video_stream_header := video_stream_header a;
  video_chunks := video_chunks a;
  bitmap_header := Some v
|}.

Definition update (f : t -> t) : M unit :=
  a <- get_self ;; put_self (f a).

(** [AviFile()]. *)
Definition __init__ : t := {|
  main_header := AviMainHeader.new;
  audio_stream_header := None;
  wave_header := None;
  audio_chunks := [];
  video_stream_header := None;
  video_chunks := [];
  bitmap_header := None
|}.

(** A new process: the shared rectangle as the class body creates it, and
    a newly constructed [AviFile]. *)
Definition initial : heap := {|
  cls_stream_rectangle := [0; 0; 0; 0];
  self := __init__
|}.

Definition initialize_audio_stream
    (channel_count samples_per_second bits_per_sample : Z) : M unit :=
  update (set_audio_stream_header
            (AviStreamHeader.set_rate samples_per_second
               (AviStreamHeader.set_stream_type AviStreamType.Audio
                  AviStreamHeader.new))) ;;
  update (set_wave_header {|
            PcmWaveFormatEx.format_tag := PcmWaveFormatEx.format_tag PcmWaveFormatEx.new;
            PcmWaveFormatEx.channel_count := Some channel_count;
            PcmWaveFormatEx.samples_per_second := Some samples_per_second;
            PcmWaveFormatEx.bits_per_sample := Some bits_per_sample;
            PcmWaveFormatEx.additional_information_size :=
              PcmWaveFormatEx.additional_information_size PcmWaveFormatEx.new
          |}).

(** [sound.pcm] is an [Optional[bytes]]. *)
Definition add_audio_chunk (pcm : option bytes) : M unit :=
  let chunk_fourcc := b "01" ++ AviStreamTwoCC.Audio in
  update (fun a => set_audio_chunks (audio_chunks a ++ [(chunk_fourcc, pcm)]) a).

(** [l[i] = v] on the shared rectangle. *)
Definition rectangle_assign (i : nat) (v : Z) : M unit :=
  r <- get_rectangle ;;
  r' <- mlift (list_set r i v) ;;
  put_rectangle r'.

(** [//] on Python integers rounds towards minus infinity, as [Z.div]
    does, and raises when the divisor is zero. *)
Definition floordiv (x y : Z) : result Z :=
  if y =? 0 then Raise ZeroDivisionError else Ok (x / y).

Definition initialize_video_stream
    (width height frames_per_second bits_per_pixel : Z)
    (palette : option bytes) : M unit :=
  update (set_video_stream_header
            (AviStreamHeader.set_rate frames_per_second
               (AviStreamHeader.set_stream_type AviStreamType.Video
                  AviStreamHeader.new))) ;;
  rectangle_assign 2 width ;;
  rectangle_assign 3 (- height) ;;
  update (fun a =>
            match video_stream_header a with
            | Some h => set_video_stream_header (AviStreamHeader.set_stream_size 0 h) a
            | None => a
            end) ;;
  update (set_bitmap_header {|
            BitmapInfo.STRUCTURE_SIZE := BitmapInfo.STRUCTURE_SIZE BitmapInfo.new;
            BitmapInfo.width := Some width;
            BitmapInfo.height := Some (- height);
            BitmapInfo.planes := BitmapInfo.planes BitmapInfo.new;
            BitmapInfo.bits_per_pixel := Some bits_per_pixel;
            BitmapInfo.compression := BitmapInfo.compression BitmapInfo.new;
            BitmapInfo.image_length := BitmapInfo.image_length BitmapInfo.new;
            BitmapInfo.horizontal_resolution :=
              BitmapInfo.horizontal_resolution BitmapInfo.new;
            BitmapInfo.vertical_resolution :=
              BitmapInfo.vertical_resolution BitmapInfo.new;
            BitmapInfo.used_colors := BitmapInfo.used_colors BitmapInfo.new;
            BitmapInfo.important_colors := BitmapInfo.important_colors BitmapInfo.new;
            BitmapInfo.palette := palette
          |}) ;;
  let MICROSECONDS_PER_SECOND := 1000000 in
  interval <- mlift (floordiv MICROSECONDS_PER_SECOND frames_per_second) ;;
  update (fun a => set_main_header
                     (AviMainHeader.set_micro_seconds_per_frame interval (main_header a)) a) ;;
  update (fun a => set_main_header (AviMainHeader.set_width width (main_header a)) a) ;;
  update (fun a => set_main_header (AviMainHeader.set_height (- height) (main_header a)) a).

(** [bitmap.tobytes()] gives the frame as [bytes].  The chunk is appended
    before the stream header is touched. *)
Definition add_video_frame (frame : bytes) : M unit :=
  let chunk_fourcc := b "00" ++ AviStreamTwoCC.UncompressedVideo in
  update (fun a => set_video_chunks (video_chunks a ++ [(chunk_fourcc, frame)]) a) ;;
  a <- get_self ;;
  match video_stream_header a with
  | None => raise AttributeError
  | Some h =>
      put_self (set_video_stream_header
                  (AviStreamHeader.set_stream_size (AviStreamHeader.stream_size h + 1) h) a)
  end.

Definition optional {A} (mk : A -> header) (o : option A) : chunk_data :=
  match o with
  | Some h => PyObject (mk h)
  | None => PyNone
  end.

Definition video_entry (c : bytes * bytes) : entry :=
  Chunk (fst c) (PyBytes (snd c)).

Definition audio_entry (c : bytes * option bytes) : entry :=
  Chunk (fst c) match snd c with
                | Some pcm => PyBytes pcm
                | None => PyNone
                end.

(** The structure [write] builds; reading [self.bitmap_header] fails when
    the video stream was never initialized. *)
Definition riff_structure (a : t) : result (list entry) :=
  match bitmap_header a with
  | None => Raise AttributeError
  | Some bitmap =>
      Ok [ Sublist (b "AVI ")
             [ Sublist (b "hdrl")
                 [ Chunk (b "avih") (PyObject (MainHeader (main_header a)));
                   Sublist (b "strl")
                     [ Chunk (b "strh") (optional StreamHeader (video_stream_header a));
                       Chunk (b "strf") (PyObject (Bitmap bitmap)) ];
                   Sublist (b "strl")
                     [ Chunk (b "strh") (optional StreamHeader (audio_stream_header a));
                       Chunk (b "strf") (optional WaveFormat (wave_header a)) ] ];
               Sublist (b "movi")
                 (map video_entry (video_chunks a) ++ map audio_entry (audio_chunks a)) ] ]
  end.

(** [write(filepath)]: the contents of the file it leaves behind. *)
Definition write (hp : heap) : result bytes :=
  (structure <- riff_structure (self hp) ;;
   match _write_list (cls_stream_rectangle hp) (b "AVI ") structure (b "RIFF")
           empty_stream with
   | Ok (_, s) => Ok (buf s)
   | Raise e => Raise e
   end)%result.
End AviFile.

(** ** Observing the stream and the written bytes *)

(** The position is at the end of what was written so far. *)
Definition at_end (s : stream) : Prop := pos s = length (buf s).

Definition append (s : stream) (data : bytes) : stream :=
  {| buf := buf s ++ data; pos := length (buf s ++ data) |}.

(** [appends m r]: started at the end of a stream, [m] either raises, when
    [r] is that exception, or leaves the stream with the bytes [r] appended
    and the position at the new end. *)
Definition appended (s : stream) (r : result bytes) : result (unit * stream) :=
  match r with
  | Ok data => Ok (tt, append s data)
  | Raise e => Raise e
  end.

Definition appends (m : W unit) (r : result bytes) : Prop :=
  forall s, at_end s -> m s = appended s r.

(** What two appending computations in sequence append. *)
Definition then_ (r1 r2 : result bytes) : result bytes :=
  (x <- r1 ;; y <- r2 ;; Ok (x ++ y))%result.

(** What a stream computation leaves in a file that was empty. *)
Definition run_empty (m : W unit) : result bytes :=
  match m empty_stream with
  | Ok (_, s) => Ok (buf s)
  | Raise e => Raise e
  end.

Section Framed.
Variable stream_rectangle : list Z.

Local Open Scope result_scope.

(** The payload of a header: what its [encode] writes. *)
Definition render (h : header) : result bytes :=
  run_empty (encode stream_rectangle h).

(** A chunk without data contributes nothing; any other chunk is its name,
    the length of its payload on four bytes, and the payload. *)
Definition framed_chunk (name : bytes) (data : chunk_data) : result bytes :=
  match data with
  | PyNone => Ok []
  | PyBytes payload =>
      size <- pack.uint32_le (Z.of_nat (length payload)) ;;
      Ok (name ++ size ++ payload)
  | PyObject h =>
      payload <- render h ;;
      size <- pack.uint32_le (Z.of_nat (length payload)) ;;
      Ok (name ++ size ++ payload)
  end.

Definition framed_each (f : entry -> result bytes) : list entry -> result bytes :=
  fix loop (l : list entry) : result bytes :=
    match l with
    | [] => Ok []
    | x :: rest => then_ (f x) (loop rest)
    end.

(** A list is its four-character code, the length of its name and of its
    framed entries on four bytes, the name, and the entries. *)
Definition framed_list_with (f : entry -> result bytes)
    (name : bytes) (structure : list entry) (fourcc : bytes) : result bytes :=
  body <- framed_each f structure ;;
  size <- pack.uint32_le (Z.of_nat (length (name ++ body))) ;;
  Ok (fourcc ++ size ++ name ++ body).

Fixpoint framed (e : entry) : result bytes :=
  match e with
  | Sublist name structure => framed_list_with framed name structure (b "LIST")
  | Chunk name data => framed_chunk name data
  end.

Definition framed_list : bytes -> list entry -> bytes -> result bytes :=
  framed_list_with framed.

End Framed.

(** Induction on structures, with the hypothesis for every entry of a
    sublist. *)
Fixpoint entry_ind' (P : entry -> Prop)
    (Hsub : forall name structure, Forall P structure -> P (Sublist name structure))
    (Hchunk : forall name data, P (Chunk name data))
    (e : entry) {struct e} : P e :=
  match e with
  | Sublist name structure =>
      Hsub name structure
        ((fix all (l : list entry) : Forall P l :=
            match l with
            | [] => Forall_nil P
            | x :: rest =>
                Forall_cons x (entry_ind' P Hsub Hchunk x) (all rest)
            end) structure)
  | Chunk name data => Hchunk name data
  end.

(** ** The framing as the specification words it

    [Recorded size n]: the four-byte field [size] records the number [n],
    little-endian and unsigned. *)
Definition Recorded (size : bytes) (n : nat) : Prop :=
  length size = 4%nat /\ int_from_bytes false size = Z.of_nat n.

(** [Framed e x]: [x] is the entry [e] fully framed.  A chunk without
    payload is absent; a chunk is its tag, the recorded length of its payload
    alone, and the payload as it is, unpadded; a list is its four-character
    code, the recorded length of its four-byte type tag plus the framed bytes
    of its children, the type tag, and the children in order. *)
Inductive Framed (stream_rectangle : list Z) : entry -> bytes -> Prop :=
| Framed_absent name :
    Framed stream_rectangle (Chunk name PyNone) []
| Framed_bytes name payload size :
    Recorded size (length payload) ->
    Framed stream_rectangle (Chunk name (PyBytes payload)) (name ++ size ++ payload)
| Framed_object name h payload size :
    render stream_rectangle h = Ok payload ->
    Recorded size (length payload) ->
    Framed stream_rectangle (Chunk name (PyObject h)) (name ++ size ++ payload)
| Framed_sublist name structure x :
    Listed stream_rectangle (b "LIST") name structure x ->
    Framed stream_rectangle (Sublist name structure) x
with Listed (stream_rectangle : list Z) : bytes -> bytes -> list entry -> bytes -> Prop :=
| Listed_intro fourcc name structure children size :
    length name = 4%nat ->
    FramedAll stream_rectangle structure children ->
    Recorded size (4 + length children) ->
    Listed stream_rectangle fourcc name structure (fourcc ++ size ++ name ++ children)
with FramedAll (stream_rectangle : list Z) : list entry -> bytes -> Prop :=
| FramedAll_nil :
    FramedAll stream_rectangle [] []
| FramedAll_cons e rest x y :
    Framed stream_rectangle e x ->
    FramedAll stream_rectangle rest y ->
    FramedAll stream_rectangle (e :: rest) (x ++ y).

(** Every list of the structure is named by four bytes. *)
Fixpoint list_names_fourcc (e : entry) : bool :=
  match e with
  | Sublist name structure =>
      (length name =? 4)%nat && forallb list_names_fourcc structure
  | Chunk _ _ => true
  end.

(** The bytes of a result, nothing when it raised. *)
Definition file_of (r : result bytes) : bytes :=
  match r with
  | Ok file => file
  | Raise _ => []
  end.

(** ** When writing returns *)

(** Every header object of the entry renders. *)
Fixpoint renders (stream_rectangle : list Z) (e : entry) : bool :=
  match e with
  | Sublist _ structure => forallb (renders stream_rectangle) structure
  | Chunk _ (PyObject h) =>
      match render stream_rectangle h with
      | Ok _ => true
      | Raise _ => false
      end
  | Chunk _ _ => true
  end.

(** The number of bytes the entry then takes in the file. *)
Fixpoint framed_size (stream_rectangle : list Z) (e : entry) : nat :=
  match e with
  | Sublist name structure =>
      8 + length name + list_sum (map (framed_size stream_rectangle) structure)
  | Chunk _ PyNone => 0
  | Chunk name (PyBytes payload) => length name + 4 + length payload
  | Chunk name (PyObject h) =>
      length name + 4 + length (file_of (render stream_rectangle h))
  end.

(** ** Running the operations *)

(** The heap an operation leaves, whether it returned or raised. *)
Definition after {A} (m : AviFile.M A) (hp : AviFile.heap) : AviFile.heap :=
  snd (m hp).

(** What an operation returned or raised. *)
Definition outcome {A} (m : AviFile.M A) (hp : AviFile.heap) : result A :=
  fst (m hp).

(** One frame after the other. *)
Fixpoint add_video_frames (frames : list bytes) : AviFile.M unit :=
  match frames with
  | [] => AviFile.mret tt
  | frame :: rest =>
      AviFile.mbind (AviFile.add_video_frame frame) (fun _ => add_video_frames rest)
  end.

(** The operations that change an [AviFile]; [write] only reads it. *)
Inductive operation : Type :=
| Initialize_video_stream (width height frames_per_second bits_per_pixel : Z)
    (palette : option bytes)
| Initialize_audio_stream (channel_count samples_per_second bits_per_sample : Z)
| Add_video_frame (frame : bytes)
| Add_audio_chunk (pcm : option bytes).

Definition perform (o : operation) : AviFile.M unit :=
  match o with
  | Initialize_video_stream width height fps bpp palette =>
      AviFile.initialize_video_stream width height fps bpp palette
  | Initialize_audio_stream channel_count samples_per_second bits_per_sample =>
      AviFile.initialize_audio_stream channel_count samples_per_second bits_per_sample
  | Add_video_frame frame => AviFile.add_video_frame frame
  | Add_audio_chunk pcm => AviFile.add_audio_chunk pcm
  end.

(** A caller performing operations in turn, going on after any that
    raised. *)
Fixpoint perform_all (ops : list operation) (hp : AviFile.heap) : AviFile.heap :=
  match ops with
  | [] => hp
  | o :: rest => perform_all rest (after (perform o) hp)
  end.

(** What every operation keeps: the shared rectangle has its four entries,
    and two fields of the main header are as [AviMainHeader()] made them. *)
Definition untouched (hp : AviFile.heap) : Prop :=
  length (AviFile.cls_stream_rectangle hp) = 4%nat /\
  AviMainHeader.stream_count (AviFile.main_header (AviFile.self hp)) = 1 /\
  AviMainHeader.total_frames (AviFile.main_header (AviFile.self hp)) = 0.

(** ** Reading what was written *)

(** Where the field of index [i] of a packed record starts. *)
Fixpoint offset (fields : list (Type_.t * option Z)) (i : nat) : nat :=
  match i, fields with
  | S i', (ty, _) :: rest => Type_.width ty + offset rest i'
  | _, _ => 0
  end.

Fixpoint starts_with (needle hay : bytes) : bool :=
  match needle, hay with
  | [], _ => true
  | _ :: _, [] => false
  | x :: needle', y :: hay' => Byte.eqb x y && starts_with needle' hay'
  end.

(** At how many positions [needle] occurs in [hay]. *)
Fixpoint occurrences (needle hay : bytes) : nat :=
  match hay with
  | [] => 0
  | _ :: rest =>
      (if starts_with needle hay then 1 else 0) + occurrences needle rest
  end.

(** The stream a computation that returned has left. *)
Definition stream_of (r : result (unit * stream)) : stream :=
  match r with
  | Ok (_, s) => s
  | Raise _ => empty_stream
  end.

(** The bitmap header an [AviFile] holds, or the class defaults. *)
Definition bitmap_of (hp : AviFile.heap) : BitmapInfo.t :=
  match AviFile.bitmap_header (AviFile.self hp) with
  | Some bitmap => bitmap
  | None => BitmapInfo.new
  end.

(** ** Example runs *)

(** A 2 by 2 video stream at 30 frames per second and 8 bits per pixel,
    initialized, without frames yet. *)
Definition video_initialized : AviFile.heap :=
  after (AviFile.initialize_video_stream 2 2 30 8 None) AviFile.initial.

(** The stream header [initialize_video_stream] makes for it. *)
Definition video_header_30 : AviStreamHeader.t :=
  AviStreamHeader.set_stream_size 0
    (AviStreamHeader.set_rate 30
       (AviStreamHeader.set_stream_type AviStreamType.Video AviStreamHeader.new)).

Definition three_frames : list bytes := [b "abcd"; b "efgh"; b "ijkl"].

(** The same video with one frame and no audio stream. *)
Definition video_only : AviFile.heap :=
  after (AviFile.add_video_frame (b "abcd")) video_initialized.

(** The same with an audio stream of two 16-bit channels at 22050 Hz and
    one block of samples. *)
Definition video_and_audio : AviFile.heap :=
  after (AviFile.add_audio_chunk (Some (b "wxyz")))
    (after (AviFile.initialize_audio_stream 2 22050 16) video_only).

(** The operations that lead to [video_and_audio]. *)
Definition video_and_audio_operations : list operation :=
  [ Initialize_video_stream 2 2 30 8 None;
    Add_video_frame (b "abcd");
    Initialize_audio_stream 2 22050 16;
    Add_audio_chunk (Some (b "wxyz")) ].

(** The wave format of that audio stream. *)
Definition wave_example : PcmWaveFormatEx.t := {|
  PcmWaveFormatEx.format_tag := 1;
  PcmWaveFormatEx.channel_count := Some 2;
  PcmWaveFormatEx.samples_per_second := Some 22050;
  PcmWaveFormatEx.bits_per_sample := Some 16;
  PcmWaveFormatEx.additional_information_size := 0
|}.

(** A 160 by 120 video at 30 frames per second and 8 bits per pixel. *)
Definition video_160_120 : AviFile.heap :=
  after (AviFile.initialize_video_stream 160 120 30 8 None) AviFile.initial.

(** ** Containers built by the operations *)

(** The main header with only the three fields that
    [initialize_video_stream] sets possibly away from their defaults. *)
Definition main_header_built (m : AviMainHeader.t) : Prop :=
  AviMainHeader.max_bytes_per_second m = 0 /\
  AviMainHeader.padding_in_bytes m = 1 /\
  AviMainHeader.flags m = 0 /\
  AviMainHeader.total_frames m = 0 /\
  AviMainHeader.initial_frames m = 0 /\
  AviMainHeader.stream_count m = 1 /\
  AviMainHeader.suggested_buffer_size m = 0 /\
  AviMainHeader.reserved m = [0; 0; 0; 0].

(** A stream header as one of the two [initialize_] operations makes it,
    up to its frame counter. *)
Definition stream_header_built (ty : bytes) (h : AviStreamHeader.t) : Prop :=
  exists rate,
    h = AviStreamHeader.set_stream_size (AviStreamHeader.stream_size h)
          (AviStreamHeader.set_rate rate
             (AviStreamHeader.set_stream_type ty AviStreamHeader.new)).

Definition wave_header_built (w : PcmWaveFormatEx.t) : Prop :=
  exists channel_count samples_per_second bits_per_sample,
    w = {| PcmWaveFormatEx.format_tag := 1;
           PcmWaveFormatEx.channel_count := Some channel_count;
           PcmWaveFormatEx.samples_per_second := Some samples_per_second;
           PcmWaveFormatEx.bits_per_sample := Some bits_per_sample;
           PcmWaveFormatEx.additional_information_size := 0 |}.

(** What holds of every heap the operations lead to from a new
    [AviFile]. *)
Definition built (hp : AviFile.heap) : Prop :=
  let a := AviFile.self hp in
  length (AviFile.cls_stream_rectangle hp) = 4%nat /\
  main_header_built (AviFile.main_header a) /\
  (forall h, AviFile.video_stream_header a = Some h ->
     stream_header_built AviStreamType.Video h /\
     0 <= AviStreamHeader.stream_size h <= Z.of_nat (length (AviFile.video_chunks a))) /\
  (forall h, AviFile.audio_stream_header a = Some h ->
     stream_header_built AviStreamType.Audio h /\
     AviStreamHeader.stream_size h = 0 /\
     exists w, AviFile.wave_header a = Some w /\
               AviStreamHeader.rate h = PcmWaveFormatEx.samples_per_second w) /\
  (forall w, AviFile.wave_header a = Some w -> wave_header_built w) /\
  (AviFile.bitmap_header a = None <-> AviFile.video_stream_header a = None) /\
  Forall (fun c => fst c = b "00db") (AviFile.video_chunks a) /\
  Forall (fun c => fst c = b "01wb") (AviFile.audio_chunks a).

(** Whether the operation is [initialize_video_stream]. *)
Definition initializes_video (o : operation) : bool :=
  match o with
  | Initialize_video_stream _ _ _ _ _ => true
  | _ => false
  end.

(** [raises_only e r]: if [r] is an exception, it is [e]. *)
Definition raises_only {A} (e : exn) (r : result A) : Prop :=
  forall e', r = Raise e' -> e' = e.

(** The header objects of an entry. *)
Fixpoint headers (e : entry) : list header :=
  match e with
  | Sublist _ structure => flat_map headers structure
  | Chunk _ (PyObject h) => [h]
  | Chunk _ _ => []
  end.

(** An audio stream and one block of samples, no video stream. *)
Definition audio_only_operations : list operation :=
  [ Initialize_audio_stream 2 22050 16; Add_audio_chunk (Some (b "wxyz")) ].

(** A frame added before any initialization, then the 2 by 2 video
    stream. *)
Definition frame_then_video_operations : list operation :=
  [ Add_video_frame (b "abcd"); Initialize_video_stream 2 2 30 8 None ].

(** The stream header [initialize_audio_stream] makes for 22050 samples per
    second. *)
Definition audio_header_22050 : AviStreamHeader.t :=
  AviStreamHeader.set_rate 22050
    (AviStreamHeader.set_stream_type AviStreamType.Audio AviStreamHeader.new).

(** The audio stream initialized first, on a new [AviFile]. *)
Definition audio_initialized : AviFile.heap :=
  after (AviFile.initialize_audio_stream 2 22050 16) AviFile.initial.

(** Whether the operation adds a frame or an audio chunk. *)
Definition adds (o : operation) : bool :=
  match o with
  | Add_video_frame _ | Add_audio_chunk _ => true
  | _ => false
  end.

(** The frames, and the audio chunks, that a run of operations adds, each
    in the order of the calls. *)
Fixpoint frames_of (ops : list operation) : list bytes :=
  match ops with
  | [] => []
  | Add_video_frame frame :: rest => frame :: frames_of rest
  | _ :: rest => frames_of rest
  end.

Fixpoint pcms_of (ops : list operation) : list (option bytes) :=
  match ops with
  | [] => []
  | Add_audio_chunk pcm :: rest => pcm :: pcms_of rest
  | _ :: rest => pcms_of rest
  end.

(** Frames and audio chunks added turn about, and the same with all the
    frames first. *)
Definition interleaved_operations : list operation :=
  [ Add_audio_chunk (Some (b "wx")); Add_video_frame (b "abcd");
    Add_audio_chunk (Some (b "yz")); Add_video_frame (b "efgh") ].

Definition grouped_operations : list operation :=
  [ Add_video_frame (b "abcd"); Add_video_frame (b "efgh");
    Add_audio_chunk (Some (b "wx")); Add_audio_chunk (Some (b "yz")) ].

(** The palette of a bitmap header as bytes. *)
Definition palette_bytes (i : BitmapInfo.t) : bytes :=
  match BitmapInfo.palette i with
  | Some palette => palette
  | None => []
  end.

(** The bytes the frames take in the ['movi'] list: eight bytes of tag and
    size before each. *)
Definition frames_size (frames : list bytes) : nat :=
  list_sum (map (fun frame => 8 + length frame)%nat frames).

(** The same for audio chunks; one without samples takes nothing. *)
Definition pcms_size (pcms : list (option bytes)) : nat :=
  list_sum (map (fun pcm => match pcm with
                            | Some samples => 8 + length samples
                            | None => 0
                            end)%nat pcms).

(** The bytes of an optional palette. *)
Definition or_empty (o : option bytes) : bytes :=
  match o with
  | Some data => data
  | None => []
  end.

(** A palette of two colours. *)
Definition two_colours : bytes := b "rgbRGB".

(** ** The chunks as they lie in the file *)

(** A chunk as it is stored: its name, the length of its data on four
    bytes, and the data, with nothing after them. *)
Definition stored (name data : bytes) : bytes :=
  name ++ le_split 4 (Z.of_nat (length data)) ++ data.

Definition stored_video (c : bytes * bytes) : bytes :=
  stored (fst c) (snd c).

Definition stored_audio (c : bytes * option bytes) : bytes :=
  match snd c with
  | Some pcm => stored (fst c) pcm
  | None => []
  end.

(** * Properties *)

(** ** The struct encoder *)

Lemma pack_value_length ty v bs :
  pack.value ty v = Ok bs -> length bs = Type_.width ty.
Proof.
  unfold pack.value. destruct v as [z|]; [|discriminate].
  destruct (Type_.in_range ty z); [|discriminate].
  intros H. injection H as <-. apply length_le_split.
Qed.

Lemma pack_value_range ty v bs :
  pack.value ty v = Ok bs ->
  exists z, v = Some z /\ Type_.in_range ty z = true /\ bs = le_split (Type_.width ty) z.
Proof.
  unfold pack.value. destruct v as [z|]; [|discriminate].
  destruct (Type_.in_range ty z) eqn:E; [|discriminate].
  intros H. injection H as <-. exists z. auto.
Qed.

Lemma pack_uint32_le_ok v :
  0 <= v < 2 ^ 32 -> pack.uint32_le v = Ok (le_split 4 v).
Proof.
  intros H. unfold pack.uint32_le, pack.value, Type_.in_range.
  change (Type_.min_value Type_.uint32_le) with 0.
  change (Type_.max_value Type_.uint32_le) with (2 ^ 32 - 1).
  destruct (Z.leb_spec 0 v); [|lia].
  destruct (Z.leb_spec v (2 ^ 32 - 1)); [|lia].
  reflexivity.
Qed.

Lemma pack_uint32_le_inv v bs :
  pack.uint32_le v = Ok bs -> 0 <= v < 2 ^ 32 /\ bs = le_split 4 v.
Proof.
  intros H. unfold pack.uint32_le in H.
  apply pack_value_range in H. destruct H as (z & Hz & Hr & ->).
  injection Hz as <-. split; [|reflexivity].
  unfold Type_.in_range in Hr.
  change (Type_.min_value Type_.uint32_le) with 0 in Hr.
  change (Type_.max_value Type_.uint32_le) with (2 ^ 32 - 1) in Hr.
  apply andb_true_iff in Hr. destruct Hr as [H0 H1].
  apply Z.leb_le in H0. apply Z.leb_le in H1. lia.
Qed.

(** What is read back from a packed unsigned field is the value packed. *)
Lemma int_from_bytes_unsigned n v :
  0 <= v < 2 ^ (Z.of_nat n * 8) ->
  int_from_bytes false (le_split n v) = v.
Proof.
  intros H. unfold int_from_bytes. simpl.
  rewrite le_combine_split. apply Z.mod_small. exact H.
Qed.

(** The same for a signed field. *)
Lemma int_from_bytes_signed n v :
  (0 < n)%nat ->
  - 2 ^ (Z.of_nat n * 8 - 1) <= v < 2 ^ (Z.of_nat n * 8 - 1) ->
  int_from_bytes true (le_split n v) = v.
Proof.
  intros Hn H. unfold int_from_bytes.
  rewrite le_combine_split, length_le_split.
  replace (8 * Z.of_nat n) with (Z.of_nat n * 8) by lia.
  set (k := Z.of_nat n * 8) in *.
  assert (Hk : 0 < k) by (unfold k; lia).
  assert (Hp : 2 ^ k = 2 * 2 ^ (k - 1)).
  { replace k with (Z.succ (k - 1)) at 1 by lia. apply Z.pow_succ_r. lia. }
  assert (Hq : 0 < 2 ^ (k - 1)) by (apply Z.pow_pos_nonneg; lia).
  simpl andb. rewrite (proj2 (Z.ltb_lt 0 k) Hk). simpl andb.
  destruct (Z.leb_spec (2 ^ (k - 1)) (v mod 2 ^ k)) as [Hge|Hlt].
  - assert (v < 0).
    { destruct (Z.lt_ge_cases v 0); [assumption|].
      rewrite Z.mod_small in Hge by lia. lia. }
    replace (v mod 2 ^ k) with ((v + 2 ^ k) mod 2 ^ k).
    + rewrite Z.mod_small by lia. lia.
    + rewrite <- (Z.mod_add v 1 (2 ^ k)) by lia. f_equal. lia.
  - destruct (Z.lt_ge_cases v 0) as [Hneg|Hpos].
    + exfalso.
      assert (E : v mod 2 ^ k = v + 2 ^ k).
      { rewrite <- (Z.mod_add v 1 (2 ^ k)) by lia.
        rewrite Z.mod_small by lia. lia. }
      lia.
    + apply Z.mod_small. lia.
Qed.

(** ** The stream *)

Lemma at_end_append s data : at_end (append s data).
Proof. reflexivity. Qed.

Lemma append_nil s : at_end s -> append s [] = s.
Proof.
  destruct s as [bf p]. unfold at_end, append. simpl. intros ->.
  rewrite app_nil_r. reflexivity.
Qed.

Lemma append_append s x y : append (append s x) y = append s (x ++ y).
Proof. unfold append. simpl. rewrite <- app_assoc. reflexivity. Qed.

Lemma stream_write_at_end data s :
  at_end s -> stream_write data s = append s data.
Proof.
  destruct s as [bf p]. unfold at_end, stream_write, append. simpl. intros ->.
  rewrite Nat.sub_diag. simpl. rewrite app_nil_r.
  rewrite firstn_all, skipn_all2 by (rewrite ?length_app; lia).
  rewrite app_nil_r, length_app. reflexivity.
Qed.

(** Writing four bytes over a placeholder in the middle of the buffer
    replaces the placeholder and nothing else. *)
Lemma stream_write_over_placeholder before size after :
  length size = 4%nat ->
  buf (stream_write size
         {| buf := before ++ placeholder ++ after; pos := length before |}) =
  before ++ size ++ after.
Proof.
  intros Hs. unfold stream_write. cbn [buf pos].
  set (full := before ++ placeholder ++ after).
  assert (Hpad : (length before - length full = 0)%nat)
    by (unfold full; rewrite length_app; lia).
  rewrite Hpad. cbn [repeat]. rewrite app_nil_r. unfold full.
  rewrite firstn_app, firstn_all, Nat.sub_diag. cbn [firstn].
  rewrite app_nil_r. f_equal. f_equal.
  rewrite skipn_app, skipn_all2 by lia.
  replace (length before + length size - length before)%nat with 4%nat by lia.
  reflexivity.
Qed.

(** ** Computations that only append *)

Lemma appends_ret : appends (wret tt) (Ok []).
Proof. intros s Hs. unfold wret. simpl. rewrite append_nil by assumption. reflexivity. Qed.

Lemma appends_write data : appends (Stream.write data) (Ok data).
Proof.
  intros s Hs. unfold Stream.write. simpl.
  rewrite stream_write_at_end by assumption. reflexivity.
Qed.

Lemma appends_raise e : appends (wlift (Raise e)) (Raise e).
Proof. intros s Hs. reflexivity. Qed.

Lemma appends_seq m1 m2 r1 r2 :
  appends m1 r1 -> appends m2 r2 ->
  appends (m1 ;; m2)%stream (then_ r1 r2).
Proof.
  intros H1 H2 s Hs. unfold wbind. rewrite (H1 s Hs).
  destruct r1 as [x|e]; simpl; [|reflexivity].
  rewrite (H2 _ (at_end_append s x)).
  destruct r2 as [y|e]; simpl; [|reflexivity].
  rewrite append_append. reflexivity.
Qed.

Lemma appends_lift {A} (r : result A) (k : A -> W unit) (g : A -> result bytes) :
  (forall a, r = Ok a -> appends (k a) (g a)) ->
  appends (a <- wlift r ;; k a)%stream (rbind r g).
Proof.
  intros H s Hs. unfold wbind, wlift.
  destruct r as [a|e]; simpl; [|reflexivity].
  apply H; [reflexivity | assumption].
Qed.

Lemma rbind_ok_r {A} (r : result A) : rbind r (fun a => Ok a) = r.
Proof. destruct r; reflexivity. Qed.

Lemma appends_pack_from_list fields :
  appends (pack_from_list_into fields) (pack.from_list fields).
Proof.
  unfold pack_from_list_into.
  rewrite <- (rbind_ok_r (pack.from_list fields)) at 2.
  apply appends_lift. intros data _. apply appends_write.
Qed.

(** The tail shared by [_write_list] and by [_write_chunk] on an object:
    measure what was written since the placeholder, go back, write the
    size over the placeholder, return to the end. *)
Lemma backpatch_appends (start : stream) (tag content : bytes) :
  at_end start ->
  let s := append start (tag ++ placeholder ++ content) in
  let size_pointer := length (buf start ++ tag) in
  let content_start_pointer := length (buf start ++ tag ++ placeholder) in
  (end_pointer <- Stream.tell ;;
   current_position <- Stream.tell ;;
   Stream.seek size_pointer ;;
   pack_uint32_le_into (Z.of_nat end_pointer - Z.of_nat content_start_pointer) ;;
   Stream.seek current_position)%stream s =
  appended start
    (size <- pack.uint32_le (Z.of_nat (length content)) ;;
     Ok (tag ++ size ++ content))%result.
Proof.
  intros Hs s size_pointer content_start_pointer.
  unfold wbind, Stream.tell, Stream.seek, pack_uint32_le_into, wlift,
    Stream.write, stream_tell, stream_seek.
  cbn [pos buf s append].
  replace (Z.of_nat (length (buf start ++ tag ++ placeholder ++ content)) -
           Z.of_nat content_start_pointer)
    with (Z.of_nat (length content))
    by (unfold content_start_pointer; rewrite !length_app; lia).
  destruct (pack.uint32_le (Z.of_nat (length content))) as [size|e] eqn:E;
    [|reflexivity].
  assert (Hl : length size = 4%nat)
    by (apply pack_uint32_le_inv in E; destruct E as [_ ->]; apply length_le_split).
  unfold wbind. cbn [rbind appended append buf pos]. do 2 f_equal.
  assert (Hlen : length (buf start ++ tag ++ placeholder ++ content) =
                 length (buf start ++ tag ++ size ++ content))
    by (rewrite !length_app; cbn [length placeholder]; lia).
  rewrite Hlen. f_equal.
  unfold size_pointer.
  replace (buf start ++ tag ++ placeholder ++ content)
    with ((buf start ++ tag) ++ placeholder ++ content)
    by (rewrite <- app_assoc; reflexivity).
  rewrite stream_write_over_placeholder by assumption.
  rewrite <- app_assoc. reflexivity.
Qed.

(** ** The bytes a structure is written as *)

Lemma appends_run_empty m r : appends m r -> run_empty m = r.
Proof.
  intros H. unfold run_empty. rewrite (H empty_stream eq_refl).
  destruct r; reflexivity.
Qed.

Section FramedChunk.
Variable stream_rectangle : list Z.

(** Every header encoder only appends. *)
Lemma encode_appends h : appends (encode stream_rectangle h) (render stream_rectangle h).
Proof.
  assert (H : exists r, appends (encode stream_rectangle h) r).
  { destruct h as [m|s|i|w]; cbn [encode].
    - eexists. unfold AviMainHeader.encode.
      apply appends_lift. intros fs _. apply appends_pack_from_list.
    - unfold AviStreamHeader.encode.
      destruct (AviStreamHeader.stream_type s) as [ty|]; eexists.
      + apply appends_seq; [apply appends_write|].
        apply appends_seq; [apply appends_write|].
        apply appends_lift. intros fs _. apply appends_pack_from_list.
      + apply appends_seq; [apply appends_raise|].
        apply appends_seq; [apply appends_write|].
        apply appends_lift. intros fs _. apply appends_pack_from_list.
    - unfold BitmapInfo.encode.
      destruct (BitmapInfo.palette i) as [[|x rest]|]; eexists;
        (apply appends_seq; [apply appends_pack_from_list|]);
        first [apply appends_ret | apply appends_write].
    - eexists. unfold PcmWaveFormatEx.encode.
      apply appends_lift. intros fs _. apply appends_pack_from_list. }
  destruct H as [r Hr]. unfold render.
  rewrite (appends_run_empty _ _ Hr). exact Hr.
Qed.

Lemma _write_chunk_appends name data :
  appends (_write_chunk stream_rectangle name data) (framed_chunk stream_rectangle name data).
Proof.
  destruct data as [|payload|h]; cbn [_write_chunk framed_chunk].
  - apply appends_ret.
  - intros s Hs. unfold wbind at 1.
    rewrite (appends_write name s Hs). cbn [appended].
    unfold wbind at 1. unfold pack_uint32_le_into, wbind, wlift.
    destruct (pack.uint32_le (Z.of_nat (length payload))) as [size|e];
      [|reflexivity].
    cbn [rbind].
    rewrite (appends_write size _ (at_end_append s name)). cbn [appended].
    rewrite (appends_write payload _ (at_end_append _ size)). cbn [appended].
    rewrite !append_append. reflexivity.
  - intros s Hs. unfold wbind at 1.
    rewrite (appends_write name s Hs). cbn [appended].
    unfold wbind at 1. unfold Stream.tell at 1. unfold wbind at 1.
    rewrite (appends_write placeholder _ (at_end_append s name)). cbn [appended].
    unfold wbind at 1. unfold Stream.tell at 1. unfold wbind at 1.
    rewrite (encode_appends h _ (at_end_append _ placeholder)).
    destruct (render stream_rectangle h) as [payload|e]; [|reflexivity].
    cbn [appended rbind].
    rewrite !append_append.
    unfold stream_tell. cbn [pos append].
    rewrite <- app_assoc.
    apply (backpatch_appends s name payload Hs).
Qed.
End FramedChunk.

Section WriterFramed.
Variable stream_rectangle : list Z.

Lemma for_each_appends (f : entry -> W unit) (g : entry -> result bytes) l :
  Forall (fun e => appends (f e) (g e)) l ->
  appends (for_each f l) (framed_each g l).
Proof.
  induction 1 as [|x rest Hx _ IH]; cbn [for_each framed_each].
  - apply appends_ret.
  - apply appends_seq; assumption.
Qed.

Lemma _write_list_with_appends f g name structure fourcc :
  Forall (fun e => appends (f e) (g e)) structure ->
  appends (_write_list_with f name structure fourcc)
          (framed_list_with g name structure fourcc).
Proof.
  intros Hall s Hs. unfold _write_list_with, framed_list_with.
  unfold wbind at 1.
  rewrite (appends_write fourcc s Hs). cbn [appended].
  unfold wbind at 1. unfold Stream.tell at 1. unfold wbind at 1.
  rewrite (appends_write placeholder _ (at_end_append s fourcc)). cbn [appended].
  unfold wbind at 1. unfold Stream.tell at 1. unfold wbind at 1.
  rewrite (appends_write name _ (at_end_append _ placeholder)). cbn [appended].
  unfold wbind at 1.
  rewrite (for_each_appends f g structure Hall _ (at_end_append _ name)).
  destruct (framed_each g structure) as [body|e]; [|reflexivity].
  cbn [appended rbind].
  rewrite !append_append.
  unfold stream_tell. cbn [pos append].
  rewrite <- app_assoc.
  apply (backpatch_appends s fourcc (name ++ body) Hs).
Qed.

(** Writing an entry at the end of a stream appends its framed bytes, and
    raises exactly when framing raises. *)
Lemma write_entry_appends e :
  appends (write_entry stream_rectangle e) (framed stream_rectangle e).
Proof.
  induction e as [name structure IH|name data] using entry_ind'.
  - cbn [write_entry framed]. apply _write_list_with_appends. exact IH.
  - cbn [write_entry framed]. apply _write_chunk_appends.
Qed.

Lemma _write_list_appends name structure fourcc :
  appends (_write_list stream_rectangle name structure fourcc)
          (framed_list stream_rectangle name structure fourcc).
Proof.
  apply _write_list_with_appends. apply Forall_forall.
  intros e _. apply write_entry_appends.
Qed.
End WriterFramed.

(** The file [write] leaves is the framed RIFF list of its structure. *)
Lemma write_framed hp :
  AviFile.write hp =
  (structure <- AviFile.riff_structure (AviFile.self hp) ;;
   framed_list (AviFile.cls_stream_rectangle hp) (b "AVI ") structure (b "RIFF"))%result.
Proof.
  unfold AviFile.write.
  destruct (AviFile.riff_structure (AviFile.self hp)) as [structure|e];
    [|reflexivity].
  cbn [rbind].
  rewrite (_write_list_appends _ (b "AVI ") structure (b "RIFF") empty_stream eq_refl).
  destruct (framed_list _ _ _ _); reflexivity.
Qed.

(** ** The recorded sizes *)

Lemma pack_uint32_le_recorded n size :
  pack.uint32_le (Z.of_nat n) = Ok size -> Recorded size n.
Proof.
  intros H. apply pack_uint32_le_inv in H. destruct H as [Hr ->].
  split; [apply length_le_split|].
  apply int_from_bytes_unsigned. exact Hr.
Qed.

Section FramedRelation.
Variable stream_rectangle : list Z.

Lemma framed_each_FramedAll l :
  Forall (fun e => list_names_fourcc e = true ->
                   forall x, framed stream_rectangle e = Ok x ->
                             Framed stream_rectangle e x) l ->
  forallb list_names_fourcc l = true ->
  forall children,
    framed_each (framed stream_rectangle) l = Ok children ->
    FramedAll stream_rectangle l children.
Proof.
  induction 1 as [|e rest He _ IH]; cbn [forallb framed_each]; intros Hn children Hc.
  - injection Hc as <-. constructor.
  - apply andb_true_iff in Hn. destruct Hn as [Hne Hnr].
    unfold then_ in Hc.
    destruct (framed stream_rectangle e) as [x|]; [|discriminate].
    cbn [rbind] in Hc.
    destruct (framed_each (framed stream_rectangle) rest) as [y|]; [|discriminate].
    injection Hc as <-.
    constructor; [apply He | apply IH]; auto.
Qed.

Lemma framed_list_with_Listed fourcc name structure x :
  Forall (fun e => list_names_fourcc e = true ->
                   forall x, framed stream_rectangle e = Ok x ->
                             Framed stream_rectangle e x) structure ->
  (length name =? 4)%nat && forallb list_names_fourcc structure = true ->
  framed_list_with (framed stream_rectangle) name structure fourcc = Ok x ->
  Listed stream_rectangle fourcc name structure x.
Proof.
  intros Hall Hn Hx. apply andb_true_iff in Hn. destruct Hn as [Hname Hrest].
  apply Nat.eqb_eq in Hname.
  unfold framed_list_with in Hx.
  destruct (framed_each (framed stream_rectangle) structure) as [children|] eqn:Hc;
    [|discriminate].
  cbn [rbind] in Hx.
  destruct (pack.uint32_le (Z.of_nat (length (name ++ children)))) as [size|] eqn:Hs;
    [|discriminate].
  cbn [rbind] in Hx. injection Hx as <-.
  constructor.
  - exact Hname.
  - apply framed_each_FramedAll; assumption.
  - apply pack_uint32_le_recorded in Hs.
    rewrite length_app, Hname in Hs. exact Hs.
Qed.

Lemma framed_Framed e :
  list_names_fourcc e = true ->
  forall x, framed stream_rectangle e = Ok x -> Framed stream_rectangle e x.
Proof.
  induction e as [name structure IH|name data] using entry_ind'.
  - cbn [list_names_fourcc framed]. intros Hn x Hx.
    constructor. apply framed_list_with_Listed; assumption.
  - intros _ x Hx. cbn [framed] in Hx.
    destruct data as [|payload|h]; cbn [framed_chunk] in Hx.
    + injection Hx as <-. constructor.
    + destruct (pack.uint32_le (Z.of_nat (length payload))) as [size|] eqn:Hs;
        [|discriminate].
      cbn [rbind] in Hx. injection Hx as <-. constructor.
      apply pack_uint32_le_recorded. exact Hs.
    + destruct (render stream_rectangle h) as [payload|] eqn:Hp; [|discriminate].
      cbn [rbind] in Hx.
      destruct (pack.uint32_le (Z.of_nat (length payload))) as [size|] eqn:Hs;
        [|discriminate].
      cbn [rbind] in Hx. injection Hx as <-.
      apply Framed_object; [exact Hp|].
      apply pack_uint32_le_recorded. exact Hs.
Qed.
End FramedRelation.

Lemma forallb_map_chunks {A} (f : A -> entry) (l : list A) :
  (forall a, list_names_fourcc (f a) = true) ->
  forallb list_names_fourcc (map f l) = true.
Proof.
  intros H. induction l as [|a rest IH]; cbn [map forallb]; [reflexivity|].
  rewrite H, IH. reflexivity.
Qed.

Lemma riff_structure_names a structure :
  AviFile.riff_structure a = Ok structure ->
  forallb list_names_fourcc structure = true.
Proof.
  unfold AviFile.riff_structure.
  destruct (AviFile.bitmap_header a) as [bitmap|]; [|discriminate].
  intros H. injection H as <-.
  cbn. rewrite forallb_app, !forallb_map_chunks by reflexivity. reflexivity.
Qed.

(** C3.  In every file that [write] produces, every list records the length
    of its four-byte type tag plus the framed bytes of its children, in the
    order the structure has them, and every chunk records the length of its
    payload alone: no padding, and not the eight bytes of tag and size. *)
Theorem write_records_sizes hp file :
  AviFile.write hp = Ok file ->
  exists structure,
    AviFile.riff_structure (AviFile.self hp) = Ok structure /\
    Listed (AviFile.cls_stream_rectangle hp) (b "RIFF") (b "AVI ") structure file.
Proof.
  rewrite write_framed. intros H.
  destruct (AviFile.riff_structure (AviFile.self hp)) as [structure|] eqn:Hs;
    [|discriminate].
  cbn [rbind] in H. exists structure. split; [reflexivity|].
  apply framed_list_with_Listed.
  - apply Forall_forall. intros e _. apply framed_Framed.
  - rewrite (riff_structure_names _ _ Hs). reflexivity.
  - exact H.
Qed.

Lemma write_records_sizes_witness :
  exists structure,
    AviFile.riff_structure (AviFile.self video_and_audio) = Ok structure /\
    Listed (AviFile.cls_stream_rectangle video_and_audio) (b "RIFF") (b "AVI ")
      structure (file_of (AviFile.write video_and_audio)).
Proof.
  apply (write_records_sizes video_and_audio
           (file_of (AviFile.write video_and_audio))).
  vm_compute. reflexivity.
Defined.

(** ** Initializing the video stream *)

Lemma length_four (l : list Z) :
  length l = 4%nat -> exists x0 x1 x2 x3, l = [x0; x1; x2; x3].
Proof.
  destruct l as [|x0 [|x1 [|x2 [|x3 [|x4 rest]]]]]; try discriminate.
  intros _. exists x0, x1, x2, x3. reflexivity.
Qed.

(** The heap a call that does not raise leaves.  The call raises only when
    the frame rate is zero: nothing looks at the width or at the height. *)
Lemma initialize_video_stream_returns hp width height fps bpp palette x0 x1 x2 x3 :
  AviFile.cls_stream_rectangle hp = [x0; x1; x2; x3] ->
  fps <> 0 ->
  AviFile.initialize_video_stream width height fps bpp palette hp =
  (Ok tt,
   {| AviFile.cls_stream_rectangle := [x0; x1; width; - height];
      AviFile.self := {|
        AviFile.main_header :=
          AviMainHeader.set_height (- height)
            (AviMainHeader.set_width width
               (AviMainHeader.set_micro_seconds_per_frame (1000000 / fps)
                  (AviFile.main_header (AviFile.self hp))));
        AviFile.audio_stream_header := AviFile.audio_stream_header (AviFile.self hp);
        AviFile.wave_header := AviFile.wave_header (AviFile.self hp);
        AviFile.audio_chunks := AviFile.audio_chunks (AviFile.self hp);
        AviFile.video_stream_header :=
          Some (AviStreamHeader.set_stream_size 0
                  (AviStreamHeader.set_rate fps
                     (AviStreamHeader.set_stream_type AviStreamType.Video
                        AviStreamHeader.new)));
        AviFile.video_chunks := AviFile.video_chunks (AviFile.self hp);
        AviFile.bitmap_header := Some {|
          BitmapInfo.STRUCTURE_SIZE := 40;
          BitmapInfo.width := Some width;
          BitmapInfo.height := Some (- height);
          BitmapInfo.planes := 1;
          BitmapInfo.bits_per_pixel := Some bpp;
          BitmapInfo.compression := 0;
          BitmapInfo.image_length := 0;
          BitmapInfo.horizontal_resolution := 0;
          BitmapInfo.vertical_resolution := 0;
          BitmapInfo.used_colors := 0;
          BitmapInfo.important_colors := 0;
          BitmapInfo.palette := palette
        |}
      |}
   |}).
Proof.
  destruct hp as [rect a]. cbn [AviFile.cls_stream_rectangle AviFile.self].
  intros -> Hfps.
  unfold AviFile.initialize_video_stream, AviFile.floordiv.
  destruct (Z.eqb_spec fps 0) as [E|_]; [contradiction|].
  reflexivity.
Qed.

(** With a frame rate of zero the call raises, whatever the dimensions. *)
Lemma initialize_video_stream_zero_rate hp width height bpp palette :
  length (AviFile.cls_stream_rectangle hp) = 4%nat ->
  outcome (AviFile.initialize_video_stream width height 0 bpp palette) hp =
  Raise ZeroDivisionError.
Proof.
  intros H. apply length_four in H. destruct H as (x0 & x1 & x2 & x3 & H).
  destruct hp as [rect a]. cbn [AviFile.cls_stream_rectangle] in H. subst rect.
  reflexivity.
Qed.

(** C4, as the code has it.  No dimension is validated: with a width or a
    height that is zero or negative the call returns like any other, as long
    as the frame rate is not zero, and stores the width and the negated
    height it was given. *)
Theorem initialize_video_stream_accepts_any_dimensions
    hp width height fps bpp palette :
  width <= 0 \/ height <= 0 ->
  fps <> 0 ->
  length (AviFile.cls_stream_rectangle hp) = 4%nat ->
  let call := AviFile.initialize_video_stream width height fps bpp palette in
  outcome call hp = Ok tt /\
  AviMainHeader.width (AviFile.main_header (AviFile.self (after call hp))) =
    Some width /\
  AviMainHeader.height (AviFile.main_header (AviFile.self (after call hp))) =
    Some (- height).
Proof.
  intros _ Hfps Hrect call.
  apply length_four in Hrect. destruct Hrect as (x0 & x1 & x2 & x3 & Hrect).
  unfold outcome, after, call.
  rewrite (initialize_video_stream_returns _ _ _ _ _ _ _ _ _ _ Hrect Hfps).
  repeat split.
Qed.

Lemma initialize_video_stream_accepts_any_dimensions_witness :
  outcome (AviFile.initialize_video_stream 0 (-3) 30 8 None) AviFile.initial = Ok tt /\
  AviMainHeader.width
    (AviFile.main_header
       (AviFile.self
          (after (AviFile.initialize_video_stream 0 (-3) 30 8 None) AviFile.initial))) =
    Some 0 /\
  AviMainHeader.height
    (AviFile.main_header
       (AviFile.self
          (after (AviFile.initialize_video_stream 0 (-3) 30 8 None) AviFile.initial))) =
    Some (- (-3)).
Proof.
  apply (initialize_video_stream_accepts_any_dimensions
           AviFile.initial 0 (-3) 30 8 None).
  - left. lia.
  - lia.
  - reflexivity.
Defined.

(** C4 fails as stated: a call with width 0 and height 0 returns; nothing
    is raised. *)
Lemma initialize_video_stream_zero_dimensions_returns :
  outcome (AviFile.initialize_video_stream 0 0 30 8 None) AviFile.initial = Ok tt.
Proof. reflexivity. Qed.

(** C6.  The interval stored in the main header is [1000000 // fps]; for a
    positive frame rate that is the quotient truncated, and for 30 frames
    per second it is 33333. *)
Theorem initialize_video_stream_micro_seconds_per_frame
    hp width height fps bpp palette :
  fps <> 0 ->
  length (AviFile.cls_stream_rectangle hp) = 4%nat ->
  AviMainHeader.micro_seconds_per_frame
    (AviFile.main_header
       (AviFile.self
          (after (AviFile.initialize_video_stream width height fps bpp palette) hp))) =
    Some (1000000 / fps) /\
  (0 < fps -> 1000000 / fps = Z.quot 1000000 fps) /\
  AviMainHeader.micro_seconds_per_frame
    (AviFile.main_header
       (AviFile.self
          (after (AviFile.initialize_video_stream width height 30 bpp palette) hp))) =
    Some 33333.
Proof.
  intros Hfps Hrect.
  apply length_four in Hrect. destruct Hrect as (x0 & x1 & x2 & x3 & Hrect).
  unfold after.
  rewrite (initialize_video_stream_returns _ _ _ _ _ _ _ _ _ _ Hrect Hfps).
  rewrite (initialize_video_stream_returns hp width height 30 bpp palette
             _ _ _ _ Hrect) by discriminate.
  repeat split.
  intros Hpos. symmetry. apply Z.quot_div_nonneg; lia.
Qed.

Lemma initialize_video_stream_micro_seconds_per_frame_witness :
  AviMainHeader.micro_seconds_per_frame
    (AviFile.main_header
       (AviFile.self
          (after (AviFile.initialize_video_stream 64 48 10 8 None) AviFile.initial))) =
    Some (1000000 / 10) /\
  (0 < 10 -> 1000000 / 10 = Z.quot 1000000 10) /\
  AviMainHeader.micro_seconds_per_frame
    (AviFile.main_header
       (AviFile.self
          (after (AviFile.initialize_video_stream 64 48 30 8 None) AviFile.initial))) =
    Some 33333.
Proof.
  apply (initialize_video_stream_micro_seconds_per_frame
           AviFile.initial 64 48 10 8 None).
  - lia.
  - reflexivity.
Defined.

(** ** Adding frames and audio *)

Lemma add_video_frame_returns hp h frame :
  AviFile.video_stream_header (AviFile.self hp) = Some h ->
  AviFile.add_video_frame frame hp =
  (Ok tt,
   {| AviFile.cls_stream_rectangle := AviFile.cls_stream_rectangle hp;
      AviFile.self := {|
        AviFile.main_header := AviFile.main_header (AviFile.self hp);
        AviFile.audio_stream_header := AviFile.audio_stream_header (AviFile.self hp);
        AviFile.wave_header := AviFile.wave_header (AviFile.self hp);
        AviFile.audio_chunks := AviFile.audio_chunks (AviFile.self hp);
        AviFile.video_stream_header :=
          Some (AviStreamHeader.set_stream_size (AviStreamHeader.stream_size h + 1) h);
        AviFile.video_chunks :=
          AviFile.video_chunks (AviFile.self hp) ++ [(b "00db", frame)];
        AviFile.bitmap_header := AviFile.bitmap_header (AviFile.self hp)
      |}
   |}).
Proof.
  destruct hp as [rect a]. cbn [AviFile.self AviFile.cls_stream_rectangle].
  intros H. unfold AviFile.add_video_frame, AviFile.update, AviFile.mbind,
    AviFile.get_self, AviFile.put_self.
  cbn [AviFile.self AviFile.cls_stream_rectangle AviFile.set_video_chunks
       AviFile.video_stream_header].
  rewrite H. reflexivity.
Qed.

Lemma add_video_frame_raises hp frame :
  AviFile.video_stream_header (AviFile.self hp) = None ->
  outcome (AviFile.add_video_frame frame) hp = Raise AttributeError.
Proof.
  destruct hp as [rect a]. cbn [AviFile.self].
  intros H. unfold outcome, AviFile.add_video_frame, AviFile.update, AviFile.mbind,
    AviFile.get_self, AviFile.put_self.
  cbn [AviFile.self AviFile.cls_stream_rectangle AviFile.set_video_chunks
       AviFile.video_stream_header].
  rewrite H. reflexivity.
Qed.

(** C5, as the code has it.  Each addition under its own condition,
    whatever the state of the other stream.  Adding a frame when the video
    stream was never initialized raises [AttributeError], also once the
    audio stream is initialized.  Adding audio when the audio stream was
    never initialized returns and appends the chunk, also once the video
    stream is initialized; and it does the same when the audio stream is
    initialized: [add_audio_chunk] makes no check at all. *)
Theorem add_before_initialize hp frame pcm :
  (AviFile.video_stream_header (AviFile.self hp) = None ->
   outcome (AviFile.add_video_frame frame) hp = Raise AttributeError) /\
  (AviFile.audio_stream_header (AviFile.self hp) = None ->
   outcome (AviFile.add_audio_chunk pcm) hp = Ok tt /\
   AviFile.audio_chunks (AviFile.self (after (AviFile.add_audio_chunk pcm) hp)) =
     AviFile.audio_chunks (AviFile.self hp) ++ [(b "01wb", pcm)]) /\
  (forall h,
     AviFile.audio_stream_header (AviFile.self hp) = Some h ->
     outcome (AviFile.add_audio_chunk pcm) hp = Ok tt /\
     AviFile.audio_chunks (AviFile.self (after (AviFile.add_audio_chunk pcm) hp)) =
       AviFile.audio_chunks (AviFile.self hp) ++ [(b "01wb", pcm)]).
Proof.
  split; [intros Hv; apply add_video_frame_raises; exact Hv|].
  split; [intros _|intros h _]; split; reflexivity.
Qed.

Lemma add_before_initialize_witness :
  outcome (AviFile.add_video_frame (b "abcd")) audio_initialized =
    Raise AttributeError /\
  (outcome (AviFile.add_audio_chunk (Some (b "wxyz"))) video_only = Ok tt /\
   AviFile.audio_chunks
     (AviFile.self (after (AviFile.add_audio_chunk (Some (b "wxyz"))) video_only)) =
     AviFile.audio_chunks (AviFile.self video_only) ++ [(b "01wb", Some (b "wxyz"))]) /\
  (outcome (AviFile.add_audio_chunk (Some (b "wxyz"))) audio_initialized = Ok tt /\
   AviFile.audio_chunks
     (AviFile.self
        (after (AviFile.add_audio_chunk (Some (b "wxyz"))) audio_initialized)) =
     AviFile.audio_chunks (AviFile.self audio_initialized) ++
     [(b "01wb", Some (b "wxyz"))]).
Proof.
  split; [|split].
  - apply (proj1 (add_before_initialize audio_initialized (b "abcd") None)).
    reflexivity.
  - apply (proj1 (proj2 (add_before_initialize video_only (b "abcd")
                           (Some (b "wxyz"))))).
    reflexivity.
  - apply (proj2 (proj2 (add_before_initialize audio_initialized (b "abcd")
                           (Some (b "wxyz"))))
             audio_header_22050).
    reflexivity.
Defined.

(** C5 fails as stated: on a new [AviFile], whose audio stream was never
    initialized, [add_audio_chunk] returns. *)
Lemma add_audio_chunk_uninitialized_returns :
  AviFile.audio_stream_header (AviFile.self AviFile.initial) = None /\
  AviFile.wave_header (AviFile.self AviFile.initial) = None /\
  outcome (AviFile.add_audio_chunk (Some (b "wxyz"))) AviFile.initial = Ok tt.
Proof. repeat split. Qed.

(** What a run of [add_video_frame] calls leaves. *)
Lemma add_video_frames_returns frames : forall hp h,
  AviFile.video_stream_header (AviFile.self hp) = Some h ->
  add_video_frames frames hp =
  (Ok tt,
   {| AviFile.cls_stream_rectangle := AviFile.cls_stream_rectangle hp;
      AviFile.self := {|
        AviFile.main_header := AviFile.main_header (AviFile.self hp);
        AviFile.audio_stream_header := AviFile.audio_stream_header (AviFile.self hp);
        AviFile.wave_header := AviFile.wave_header (AviFile.self hp);
        AviFile.audio_chunks := AviFile.audio_chunks (AviFile.self hp);
        AviFile.video_stream_header :=
          Some (AviStreamHeader.set_stream_size
                  (AviStreamHeader.stream_size h + Z.of_nat (length frames)) h);
        AviFile.video_chunks :=
          AviFile.video_chunks (AviFile.self hp) ++
          map (fun frame => (b "00db", frame)) frames;
        AviFile.bitmap_header := AviFile.bitmap_header (AviFile.self hp)
      |}
   |}).
Proof.
  induction frames as [|frame rest IH]; intros hp h Hh.
  - destruct hp as [rect a]. cbn [AviFile.self] in Hh.
    destruct a. cbn in Hh. subst.
    cbn [add_video_frames AviFile.mret AviFile.self AviFile.cls_stream_rectangle
         AviFile.main_header AviFile.audio_stream_header AviFile.wave_header
         AviFile.audio_chunks AviFile.video_chunks AviFile.bitmap_header
         map length Z.of_nat].
    rewrite app_nil_r, Z.add_0_r. destruct h. reflexivity.
  - cbn [add_video_frames]. unfold AviFile.mbind.
    rewrite (add_video_frame_returns hp h frame Hh).
    rewrite (IH _ (AviStreamHeader.set_stream_size (AviStreamHeader.stream_size h + 1) h))
      by reflexivity.
    cbn [AviFile.self AviFile.cls_stream_rectangle
         AviFile.main_header AviFile.audio_stream_header AviFile.wave_header
         AviFile.audio_chunks AviFile.video_chunks AviFile.bitmap_header
         AviStreamHeader.stream_size AviStreamHeader.set_stream_size map length].
    rewrite <- app_assoc. cbn [app].
    replace (AviStreamHeader.stream_size h + 1 + Z.of_nat (length rest))
      with (AviStreamHeader.stream_size h + Z.of_nat (S (length rest))) by lia.
    reflexivity.
Qed.

(** ** What no operation changes *)

Lemma perform_untouched o hp : untouched hp -> untouched (after (perform o) hp).
Proof.
  unfold untouched. destruct hp as [rect a].
  cbn [AviFile.cls_stream_rectangle AviFile.self].
  intros (Hrect & Hcount & Hframes).
  apply length_four in Hrect. destruct Hrect as (x0 & x1 & x2 & x3 & ->).
  destruct o as [width height fps bpp palette|cc sps bps|frame|pcm];
    unfold after, perform.
  - unfold AviFile.initialize_video_stream, AviFile.floordiv.
    destruct (fps =? 0); cbn; auto.
  - cbn. auto.
  - unfold AviFile.add_video_frame, AviFile.update, AviFile.mbind,
      AviFile.get_self, AviFile.put_self.
    cbn [AviFile.self AviFile.cls_stream_rectangle AviFile.set_video_chunks
         AviFile.video_stream_header].
    destruct (AviFile.video_stream_header a); cbn; auto.
  - cbn. auto.
Qed.

Lemma perform_all_untouched ops : forall hp,
  untouched hp -> untouched (perform_all ops hp).
Proof.
  induction ops as [|o rest IH]; intros hp H; cbn [perform_all].
  - exact H.
  - apply IH. apply perform_untouched. exact H.
Qed.

Lemma initial_untouched : untouched AviFile.initial.
Proof. repeat split. Qed.

(** C9.  After the video stream is initialized, a run of [add_video_frame]
    calls returns, appends one ['00db'] chunk per call, in order, with the
    bytes of its frame, and adds one per call to [stream_size] of the video
    stream header; [total_frames] of the main header is as it was, and on an
    [AviFile] that only the operations have touched it is 0. *)
Theorem add_video_frame_counts hp h frames :
  AviFile.video_stream_header (AviFile.self hp) = Some h ->
  let hp' := after (add_video_frames frames) hp in
  outcome (add_video_frames frames) hp = Ok tt /\
  AviFile.video_chunks (AviFile.self hp') =
    AviFile.video_chunks (AviFile.self hp) ++
    map (fun frame => (b "00db", frame)) frames /\
  option_map AviStreamHeader.stream_size (AviFile.video_stream_header (AviFile.self hp')) =
    Some (AviStreamHeader.stream_size h + Z.of_nat (length frames)) /\
  AviMainHeader.total_frames (AviFile.main_header (AviFile.self hp')) =
    AviMainHeader.total_frames (AviFile.main_header (AviFile.self hp)) /\
  forall ops,
    AviMainHeader.total_frames
      (AviFile.main_header (AviFile.self (perform_all ops AviFile.initial))) = 0.
Proof.
  intros Hh hp'. unfold hp', outcome, after.
  rewrite (add_video_frames_returns frames hp h Hh).
  repeat split.
  intros ops. apply (perform_all_untouched ops AviFile.initial initial_untouched).
Qed.

Lemma add_video_frame_counts_witness :
  outcome (add_video_frames three_frames) video_initialized = Ok tt /\
  AviFile.video_chunks
    (AviFile.self (after (add_video_frames three_frames) video_initialized)) =
    AviFile.video_chunks (AviFile.self video_initialized) ++
    map (fun frame => (b "00db", frame)) three_frames /\
  option_map AviStreamHeader.stream_size
    (AviFile.video_stream_header
       (AviFile.self (after (add_video_frames three_frames) video_initialized))) =
    Some (AviStreamHeader.stream_size video_header_30 + Z.of_nat (length three_frames)) /\
  AviMainHeader.total_frames
    (AviFile.main_header
       (AviFile.self (after (add_video_frames three_frames) video_initialized))) =
    AviMainHeader.total_frames (AviFile.main_header (AviFile.self video_initialized)) /\
  forall ops,
    AviMainHeader.total_frames
      (AviFile.main_header (AviFile.self (perform_all ops AviFile.initial))) = 0.
Proof.
  apply (add_video_frame_counts video_initialized video_header_30 three_frames).
  reflexivity.
Defined.

(** ** Fields of a packed record *)

Lemma slice_app_skip (pre rest : bytes) k len :
  slice (length pre + k) len (pre ++ rest) = slice k len rest.
Proof.
  unfold slice. rewrite skipn_app.
  rewrite skipn_all2 by lia.
  replace (length pre + k - length pre)%nat with k by lia.
  reflexivity.
Qed.

Lemma slice_app_take (x rest : bytes) : slice 0 (length x) (x ++ rest) = x.
Proof.
  unfold slice. cbn [skipn]. rewrite firstn_app, firstn_all, Nat.sub_diag.
  cbn [firstn]. apply app_nil_r.
Qed.

Lemma slice_app_within (x rest : bytes) k len :
  (k + len <= length x)%nat -> slice k len (x ++ rest) = slice k len x.
Proof.
  intros H. unfold slice. rewrite skipn_app, firstn_app.
  rewrite length_skipn.
  replace (len - (length x - k))%nat with 0%nat by lia.
  cbn [firstn]. apply app_nil_r.
Qed.

Lemma from_list_cons_inv ty v rest bs :
  pack.from_list ((ty, v) :: rest) = Ok bs ->
  exists z tail,
    v = Some z /\ Type_.in_range ty z = true /\
    pack.from_list rest = Ok tail /\
    bs = le_split (Type_.width ty) z ++ tail.
Proof.
  cbn [pack.from_list]. intros H.
  destruct (pack.value ty v) as [head|] eqn:Hv; [|discriminate].
  cbn [rbind] in H.
  destruct (pack.from_list rest) as [tail|]; [|discriminate].
  cbn [rbind] in H. injection H as <-.
  apply pack_value_range in Hv. destruct Hv as (z & -> & Hr & ->).
  exists z, tail. auto.
Qed.

(** A field that was packed lies at its offset, on its declared width, and
    holds a value in the range of its type. *)
Lemma from_list_field fields : forall bs i ty v,
  pack.from_list fields = Ok bs ->
  nth_error fields i = Some (ty, v) ->
  exists z,
    v = Some z /\ Type_.in_range ty z = true /\
    slice (offset fields i) (Type_.width ty) bs = le_split (Type_.width ty) z.
Proof.
  induction fields as [|[ty0 v0] rest IH]; intros bs i ty v Hp Hn.
  - destruct i; discriminate.
  - apply from_list_cons_inv in Hp.
    destruct Hp as (z0 & tail & -> & Hr & Ht & ->).
    destruct i as [|i'].
    + cbn [nth_error] in Hn. injection Hn as <- <-.
      exists z0. split; [reflexivity|]. split; [exact Hr|].
      cbn [offset].
      rewrite <- (length_le_split (Type_.width ty0) z0) at 1.
      apply slice_app_take.
    + cbn [nth_error] in Hn.
      destruct (IH tail i' ty v Ht Hn) as (z & Hz & Hrz & Hs).
      exists z. split; [exact Hz|]. split; [exact Hrz|].
      cbn [offset].
      rewrite <- (length_le_split (Type_.width ty0) z0) at 1.
      rewrite slice_app_skip. exact Hs.
Qed.

Lemma from_list_length fields : forall bs,
  pack.from_list fields = Ok bs ->
  length bs = offset fields (length fields).
Proof.
  induction fields as [|[ty0 v0] rest IH]; intros bs Hp.
  - injection Hp as <-. reflexivity.
  - apply from_list_cons_inv in Hp.
    destruct Hp as (z0 & tail & _ & _ & Ht & ->).
    rewrite length_app, length_le_split. cbn [length offset].
    rewrite (IH tail Ht). reflexivity.
Qed.

Lemma in_range_bounds ty z :
  Type_.in_range ty z = true -> Type_.min_value ty <= z <= Type_.max_value ty.
Proof.
  unfold Type_.in_range. intros H. apply andb_true_iff in H.
  destruct H as [H0 H1]. apply Z.leb_le in H0. apply Z.leb_le in H1. lia.
Qed.

(** Reading a packed field back gives the value packed, signed or not. *)
Lemma int_from_bytes_packed ty z :
  Type_.in_range ty z = true ->
  int_from_bytes (Type_.signed ty) (le_split (Type_.width ty) z) = z.
Proof.
  intros H. apply in_range_bounds in H.
  destruct ty; cbn [Type_.signed Type_.width];
    first [ apply int_from_bytes_signed; [lia|]
          | apply int_from_bytes_unsigned ];
    unfold Type_.min_value, Type_.max_value, Type_.bits in H;
    cbn [Type_.signed Type_.width] in H;
    cbn in H |- *; lia.
Qed.

(** ** What the headers render *)

Section Rendering.
Variable stream_rectangle : list Z.

Lemma render_MainHeader m :
  render stream_rectangle (MainHeader m) =
  rbind (AviMainHeader.fields m) pack.from_list.
Proof.
  apply appends_run_empty. cbn [encode]. unfold AviMainHeader.encode.
  apply appends_lift. intros fs _. apply appends_pack_from_list.
Qed.

Lemma render_WaveFormat w :
  render stream_rectangle (WaveFormat w) =
  rbind (PcmWaveFormatEx.fields w) pack.from_list.
Proof.
  apply appends_run_empty. cbn [encode]. unfold PcmWaveFormatEx.encode.
  apply appends_lift. intros fs _. apply appends_pack_from_list.
Qed.

Lemma render_Bitmap i :
  render stream_rectangle (Bitmap i) =
  then_ (pack.from_list (BitmapInfo.fields i))
        (Ok match BitmapInfo.palette i with
            | Some palette => palette
            | None => []
            end).
Proof.
  apply appends_run_empty. cbn [encode]. unfold BitmapInfo.encode.
  apply appends_seq; [apply appends_pack_from_list|].
  destruct (BitmapInfo.palette i) as [[|x rest]|];
    first [apply appends_ret | apply appends_write].
Qed.
End Rendering.

(** ** The layout of the written file *)

Lemma Ok_inj {A} (x y : A) : Ok x = Ok y -> x = y.
Proof. intros H. injection H as H. exact H. Qed.

Lemma pack_uint32_le_length v size :
  pack.uint32_le v = Ok size -> length size = 4%nat.
Proof.
  intros H. apply pack_uint32_le_inv in H. destruct H as [_ ->].
  apply length_le_split.
Qed.

(** The file, piece by piece: the RIFF list named ['AVI '] holds one list,
    again named ['AVI '], which holds the header list and the ['movi']
    list. *)
Lemma write_layout hp file :
  AviFile.write hp = Ok file ->
  let rect := AviFile.cls_stream_rectangle hp in
  let a := AviFile.self hp in
  exists bitmap avih video_strl audio_strl movi size_riff size_avi size_hdrl,
    AviFile.bitmap_header a = Some bitmap /\
    framed rect (Chunk (b "avih") (PyObject (MainHeader (AviFile.main_header a)))) =
      Ok avih /\
    framed rect
      (Sublist (b "strl")
         [ Chunk (b "strh") (AviFile.optional StreamHeader (AviFile.video_stream_header a));
           Chunk (b "strf") (PyObject (Bitmap bitmap)) ]) = Ok video_strl /\
    framed rect
      (Sublist (b "strl")
         [ Chunk (b "strh") (AviFile.optional StreamHeader (AviFile.audio_stream_header a));
           Chunk (b "strf") (AviFile.optional WaveFormat (AviFile.wave_header a)) ]) =
      Ok audio_strl /\
    framed rect
      (Sublist (b "movi")
         (map AviFile.video_entry (AviFile.video_chunks a) ++
          map AviFile.audio_entry (AviFile.audio_chunks a))) = Ok movi /\
    length size_riff = 4%nat /\ length size_avi = 4%nat /\ length size_hdrl = 4%nat /\
    file =
      b "RIFF" ++ size_riff ++ b "AVI " ++
      b "LIST" ++ size_avi ++ b "AVI " ++
      b "LIST" ++ size_hdrl ++ b "hdrl" ++
      avih ++ video_strl ++ audio_strl ++ movi.
Proof.
  rewrite write_framed. intros H rect a. fold rect a in H.
  unfold AviFile.riff_structure in H.
  destruct (AviFile.bitmap_header a) as [bitmap|]; [|discriminate].
  cbn [rbind] in H. exists bitmap.
  unfold framed_list, framed_list_with in H.
  cbn [framed_each] in H.
  change (framed rect (Sublist (b "AVI ") ?l)) with
    (framed_list_with (framed rect) (b "AVI ") l (b "LIST")) in H.
  unfold framed_list_with at 1 in H.
  cbn [framed_each] in H.
  change (framed rect (Sublist (b "hdrl") ?l)) with
    (framed_list_with (framed rect) (b "hdrl") l (b "LIST")) in H.
  unfold framed_list_with at 1 in H.
  cbn [framed_each] in H.
  destruct (framed rect (Chunk (b "avih") _)) as [avih|]; [|discriminate].
  destruct (framed rect (Sublist (b "strl") (Chunk (b "strh")
              (AviFile.optional StreamHeader (AviFile.video_stream_header a)) :: _)))
    as [video_strl|]; [|discriminate].
  destruct (framed rect (Sublist (b "strl") (Chunk (b "strh")
              (AviFile.optional StreamHeader (AviFile.audio_stream_header a)) :: _)))
    as [audio_strl|]; [|discriminate].
  cbn [then_ rbind] in H.
  destruct (pack.uint32_le _) as [size_hdrl|] eqn:Hhdrl in H; [|discriminate].
  cbn [then_ rbind] in H.
  destruct (framed rect (Sublist (b "movi") _)) as [movi|]; [|discriminate].
  cbn [then_ rbind] in H.
  destruct (pack.uint32_le _) as [size_avi|] eqn:Havi in H; [|discriminate].
  cbn [then_ rbind] in H.
  destruct (pack.uint32_le _) as [size_riff|] eqn:Hriff in H; [|discriminate].
  cbn [then_ rbind] in H. apply Ok_inj in H. subst file.
  exists avih, video_strl, audio_strl, movi, size_riff, size_avi, size_hdrl.
  repeat (split; [first [reflexivity | eapply pack_uint32_le_length; eassumption]|]).
  rewrite !app_nil_r, <- !app_assoc. reflexivity.
Qed.

(** C1, as the code has it.  When the audio stream was never initialized,
    nothing is written for its ['strh'] and ['strf'] chunks, so no ['auds']
    stream header reaches the file; the second ['strl'] list is written all
    the same, between the video ['strl'] list and the ['movi'] list: an
    empty list of twelve bytes whose recorded size 4 counts its type tag
    alone. *)
Theorem write_without_audio_stream hp file :
  AviFile.audio_stream_header (AviFile.self hp) = None ->
  AviFile.wave_header (AviFile.self hp) = None ->
  AviFile.write hp = Ok file ->
  let rect := AviFile.cls_stream_rectangle hp in
  let a := AviFile.self hp in
  framed rect
    (Chunk (b "strh") (AviFile.optional StreamHeader (AviFile.audio_stream_header a))) =
    Ok [] /\
  framed rect
    (Chunk (b "strf") (AviFile.optional WaveFormat (AviFile.wave_header a))) = Ok [] /\
  exists bitmap avih video_strl movi size_riff size_avi size_hdrl,
    AviFile.bitmap_header a = Some bitmap /\
    framed rect (Chunk (b "avih") (PyObject (MainHeader (AviFile.main_header a)))) =
      Ok avih /\
    framed rect
      (Sublist (b "strl")
         [ Chunk (b "strh") (AviFile.optional StreamHeader (AviFile.video_stream_header a));
           Chunk (b "strf") (PyObject (Bitmap bitmap)) ]) = Ok video_strl /\
    framed rect
      (Sublist (b "movi")
         (map AviFile.video_entry (AviFile.video_chunks a) ++
          map AviFile.audio_entry (AviFile.audio_chunks a))) = Ok movi /\
    length size_riff = 4%nat /\ length size_avi = 4%nat /\ length size_hdrl = 4%nat /\
    file =
      b "RIFF" ++ size_riff ++ b "AVI " ++
      b "LIST" ++ size_avi ++ b "AVI " ++
      b "LIST" ++ size_hdrl ++ b "hdrl" ++
      avih ++ video_strl ++
      (b "LIST" ++ le_split 4 4 ++ b "strl") ++
      movi.
Proof.
  intros Ha Hw H rect a.
  apply write_layout in H. fold rect a in H.
  destruct H as (bitmap & avih & video_strl & audio_strl & movi &
                 size_riff & size_avi & size_hdrl &
                 Hb & Havih & Hv & Haudio & Hm & L1 & L2 & L3 & ->).
  fold a in Ha, Hw. rewrite Ha, Hw in Haudio |- *.
  split; [reflexivity|]. split; [reflexivity|].
  exists bitmap, avih, video_strl, movi, size_riff, size_avi, size_hdrl.
  repeat (split; [assumption|]).
  apply Ok_inj in Haudio. rewrite <- Haudio. reflexivity.
Qed.

Lemma write_without_audio_stream_witness :
  framed (AviFile.cls_stream_rectangle video_only)
    (Chunk (b "strh")
       (AviFile.optional StreamHeader
          (AviFile.audio_stream_header (AviFile.self video_only)))) = Ok [] /\
  framed (AviFile.cls_stream_rectangle video_only)
    (Chunk (b "strf")
       (AviFile.optional WaveFormat (AviFile.wave_header (AviFile.self video_only)))) =
    Ok [] /\
  exists bitmap avih video_strl movi size_riff size_avi size_hdrl,
    AviFile.bitmap_header (AviFile.self video_only) = Some bitmap /\
    framed (AviFile.cls_stream_rectangle video_only)
      (Chunk (b "avih")
         (PyObject (MainHeader (AviFile.main_header (AviFile.self video_only))))) =
      Ok avih /\
    framed (AviFile.cls_stream_rectangle video_only)
      (Sublist (b "strl")
         [ Chunk (b "strh")
             (AviFile.optional StreamHeader
                (AviFile.video_stream_header (AviFile.self video_only)));
           Chunk (b "strf") (PyObject (Bitmap bitmap)) ]) = Ok video_strl /\
    framed (AviFile.cls_stream_rectangle video_only)
      (Sublist (b "movi")
         (map AviFile.video_entry (AviFile.video_chunks (AviFile.self video_only)) ++
          map AviFile.audio_entry (AviFile.audio_chunks (AviFile.self video_only)))) =
      Ok movi /\
    length size_riff = 4%nat /\ length size_avi = 4%nat /\ length size_hdrl = 4%nat /\
    file_of (AviFile.write video_only) =
      b "RIFF" ++ size_riff ++ b "AVI " ++
      b "LIST" ++ size_avi ++ b "AVI " ++
      b "LIST" ++ size_hdrl ++ b "hdrl" ++
      avih ++ video_strl ++
      (b "LIST" ++ le_split 4 4 ++ b "strl") ++
      movi.
Proof.
  apply (write_without_audio_stream video_only (file_of (AviFile.write video_only))).
  - reflexivity.
  - reflexivity.
  - vm_compute. reflexivity.
Defined.

(** C1 fails as stated: the file of a video-only container holds a second
    ['strl'] list, the twelve bytes [LIST 04 00 00 00 strl] at offset 224,
    although it holds no ['auds']. *)
Lemma write_video_only_second_strl :
  AviFile.audio_stream_header (AviFile.self video_only) = None /\
  AviFile.wave_header (AviFile.self video_only) = None /\
  exists file,
    AviFile.write video_only = Ok file /\
    occurrences (b "auds") file = 0%nat /\
    occurrences (b "strl") file = 2%nat /\
    slice 224 12 file = b "LIST" ++ [Byte.x04; Byte.x00; Byte.x00; Byte.x00] ++ b "strl".
Proof.
  split; [reflexivity|]. split; [reflexivity|].
  exists (file_of (AviFile.write video_only)).
  split; [vm_compute; reflexivity|].
  split; [vm_compute; reflexivity|].
  split; vm_compute; reflexivity.
Qed.

(** ** The wave format *)

Lemma wave_format_fields_inv w fs :
  PcmWaveFormatEx.fields w = Ok fs ->
  exists cc sps bps,
    PcmWaveFormatEx.channel_count w = Some cc /\
    PcmWaveFormatEx.samples_per_second w = Some sps /\
    PcmWaveFormatEx.bits_per_sample w = Some bps /\
    fs = [ (Type_.uint16_le, Some (PcmWaveFormatEx.format_tag w));
           (Type_.uint16_le, Some cc);
           (Type_.uint32_le, Some sps);
           (Type_.uint32_le, Some (sps * (cc * bps)));
           (Type_.uint16_le, Some (cc * bps));
           (Type_.uint16_le, Some bps);
           (Type_.uint16_le, Some (PcmWaveFormatEx.additional_information_size w)) ].
Proof.
  unfold PcmWaveFormatEx.fields, PcmWaveFormatEx.average_bytes_per_second_transfer_rate,
    PcmWaveFormatEx.block_alignment, py_mul.
  destruct (PcmWaveFormatEx.channel_count w) as [cc|]; [|discriminate].
  destruct (PcmWaveFormatEx.bits_per_sample w) as [bps|]; [|discriminate].
  cbn [rbind].
  destruct (PcmWaveFormatEx.samples_per_second w) as [sps|]; [|discriminate].
  cbn [rbind]. intros H. apply Ok_inj in H. subst fs.
  exists cc, sps, bps. repeat split.
Qed.

(** C8.  In a rendered wave format the block alignment is the channel count
    times the bits per sample, undivided, and the average number of bytes
    per second is the sample rate times that; both are computed from the
    three stored fields when they are read, the record having no field for
    either. *)
Theorem wave_format_derived_fields stream_rectangle w payload :
  render stream_rectangle (WaveFormat w) = Ok payload ->
  exists cc sps bps,
    PcmWaveFormatEx.channel_count w = Some cc /\
    PcmWaveFormatEx.samples_per_second w = Some sps /\
    PcmWaveFormatEx.bits_per_sample w = Some bps /\
    PcmWaveFormatEx.block_alignment w = Ok (cc * bps) /\
    PcmWaveFormatEx.average_bytes_per_second_transfer_rate w = Ok (sps * (cc * bps)) /\
    int_from_bytes false (slice 12 2 payload) = cc * bps /\
    int_from_bytes false (slice 8 4 payload) = sps * (cc * bps).
Proof.
  rewrite render_WaveFormat. intros H.
  destruct (PcmWaveFormatEx.fields w) as [fs|] eqn:Hfs; [|discriminate].
  cbn [rbind] in H.
  destruct (wave_format_fields_inv w fs Hfs) as (cc & sps & bps & Hc & Hs & Hb & ->).
  exists cc, sps, bps.
  unfold PcmWaveFormatEx.average_bytes_per_second_transfer_rate,
    PcmWaveFormatEx.block_alignment.
  rewrite Hc, Hs, Hb. cbn [py_mul rbind].
  repeat (split; [reflexivity|]).
  split.
  - destruct (from_list_field _ _ 4 _ _ H eq_refl) as (z & Hz & Hr & Hslice).
    injection Hz as <-.
    cbn [offset Type_.width Nat.add] in Hslice. rewrite Hslice.
    apply (int_from_bytes_packed Type_.uint16_le). exact Hr.
  - destruct (from_list_field _ _ 3 _ _ H eq_refl) as (z & Hz & Hr & Hslice).
    injection Hz as <-.
    cbn [offset Type_.width Nat.add] in Hslice. rewrite Hslice.
    apply (int_from_bytes_packed Type_.uint32_le). exact Hr.
Qed.

Lemma wave_format_derived_fields_witness :
  exists cc sps bps,
    PcmWaveFormatEx.channel_count wave_example = Some cc /\
    PcmWaveFormatEx.samples_per_second wave_example = Some sps /\
    PcmWaveFormatEx.bits_per_sample wave_example = Some bps /\
    PcmWaveFormatEx.block_alignment wave_example = Ok (cc * bps) /\
    PcmWaveFormatEx.average_bytes_per_second_transfer_rate wave_example =
      Ok (sps * (cc * bps)) /\
    int_from_bytes false
      (slice 12 2 (file_of (render [0; 0; 0; 0] (WaveFormat wave_example)))) = cc * bps /\
    int_from_bytes false
      (slice 8 4 (file_of (render [0; 0; 0; 0] (WaveFormat wave_example)))) =
      sps * (cc * bps).
Proof.
  apply (wave_format_derived_fields [0; 0; 0; 0] wave_example
           (file_of (render [0; 0; 0; 0] (WaveFormat wave_example)))).
  vm_compute. reflexivity.
Defined.

(** C2, as the code has it.  The wave format is rendered on 18 bytes, the
    extra-information size included, and the ['strf'] chunk written for it
    records 18. *)
Theorem wave_format_chunk_size stream_rectangle w s s' :
  at_end s ->
  _write_chunk stream_rectangle (b "strf") (PyObject (WaveFormat w)) s = Ok (tt, s') ->
  exists payload,
    render stream_rectangle (WaveFormat w) = Ok payload /\
    length payload = 18%nat /\
    buf s' = buf s ++ b "strf" ++ le_split 4 18 ++ payload /\
    int_from_bytes false (le_split 4 18) = 18.
Proof.
  intros Hs H.
  rewrite (_write_chunk_appends stream_rectangle _ _ s Hs) in H.
  cbn [framed_chunk] in H.
  destruct (render stream_rectangle (WaveFormat w)) as [payload|] eqn:Hp;
    [|discriminate].
  cbn [rbind] in H.
  assert (Hlen : length payload = 18%nat).
  { rewrite render_WaveFormat in Hp.
    destruct (PcmWaveFormatEx.fields w) as [fs|] eqn:Hfs; [|discriminate].
    cbn [rbind] in Hp.
    destruct (wave_format_fields_inv w fs Hfs) as (cc & sps & bps & _ & _ & _ & ->).
    apply from_list_length in Hp. exact Hp. }
  rewrite Hlen in H. change (Z.of_nat 18) with 18 in H.
  rewrite (pack_uint32_le_ok 18) in H by (cbn; lia).
  cbn [rbind appended] in H. apply Ok_inj in H.
  injection H as <-.
  exists payload. repeat (split; [reflexivity || assumption|]).
  apply int_from_bytes_unsigned. cbn. lia.
Qed.

Lemma wave_format_chunk_size_witness :
  exists payload,
    render [0; 0; 0; 0] (WaveFormat wave_example) = Ok payload /\
    length payload = 18%nat /\
    buf (stream_of (_write_chunk [0; 0; 0; 0] (b "strf")
                      (PyObject (WaveFormat wave_example)) empty_stream)) =
      buf empty_stream ++ b "strf" ++ le_split 4 18 ++ payload /\
    int_from_bytes false (le_split 4 18) = 18.
Proof.
  apply (wave_format_chunk_size [0; 0; 0; 0] wave_example empty_stream
           (stream_of (_write_chunk [0; 0; 0; 0] (b "strf")
                         (PyObject (WaveFormat wave_example)) empty_stream))).
  - reflexivity.
  - vm_compute. reflexivity.
Defined.

(** C2 fails as stated: the wave format of an audio stream of two 16-bit
    channels at 22050 Hz renders on 18 bytes, not 16, and the size its
    ['strf'] chunk records is 18. *)
Lemma wave_format_renders_18_bytes :
  AviFile.wave_header
    (AviFile.self (after (AviFile.initialize_audio_stream 2 22050 16) AviFile.initial)) =
    Some wave_example /\
  exists payload,
    render [0; 0; 0; 0] (WaveFormat wave_example) = Ok payload /\
    length payload = 18%nat /\
    buf (stream_of (_write_chunk [0; 0; 0; 0] (b "strf")
                      (PyObject (WaveFormat wave_example)) empty_stream)) =
      b "strf" ++ [Byte.x12; Byte.x00; Byte.x00; Byte.x00] ++ payload.
Proof.
  split; [reflexivity|].
  exists (file_of (render [0; 0; 0; 0] (WaveFormat wave_example))).
  split; [vm_compute; reflexivity|].
  split; vm_compute; reflexivity.
Qed.

(** ** The main header and the bitmap header *)

Lemma main_header_fields_inv m fs :
  AviMainHeader.fields m = Ok fs ->
  exists r0 r1 r2 r3,
    fs = [ (Type_.uint32_le, AviMainHeader.micro_seconds_per_frame m);
           (Type_.uint32_le, Some (AviMainHeader.max_bytes_per_second m));
           (Type_.uint32_le, Some (AviMainHeader.padding_in_bytes m));
           (Type_.uint32_le, Some (AviMainHeader.flags m));
           (Type_.uint32_le, Some (AviMainHeader.total_frames m));
           (Type_.uint32_le, Some (AviMainHeader.initial_frames m));
           (Type_.uint32_le, Some (AviMainHeader.stream_count m));
           (Type_.uint32_le, Some (AviMainHeader.suggested_buffer_size m));
           (Type_.int32_le, AviMainHeader.width m);
           (Type_.int32_le, AviMainHeader.height m);
           (Type_.uint32_le, Some r0);
           (Type_.uint32_le, Some r1);
           (Type_.uint32_le, Some r2);
           (Type_.uint32_le, Some r3) ].
Proof.
  unfold AviMainHeader.fields.
  destruct (list_get (AviMainHeader.reserved m) 0) as [r0|]; [|discriminate].
  destruct (list_get (AviMainHeader.reserved m) 1) as [r1|]; [|discriminate].
  destruct (list_get (AviMainHeader.reserved m) 2) as [r2|]; [|discriminate].
  destruct (list_get (AviMainHeader.reserved m) 3) as [r3|]; [|discriminate].
  cbn [rbind]. intros H. apply Ok_inj in H. subst fs.
  exists r0, r1, r2, r3. reflexivity.
Qed.

(** A rendered main header is 56 bytes long, with the stream count at
    offset 24 and the height at offset 36. *)
Lemma render_MainHeader_fields stream_rectangle m payload :
  render stream_rectangle (MainHeader m) = Ok payload ->
  length payload = 56%nat /\
  int_from_bytes false (slice 24 4 payload) = AviMainHeader.stream_count m /\
  exists height,
    AviMainHeader.height m = Some height /\
    int_from_bytes true (slice 36 4 payload) = height.
Proof.
  rewrite render_MainHeader. intros H.
  destruct (AviMainHeader.fields m) as [fs|] eqn:Hfs; [|discriminate].
  cbn [rbind] in H.
  destruct (main_header_fields_inv m fs Hfs) as (r0 & r1 & r2 & r3 & ->).
  split; [apply from_list_length in H; exact H|].
  split.
  - destruct (from_list_field _ _ 6 _ _ H eq_refl) as (z & Hz & Hr & Hslice).
    injection Hz as <-.
    cbn [offset Type_.width Nat.add] in Hslice. rewrite Hslice.
    apply (int_from_bytes_packed Type_.uint32_le). exact Hr.
  - destruct (from_list_field _ _ 9 _ _ H eq_refl) as (z & Hz & Hr & Hslice).
    exists z. split; [exact Hz|].
    cbn [offset Type_.width Nat.add] in Hslice. rewrite Hslice.
    apply (int_from_bytes_packed Type_.int32_le). exact Hr.
Qed.

(** The height of a rendered bitmap header, at offset 8. *)
Lemma render_Bitmap_height stream_rectangle i payload :
  render stream_rectangle (Bitmap i) = Ok payload ->
  exists height,
    BitmapInfo.height i = Some height /\
    int_from_bytes true (slice 8 4 payload) = height.
Proof.
  rewrite render_Bitmap. unfold then_. intros H.
  destruct (pack.from_list (BitmapInfo.fields i)) as [packed|] eqn:Hp; [|discriminate].
  cbn [rbind] in H. apply Ok_inj in H. subst payload.
  pose proof (from_list_length _ _ Hp) as Hlen.
  unfold BitmapInfo.fields in Hlen. cbn [length offset Type_.width Nat.add] in Hlen.
  rewrite slice_app_within by lia.
  destruct (from_list_field _ _ 2 _ _ Hp eq_refl) as (z & Hz & Hr & Hslice).
  exists z. split; [exact Hz|].
  cbn [offset BitmapInfo.fields Type_.width Nat.add] in Hslice. rewrite Hslice.
  apply (int_from_bytes_packed Type_.int32_le). exact Hr.
Qed.

(** C7.  Whatever height is passed, the main header and the bitmap header
    both store its negation, and wherever either header renders, the height
    read back from it as a signed integer is that negation; a height of 120
    renders as -120 in both. *)
Theorem initialize_video_stream_negates_height hp width height fps bpp palette :
  fps <> 0 ->
  length (AviFile.cls_stream_rectangle hp) = 4%nat ->
  let hp' := after (AviFile.initialize_video_stream width height fps bpp palette) hp in
  let rect := AviFile.cls_stream_rectangle hp' in
  (AviMainHeader.height (AviFile.main_header (AviFile.self hp')) = Some (- height) /\
   forall payload,
     render rect (MainHeader (AviFile.main_header (AviFile.self hp'))) = Ok payload ->
     int_from_bytes true (slice 36 4 payload) = - height) /\
  (exists bitmap,
     AviFile.bitmap_header (AviFile.self hp') = Some bitmap /\
     BitmapInfo.height bitmap = Some (- height) /\
     forall payload,
       render rect (Bitmap bitmap) = Ok payload ->
       int_from_bytes true (slice 8 4 payload) = - height) /\
  (exists payload,
     render (AviFile.cls_stream_rectangle video_160_120)
       (MainHeader (AviFile.main_header (AviFile.self video_160_120))) = Ok payload /\
     int_from_bytes true (slice 36 4 payload) = -120) /\
  (exists payload,
     render (AviFile.cls_stream_rectangle video_160_120)
       (Bitmap (bitmap_of video_160_120)) = Ok payload /\
     int_from_bytes true (slice 8 4 payload) = -120).
Proof.
  intros Hfps Hrect hp' rect.
  apply length_four in Hrect. destruct Hrect as (x0 & x1 & x2 & x3 & Hrect).
  unfold rect, hp', after.
  rewrite (initialize_video_stream_returns _ _ _ _ _ _ _ _ _ _ Hrect Hfps).
  cbn [snd AviFile.self AviFile.cls_stream_rectangle AviFile.main_header
       AviFile.bitmap_header].
  split; [|split; [|split]].
  - split; [reflexivity|]. intros payload Hp.
    apply render_MainHeader_fields in Hp.
    destruct Hp as (_ & _ & z & Hz & Hs).
    cbn [AviMainHeader.height AviMainHeader.set_height] in Hz.
    injection Hz as <-. exact Hs.
  - eexists. split; [reflexivity|]. split; [reflexivity|].
    intros payload Hp.
    apply render_Bitmap_height in Hp.
    destruct Hp as (z & Hz & Hs).
    cbn [BitmapInfo.height] in Hz. injection Hz as <-. exact Hs.
  - eexists. split; vm_compute; reflexivity.
  - eexists. split; vm_compute; reflexivity.
Qed.

Lemma initialize_video_stream_negates_height_witness :
  (AviMainHeader.height (AviFile.main_header (AviFile.self video_160_120)) =
     Some (- 120) /\
   forall payload,
     render (AviFile.cls_stream_rectangle video_160_120)
       (MainHeader (AviFile.main_header (AviFile.self video_160_120))) = Ok payload ->
     int_from_bytes true (slice 36 4 payload) = - 120) /\
  (exists bitmap,
     AviFile.bitmap_header (AviFile.self video_160_120) = Some bitmap /\
     BitmapInfo.height bitmap = Some (- 120) /\
     forall payload,
       render (AviFile.cls_stream_rectangle video_160_120) (Bitmap bitmap) = Ok payload ->
       int_from_bytes true (slice 8 4 payload) = - 120) /\
  (exists payload,
     render (AviFile.cls_stream_rectangle video_160_120)
       (MainHeader (AviFile.main_header (AviFile.self video_160_120))) = Ok payload /\
     int_from_bytes true (slice 36 4 payload) = -120) /\
  (exists payload,
     render (AviFile.cls_stream_rectangle video_160_120)
       (Bitmap (bitmap_of video_160_120)) = Ok payload /\
     int_from_bytes true (slice 8 4 payload) = -120).
Proof.
  apply (initialize_video_stream_negates_height AviFile.initial 160 120 30 8 None).
  - lia.
  - reflexivity.
Defined.

(** ** The stream count *)

Lemma slice_skip_piece (pre rest : bytes) n start len :
  length pre = n -> (n <= start)%nat ->
  slice start len (pre ++ rest) = slice (start - n) len rest.
Proof.
  intros <- Hle.
  replace start with (length pre + (start - length pre))%nat at 1 by lia.
  apply slice_app_skip.
Qed.

Ltac skip_piece :=
  match goal with
  | |- context [slice ?start ?len (?pre ++ ?rest)] =>
      rewrite (slice_skip_piece pre rest 4 start len)
        by first [assumption | reflexivity | lia];
      cbn [Nat.sub]
  end.

(** In any file [write] produces, the ['avih'] chunk starts at offset 36 and
    the stream count of the main header is read at offset 68. *)
Lemma write_stream_count hp file :
  AviFile.write hp = Ok file ->
  slice 36 4 file = b "avih" /\
  int_from_bytes false (slice 68 4 file) =
    AviMainHeader.stream_count (AviFile.main_header (AviFile.self hp)).
Proof.
  intros H. apply write_layout in H.
  destruct H as (bitmap & avih & video_strl & audio_strl & movi &
                 size_riff & size_avi & size_hdrl &
                 _ & Havih & _ & _ & _ & L1 & L2 & L3 & ->).
  cbn [framed framed_chunk] in Havih.
  destruct (render _ _) as [payload|] eqn:Hp in Havih; [|discriminate].
  cbn [rbind] in Havih.
  destruct (pack.uint32_le _) as [size|] eqn:Hsize in Havih; [|discriminate].
  cbn [rbind] in Havih. apply Ok_inj in Havih. subst avih.
  apply pack_uint32_le_length in Hsize.
  apply render_MainHeader_fields in Hp. destruct Hp as (Hlen & Hcount & _).
  rewrite <- !app_assoc.
  split.
  - do 9 skip_piece.
    rewrite slice_app_within by (cbn; lia). reflexivity.
  - do 11 skip_piece.
    rewrite slice_app_within by lia. exact Hcount.
Qed.

(** C10.  Whatever operations an [AviFile] has gone through, one stream
    initialized or both, the stream count of its main header is 1, and 1 is
    what every file written from it holds in that field; so does the file
    of a container with both streams, which has two ['strl'] lists. *)
Theorem stream_count_is_always_one ops :
  let hp := perform_all ops AviFile.initial in
  AviMainHeader.stream_count (AviFile.main_header (AviFile.self hp)) = 1 /\
  (forall file,
     AviFile.write hp = Ok file ->
     slice 36 4 file = b "avih" /\ int_from_bytes false (slice 68 4 file) = 1) /\
  perform_all video_and_audio_operations AviFile.initial = video_and_audio /\
  exists file,
    AviFile.write video_and_audio = Ok file /\
    occurrences (b "strl") file = 2%nat /\
    occurrences (b "vids") file = 1%nat /\
    occurrences (b "auds") file = 1%nat /\
    int_from_bytes false (slice 68 4 file) = 1.
Proof.
  intros hp.
  destruct (perform_all_untouched ops AviFile.initial initial_untouched)
    as (_ & Hcount & _).
  fold hp in Hcount.
  split; [exact Hcount|]. split.
  - intros file H. apply write_stream_count in H.
    rewrite Hcount in H. exact H.
  - split; [reflexivity|].
    exists (file_of (AviFile.write video_and_audio)).
    split; [vm_compute; reflexivity|].
    split; [vm_compute; reflexivity|].
    split; [vm_compute; reflexivity|].
    split; vm_compute; reflexivity.
Qed.

Lemma stream_count_is_always_one_witness :
  slice 36 4 (file_of (AviFile.write video_and_audio)) = b "avih" /\
  int_from_bytes false (slice 68 4 (file_of (AviFile.write video_and_audio))) = 1.
Proof.
  apply (proj1 (proj2 (stream_count_is_always_one video_and_audio_operations))).
  vm_compute. reflexivity.
Defined.

(** ** When writing returns *)

Section Returns.
Variable stream_rectangle : list Z.

Lemma framed_each_returns l :
  Forall (fun e => renders stream_rectangle e = true ->
                   Z.of_nat (framed_size stream_rectangle e) < 2 ^ 32 ->
                   exists x, framed stream_rectangle e = Ok x /\
                             length x = framed_size stream_rectangle e) l ->
  forallb (renders stream_rectangle) l = true ->
  Z.of_nat (list_sum (map (framed_size stream_rectangle) l)) < 2 ^ 32 ->
  exists children,
    framed_each (framed stream_rectangle) l = Ok children /\
    length children = list_sum (map (framed_size stream_rectangle) l).
Proof.
  induction 1 as [|e rest He _ IH]; cbn [forallb map list_sum framed_each];
    intros Hr Hsize.
  - exists []. split; reflexivity.
  - apply andb_true_iff in Hr. destruct Hr as [Hre Hrr].
    change (list_sum (framed_size stream_rectangle e ::
                      map (framed_size stream_rectangle) rest))
      with (framed_size stream_rectangle e +
            list_sum (map (framed_size stream_rectangle) rest))%nat in *.
    destruct (He Hre) as (x & Hx & Lx); [lia|].
    destruct (IH Hrr) as (y & Hy & Ly); [lia|].
    exists (x ++ y). rewrite Hx, Hy. split; [reflexivity|].
    rewrite length_app. lia.
Qed.

Lemma framed_list_with_returns name structure fourcc :
  Forall (fun e => renders stream_rectangle e = true ->
                   Z.of_nat (framed_size stream_rectangle e) < 2 ^ 32 ->
                   exists x, framed stream_rectangle e = Ok x /\
                             length x = framed_size stream_rectangle e) structure ->
  forallb (renders stream_rectangle) structure = true ->
  Z.of_nat (length name + list_sum (map (framed_size stream_rectangle) structure))
    < 2 ^ 32 ->
  exists x,
    framed_list_with (framed stream_rectangle) name structure fourcc = Ok x /\
    length x =
      (length fourcc + 4 + length name +
       list_sum (map (framed_size stream_rectangle) structure))%nat.
Proof.
  intros Hall Hr Hsize.
  destruct (framed_each_returns structure Hall Hr) as (children & Hc & Lc); [lia|].
  unfold framed_list_with. rewrite Hc. cbn [rbind].
  rewrite pack_uint32_le_ok by (rewrite length_app; lia).
  cbn [rbind]. eexists. split; [reflexivity|].
  rewrite !length_app, length_le_split. lia.
Qed.

(** An entry whose headers render and whose framed size fits the four bytes
    of a size field is framed, on that many bytes. *)
Lemma framed_returns e :
  renders stream_rectangle e = true ->
  Z.of_nat (framed_size stream_rectangle e) < 2 ^ 32 ->
  exists x, framed stream_rectangle e = Ok x /\
            length x = framed_size stream_rectangle e.
Proof.
  induction e as [name structure IH|name data] using entry_ind'.
  - cbn [renders framed_size framed]. intros Hr Hsize.
    destruct (framed_list_with_returns name structure (b "LIST") IH Hr)
      as (x & Hx & Lx); [lia|].
    exists x. split; [exact Hx|]. rewrite Lx. cbn [length b]. reflexivity.
  - destruct data as [|payload|h]; cbn [renders framed_size framed framed_chunk];
      intros Hr Hsize.
    + exists []. split; reflexivity.
    + rewrite pack_uint32_le_ok by lia. cbn [rbind].
      eexists. split; [reflexivity|].
      rewrite !length_app, length_le_split. lia.
    + destruct (render stream_rectangle h) as [payload|]; [|discriminate].
      cbn [rbind file_of] in *.
      rewrite pack_uint32_le_ok by lia. cbn [rbind].
      eexists. split; [reflexivity|].
      rewrite !length_app, length_le_split. lia.
Qed.
End Returns.

(** [write] returns a file as soon as the video stream was initialized,
    every header renders, and the whole fits the size field of the RIFF
    list. *)
Lemma write_returns hp structure :
  AviFile.riff_structure (AviFile.self hp) = Ok structure ->
  forallb (renders (AviFile.cls_stream_rectangle hp)) structure = true ->
  Z.of_nat (4 + list_sum (map (framed_size (AviFile.cls_stream_rectangle hp)) structure))
    < 2 ^ 32 ->
  exists file,
    AviFile.write hp = Ok file /\
    length file =
      (12 + list_sum (map (framed_size (AviFile.cls_stream_rectangle hp)) structure))%nat.
Proof.
  intros Hs Hr Hsize. rewrite write_framed, Hs. cbn [rbind].
  destruct (framed_list_with_returns (AviFile.cls_stream_rectangle hp)
              (b "AVI ") structure (b "RIFF")) as (file & Hf & Lf).
  - apply Forall_forall. intros e _. apply framed_returns.
  - exact Hr.
  - exact Hsize.
  - exists file. split; [exact Hf|]. rewrite Lf. reflexivity.
Qed.

(** * Further properties of the writer and of the assembler *)

(** ** The list writer on any structure *)

(** X1.  Started at the end of a stream, [_write_list] only appends, on any
    structure: although it seeks back to patch every size, the bytes the
    stream held before the call are as they were and the position is left
    at the new end.  What it appends is the four-character code, a size
    that counts the name and the children, the name and the children; on
    any other stream the same call appends the same bytes. *)
Theorem _write_list_only_appends stream_rectangle name structure fourcc s s' :
  at_end s ->
  _write_list stream_rectangle name structure fourcc s = Ok (tt, s') ->
  exists size children,
    buf s' = buf s ++ fourcc ++ size ++ name ++ children /\
    pos s' = length (buf s') /\
    length size = 4%nat /\
    int_from_bytes false size = Z.of_nat (length name + length children) /\
    forall t, at_end t ->
      _write_list stream_rectangle name structure fourcc t =
      Ok (tt, append t (fourcc ++ size ++ name ++ children)).
Proof.
  intros Hs H.
  rewrite (_write_list_appends stream_rectangle name structure fourcc s Hs) in H.
  destruct (framed_list stream_rectangle name structure fourcc) as [x|] eqn:Hx;
    [|discriminate].
  cbn [appended] in H. apply Ok_inj in H. injection H as <-.
  assert (Hall : forall t, at_end t ->
            _write_list stream_rectangle name structure fourcc t = Ok (tt, append t x)).
  { intros t Ht.
    rewrite (_write_list_appends stream_rectangle name structure fourcc t Ht), Hx.
    reflexivity. }
  unfold framed_list, framed_list_with in Hx.
  destruct (framed_each _ structure) as [children|]; [|discriminate].
  cbn [rbind] in Hx.
  destruct (pack.uint32_le _) as [size|] eqn:Hsize; [|discriminate].
  cbn [rbind] in Hx. apply Ok_inj in Hx. subst x.
  exists size, children.
  split; [reflexivity|]. split; [reflexivity|].
  split; [eapply pack_uint32_le_length; exact Hsize|].
  split; [|exact Hall].
  apply pack_uint32_le_recorded in Hsize. destruct Hsize as [_ Hsize].
  rewrite Hsize, length_app. reflexivity.
Qed.

Lemma _write_list_only_appends_witness :
  exists size children,
    buf (stream_of (_write_list [0; 0; 0; 0] (b "movi")
                      [Chunk (b "00db") (PyBytes (b "abc")); Chunk (b "01wb") PyNone]
                      (b "LIST") (append empty_stream (b "JUNK")))) =
      buf (append empty_stream (b "JUNK")) ++ b "LIST" ++ size ++ b "movi" ++ children /\
    pos (stream_of (_write_list [0; 0; 0; 0] (b "movi")
                      [Chunk (b "00db") (PyBytes (b "abc")); Chunk (b "01wb") PyNone]
                      (b "LIST") (append empty_stream (b "JUNK")))) =
      length (buf (stream_of (_write_list [0; 0; 0; 0] (b "movi")
                      [Chunk (b "00db") (PyBytes (b "abc")); Chunk (b "01wb") PyNone]
                      (b "LIST") (append empty_stream (b "JUNK"))))) /\
    length size = 4%nat /\
    int_from_bytes false size = Z.of_nat (length (b "movi") + length children) /\
    forall t, at_end t ->
      _write_list [0; 0; 0; 0] (b "movi")
        [Chunk (b "00db") (PyBytes (b "abc")); Chunk (b "01wb") PyNone] (b "LIST") t =
      Ok (tt, append t (b "LIST" ++ size ++ b "movi" ++ children)).
Proof.
  apply (_write_list_only_appends [0; 0; 0; 0] (b "movi")
           [Chunk (b "00db") (PyBytes (b "abc")); Chunk (b "01wb") PyNone]
           (b "LIST") (append empty_stream (b "JUNK"))).
  - reflexivity.
  - vm_compute. reflexivity.
Defined.

(** ** The head of the file *)

Lemma framed_list_with_inv f name structure fourcc x :
  framed_list_with f name structure fourcc = Ok x ->
  exists children size,
    framed_each f structure = Ok children /\
    length size = 4%nat /\
    int_from_bytes false size = Z.of_nat (length name + length children) /\
    x = fourcc ++ size ++ name ++ children.
Proof.
  unfold framed_list_with. intros H.
  destruct (framed_each f structure) as [children|]; [|discriminate].
  cbn [rbind] in H.
  destruct (pack.uint32_le _) as [size|] eqn:Hsize; [|discriminate].
  cbn [rbind] in H. apply Ok_inj in H. subst x.
  exists children, size. split; [reflexivity|].
  apply pack_uint32_le_recorded in Hsize. destruct Hsize as [L V].
  rewrite length_app in V. auto.
Qed.

Lemma framed_each_cons_inv f e rest x :
  framed_each f (e :: rest) = Ok x ->
  exists y z, f e = Ok y /\ framed_each f rest = Ok z /\ x = y ++ z.
Proof.
  cbn [framed_each]. unfold then_. intros H.
  destruct (f e) as [y|]; [|discriminate]. cbn [rbind] in H.
  destruct (framed_each f rest) as [z|]; [|discriminate]. cbn [rbind] in H.
  apply Ok_inj in H. subst x. exists y, z. auto.
Qed.

(** X2.  Every file [write] produces starts with ['RIFF'], the length of
    the rest of the file after the size field, and ['AVI ']; and all that
    follows is one more list, again named ['AVI '], which in turn begins
    with the ['hdrl'] list: the header and ['movi'] lists lie one level
    deeper than directly under the RIFF list. *)
Theorem write_riff_head hp file :
  AviFile.write hp = Ok file ->
  slice 0 4 file = b "RIFF" /\
  int_from_bytes false (slice 4 4 file) = Z.of_nat (length file) - 8 /\
  slice 8 4 file = b "AVI " /\
  slice 12 4 file = b "LIST" /\
  int_from_bytes false (slice 16 4 file) = Z.of_nat (length file) - 20 /\
  slice 20 4 file = b "AVI " /\
  slice 24 4 file = b "LIST" /\
  slice 32 4 file = b "hdrl".
Proof.
  rewrite write_framed. intros H.
  unfold AviFile.riff_structure in H.
  destruct (AviFile.bitmap_header (AviFile.self hp)) as [bitmap|]; [|discriminate].
  cbn [rbind] in H. unfold framed_list in H.
  apply framed_list_with_inv in H.
  destruct H as (body1 & size1 & H1 & L1 & V1 & ->).
  apply framed_each_cons_inv in H1.
  destruct H1 as (avi & nil1 & Havi & Hnil & ->).
  cbn [framed_each] in Hnil. apply Ok_inj in Hnil. subst nil1.
  cbn [framed] in Havi. apply framed_list_with_inv in Havi.
  destruct Havi as (body2 & size2 & H2 & L2 & V2 & ->).
  apply framed_each_cons_inv in H2.
  destruct H2 as (hdrl & rest2 & Hhdrl & _ & ->).
  cbn [framed] in Hhdrl. apply framed_list_with_inv in Hhdrl.
  destruct Hhdrl as (body3 & size3 & _ & L3 & _ & ->).
  rewrite app_nil_r in *. rewrite <- !app_assoc.
  assert (Hlen : length (b "RIFF" ++ size1 ++ b "AVI " ++ b "LIST" ++ size2 ++
                         b "AVI " ++ b "LIST" ++ size3 ++ b "hdrl" ++ body3 ++ rest2) =
                 (36 + length body3 + length rest2)%nat).
  { rewrite !length_app, L1, L2, L3.
    change (length (b "RIFF")) with 4%nat. change (length (b "AVI ")) with 4%nat.
    change (length (b "LIST")) with 4%nat. change (length (b "hdrl")) with 4%nat.
    lia. }
  repeat rewrite length_app in V1. repeat rewrite length_app in V2.
  rewrite L2, L3 in V1. rewrite L3 in V2.
  change (length (b "AVI ")) with 4%nat in V1, V2.
  change (length (b "LIST")) with 4%nat in V1, V2.
  change (length (b "hdrl")) with 4%nat in V1, V2.
  split; [rewrite (slice_app_within (b "RIFF")) by (cbn; lia); reflexivity|].
  split.
  { skip_piece. rewrite <- L1 at 1. rewrite slice_app_take.
    rewrite V1, Hlen. lia. }
  split; [do 2 skip_piece; rewrite (slice_app_within (b "AVI ")) by (cbn; lia);
          reflexivity|].
  split; [do 3 skip_piece; rewrite (slice_app_within (b "LIST")) by (cbn; lia);
          reflexivity|].
  split.
  { do 4 skip_piece. rewrite <- L2 at 1. rewrite slice_app_take.
    rewrite V2, Hlen. lia. }
  split; [do 5 skip_piece; rewrite (slice_app_within (b "AVI ")) by (cbn; lia);
          reflexivity|].
  split; [do 6 skip_piece; rewrite (slice_app_within (b "LIST")) by (cbn; lia);
          reflexivity|].
  do 8 skip_piece. rewrite (slice_app_within (b "hdrl")) by (cbn; lia).
  reflexivity.
Qed.

Lemma write_riff_head_witness :
  slice 0 4 (file_of (AviFile.write video_and_audio)) = b "RIFF" /\
  int_from_bytes false (slice 4 4 (file_of (AviFile.write video_and_audio))) =
    Z.of_nat (length (file_of (AviFile.write video_and_audio))) - 8 /\
  slice 8 4 (file_of (AviFile.write video_and_audio)) = b "AVI " /\
  slice 12 4 (file_of (AviFile.write video_and_audio)) = b "LIST" /\
  int_from_bytes false (slice 16 4 (file_of (AviFile.write video_and_audio))) =
    Z.of_nat (length (file_of (AviFile.write video_and_audio))) - 20 /\
  slice 20 4 (file_of (AviFile.write video_and_audio)) = b "AVI " /\
  slice 24 4 (file_of (AviFile.write video_and_audio)) = b "LIST" /\
  slice 32 4 (file_of (AviFile.write video_and_audio)) = b "hdrl".
Proof.
  apply (write_riff_head video_and_audio (file_of (AviFile.write video_and_audio))).
  vm_compute. reflexivity.
Defined.

(** ** Containers built by the operations *)

Lemma initial_built : built AviFile.initial.
Proof.
  unfold built. cbn.
  repeat split; try discriminate; try constructor; auto.
Qed.

Lemma perform_built o hp : built hp -> built (after (perform o) hp).
Proof.
  unfold built. destruct hp as [rect a].
  cbn [AviFile.cls_stream_rectangle AviFile.self].
  intros (Hrect & Hmain & Hvideo & Haudio & Hwave & Hbitmap & Hvc & Hac).
  apply length_four in Hrect. destruct Hrect as (x0 & x1 & x2 & x3 & ->).
  destruct o as [width height fps bpp palette|cc sps bps|frame|pcm];
    unfold after, perform.
  - unfold AviFile.initialize_video_stream, AviFile.floordiv.
    destruct (fps =? 0); cbn;
      (split; [reflexivity|]);
      (split; [exact Hmain|]);
      (split; [intros h Hh; injection Hh as <-; split;
               [exists fps; reflexivity | cbn; lia]|]);
      (split; [exact Haudio|]);
      (split; [exact Hwave|]);
      (split; [split; discriminate|]);
      split; assumption.
  - cbn.
    split; [reflexivity|]. split; [exact Hmain|]. split; [exact Hvideo|].
    split; [intros h Hh; injection Hh as <-; split; [exists sps; reflexivity|];
            split; [reflexivity|]; eexists; split; reflexivity|].
    split; [intros w Hw; injection Hw as <-; exists cc, sps, bps; reflexivity|].
    split; [exact Hbitmap|]. split; assumption.
  - unfold AviFile.add_video_frame, AviFile.update, AviFile.mbind,
      AviFile.get_self, AviFile.put_self.
    cbn [AviFile.self AviFile.cls_stream_rectangle AviFile.set_video_chunks
         AviFile.video_stream_header].
    destruct (AviFile.video_stream_header a) as [h|] eqn:Hh; cbn.
    + destruct (Hvideo h eq_refl) as ((rate & Hshape) & Hsize).
      split; [reflexivity|]. split; [exact Hmain|].
      split.
      { intros h' Hh'. injection Hh' as <-. split.
        - exists rate. rewrite Hshape at 2. reflexivity.
        - cbn. rewrite length_app. cbn [length]. lia. }
      split; [exact Haudio|]. split; [exact Hwave|].
      split; [split; [intros E; apply Hbitmap in E; congruence | discriminate]|].
      split; [|assumption].
      apply Forall_app. split; [assumption|]. constructor; [reflexivity|constructor].
    + split; [reflexivity|]. split; [exact Hmain|].
      split; [intros h Hh'; congruence|].
      split; [exact Haudio|]. split; [exact Hwave|].
      split; [rewrite Hh; exact Hbitmap|].
      split; [|assumption].
      apply Forall_app. split; [assumption|]. constructor; [reflexivity|constructor].
  - cbn.
    split; [reflexivity|]. split; [exact Hmain|]. split; [exact Hvideo|].
    split; [exact Haudio|]. split; [exact Hwave|]. split; [exact Hbitmap|].
    split; [assumption|].
    apply Forall_app. split; [assumption|]. constructor; [reflexivity|constructor].
Qed.

Lemma perform_all_built ops : forall hp, built hp -> built (perform_all ops hp).
Proof.
  induction ops as [|o rest IH]; intros hp H; cbn [perform_all].
  - exact H.
  - apply IH. apply perform_built. exact H.
Qed.

(** ** The exceptions of [write] *)

Lemma raises_only_ok {A} e (a : A) : raises_only e (Ok a).
Proof. intros e' H. discriminate. Qed.

Lemma raises_only_rbind {A B} e (r : result A) (k : A -> result B) :
  raises_only e r -> (forall a, raises_only e (k a)) -> raises_only e (rbind r k).
Proof.
  intros Hr Hk e' H. destruct r as [a|e0]; cbn [rbind] in H.
  - exact (Hk a e' H).
  - apply Hr. injection H as <-. reflexivity.
Qed.

Lemma raises_only_then e r1 r2 :
  raises_only e r1 -> raises_only e r2 -> raises_only e (then_ r1 r2).
Proof.
  intros H1 H2. unfold then_.
  apply raises_only_rbind; [exact H1|]. intros x.
  apply raises_only_rbind; [exact H2|]. intros y. apply raises_only_ok.
Qed.

Lemma pack_value_raises ty v : raises_only StructError (pack.value ty v).
Proof.
  intros e' H. unfold pack.value in H.
  destruct v as [z|]; [destruct (Type_.in_range ty z)|];
    first [discriminate | injection H as <-; reflexivity].
Qed.

Lemma from_list_raises fields : raises_only StructError (pack.from_list fields).
Proof.
  induction fields as [|[ty v] rest IH]; cbn [pack.from_list].
  - apply raises_only_ok.
  - apply raises_only_rbind; [apply pack_value_raises|]. intros head.
    apply raises_only_rbind; [exact IH|]. intros tail. apply raises_only_ok.
Qed.

Section RaisesOnly.
Variable stream_rectangle : list Z.

Lemma render_StreamHeader h :
  render stream_rectangle (StreamHeader h) =
  then_ match AviStreamHeader.stream_type h with
        | Some ty => Ok ty
        | None => Raise TypeError
        end
    (then_ (Ok (AviStreamHeader.stream_data_handler h))
       (rbind (AviStreamHeader.fields stream_rectangle h) pack.from_list)).
Proof.
  apply appends_run_empty. cbn [encode]. unfold AviStreamHeader.encode.
  apply appends_seq.
  - destruct (AviStreamHeader.stream_type h);
      [apply appends_write | apply appends_raise].
  - apply appends_seq; [apply appends_write|].
    apply appends_lift. intros fs _. apply appends_pack_from_list.
Qed.

Lemma framed_each_raises e0 l :
  Forall (fun e => raises_only e0 (framed stream_rectangle e)) l ->
  raises_only e0 (framed_each (framed stream_rectangle) l).
Proof.
  induction 1 as [|e rest He _ IH]; cbn [framed_each].
  - apply raises_only_ok.
  - apply raises_only_then; assumption.
Qed.

Lemma framed_list_with_raises name structure fourcc :
  Forall (fun e => raises_only StructError (framed stream_rectangle e)) structure ->
  raises_only StructError
    (framed_list_with (framed stream_rectangle) name structure fourcc).
Proof.
  intros H. unfold framed_list_with.
  apply raises_only_rbind; [apply framed_each_raises; exact H|]. intros body.
  apply raises_only_rbind; [apply pack_value_raises|]. intros size.
  apply raises_only_ok.
Qed.

(** Framing raises nothing but [StructError] when rendering the headers
    does not. *)
Lemma framed_raises e :
  (forall h, In h (headers e) ->
             raises_only StructError (render stream_rectangle h)) ->
  raises_only StructError (framed stream_rectangle e).
Proof.
  induction e as [name structure IH|name data] using entry_ind'.
  - cbn [headers framed]. intros Hh.
    apply framed_list_with_raises.
    rewrite Forall_forall in IH |- *. intros e He. apply IH; [exact He|].
    intros h Hin. apply Hh. apply in_flat_map. exists e. auto.
  - destruct data as [|payload|h]; cbn [headers framed framed_chunk]; intros Hh.
    + apply raises_only_ok.
    + apply raises_only_rbind; [apply pack_value_raises|]. intros size.
      apply raises_only_ok.
    + apply raises_only_rbind; [apply Hh; left; reflexivity|]. intros payload.
      apply raises_only_rbind; [apply pack_value_raises|]. intros size.
      apply raises_only_ok.
Qed.

Lemma render_MainHeader_raises m :
  main_header_built m ->
  raises_only StructError (render stream_rectangle (MainHeader m)).
Proof.
  intros (_ & _ & _ & _ & _ & _ & _ & Hres).
  rewrite render_MainHeader. unfold AviMainHeader.fields. rewrite Hres.
  cbn [list_get nth_error rbind]. apply from_list_raises.
Qed.

Lemma render_Bitmap_raises i :
  raises_only StructError (render stream_rectangle (Bitmap i)).
Proof.
  rewrite render_Bitmap.
  apply raises_only_then; [apply from_list_raises | apply raises_only_ok].
Qed.

Lemma render_WaveFormat_raises w :
  wave_header_built w ->
  raises_only StructError (render stream_rectangle (WaveFormat w)).
Proof.
  intros (cc & sps & bps & ->). rewrite render_WaveFormat.
  unfold PcmWaveFormatEx.fields, PcmWaveFormatEx.average_bytes_per_second_transfer_rate,
    PcmWaveFormatEx.block_alignment.
  cbn [py_mul rbind PcmWaveFormatEx.channel_count PcmWaveFormatEx.bits_per_sample
       PcmWaveFormatEx.samples_per_second].
  apply from_list_raises.
Qed.

Lemma render_StreamHeader_raises ty h :
  length stream_rectangle = 4%nat ->
  stream_header_built ty h ->
  raises_only StructError (render stream_rectangle (StreamHeader h)).
Proof.
  intros Hrect (rate & Hh).
  apply length_four in Hrect. destruct Hrect as (x0 & x1 & x2 & x3 & Hrect).
  rewrite render_StreamHeader, Hh, Hrect.
  cbn [AviStreamHeader.stream_type AviStreamHeader.set_stream_size
       AviStreamHeader.set_rate AviStreamHeader.set_stream_type].
  apply raises_only_then; [apply raises_only_ok|].
  apply raises_only_then; [apply raises_only_ok|].
  unfold AviStreamHeader.fields. cbn [list_get nth_error rbind].
  apply from_list_raises.
Qed.
End RaisesOnly.

Lemma chunk_entries_headers {A} (f : A -> entry) (l : list A) :
  (forall a, headers (f a) = []) -> flat_map headers (map f l) = [].
Proof.
  intros H. induction l as [|a rest IH]; cbn [map flat_map]; [reflexivity|].
  rewrite H, IH. reflexivity.
Qed.

Lemma optional_headers {A} (mk : A -> header) (o : option A) name h :
  In h (headers (Chunk name (AviFile.optional mk o))) ->
  exists x, o = Some x /\ h = mk x.
Proof.
  destruct o as [x|]; cbn [AviFile.optional headers In]; [|contradiction].
  intros [<-|[]]. exists x. auto.
Qed.

(** The header objects of the structure [write] builds are those the
    [AviFile] holds. *)
Lemma riff_structure_headers a structure h :
  AviFile.riff_structure a = Ok structure ->
  In h (flat_map headers structure) ->
  h = MainHeader (AviFile.main_header a) \/
  (exists v, AviFile.video_stream_header a = Some v /\ h = StreamHeader v) \/
  (exists i, AviFile.bitmap_header a = Some i /\ h = Bitmap i) \/
  (exists s, AviFile.audio_stream_header a = Some s /\ h = StreamHeader s) \/
  (exists w, AviFile.wave_header a = Some w /\ h = WaveFormat w).
Proof.
  unfold AviFile.riff_structure.
  destruct (AviFile.bitmap_header a) as [bitmap|]; [|discriminate].
  intros H. apply Ok_inj in H. subst structure.
  cbn [flat_map headers]. rewrite !app_nil_r.
  assert (Hv : flat_map headers (map AviFile.video_entry (AviFile.video_chunks a)) = [])
    by (apply chunk_entries_headers; intros [name frame]; reflexivity).
  assert (Ha : flat_map headers (map AviFile.audio_entry (AviFile.audio_chunks a)) = [])
    by (apply chunk_entries_headers; intros [name [pcm|]]; reflexivity).
  rewrite flat_map_app, Hv, Ha, !app_nil_r.
  intros Hin.
  apply in_app_or in Hin. destruct Hin as [[<-|[]]|Hin]; [left; reflexivity|].
  apply in_app_or in Hin. destruct Hin as [Hin|Hin].
  - apply in_app_or in Hin. destruct Hin as [Hin|[<-|[]]].
    + apply (optional_headers StreamHeader _ (b "strh")) in Hin. right. left. exact Hin.
    + right. right. left. exists bitmap. auto.
  - apply in_app_or in Hin. destruct Hin as [Hin|Hin].
    + apply (optional_headers StreamHeader _ (b "strh")) in Hin. do 3 right. left. exact Hin.
    + apply (optional_headers WaveFormat _ (b "strf")) in Hin. do 4 right. exact Hin.
Qed.

(** On a container built by the operations, [write] raises nothing but
    [StructError] once the video stream was initialized. *)
Lemma write_built_raises hp :
  built hp ->
  AviFile.bitmap_header (AviFile.self hp) <> None ->
  raises_only StructError (AviFile.write hp).
Proof.
  intros (Hrect & Hmain & Hvideo & Haudio & Hwave & _) Hbitmap.
  rewrite write_framed.
  destruct (AviFile.riff_structure (AviFile.self hp)) as [structure|e] eqn:Hs.
  - cbn [rbind]. apply framed_list_with_raises.
    apply Forall_forall. intros e He. apply framed_raises. intros h Hh.
    assert (Hin : In h (flat_map headers structure))
      by (apply in_flat_map; exists e; auto).
    destruct (riff_structure_headers _ _ _ Hs Hin)
      as [->|[(v & Hv & ->)|[(i & Hi & ->)|[(s & Hsome & ->)|(w & Hw & ->)]]]].
    + apply render_MainHeader_raises. exact Hmain.
    + apply (render_StreamHeader_raises _ AviStreamType.Video); [exact Hrect|].
      apply (Hvideo v Hv).
    + apply render_Bitmap_raises.
    + apply (render_StreamHeader_raises _ AviStreamType.Audio); [exact Hrect|].
      apply (Haudio s Hsome).
    + apply render_WaveFormat_raises. apply (Hwave w Hw).
  - unfold AviFile.riff_structure in Hs.
    destruct (AviFile.bitmap_header (AviFile.self hp)); [discriminate|contradiction].
Qed.

Lemma perform_bitmap_header o hp :
  built hp ->
  (AviFile.bitmap_header (AviFile.self (after (perform o) hp)) = None <->
   AviFile.bitmap_header (AviFile.self hp) = None /\ initializes_video o = false).
Proof.
  intros (Hrect & _). destruct hp as [rect a].
  cbn [AviFile.cls_stream_rectangle AviFile.self] in *.
  apply length_four in Hrect. destruct Hrect as (x0 & x1 & x2 & x3 & ->).
  destruct o as [width height fps bpp palette|cc sps bps|frame|pcm];
    unfold after, perform; cbn [initializes_video].
  - unfold AviFile.initialize_video_stream, AviFile.floordiv.
    destruct (fps =? 0); cbn; split; [discriminate | intros [_ H]; discriminate
                                     | discriminate | intros [_ H]; discriminate].
  - cbn. split; [auto | intros [H _]; exact H].
  - unfold AviFile.add_video_frame, AviFile.update, AviFile.mbind,
      AviFile.get_self, AviFile.put_self.
    cbn [AviFile.self AviFile.cls_stream_rectangle AviFile.set_video_chunks
         AviFile.video_stream_header].
    destruct (AviFile.video_stream_header a); cbn;
      (split; [auto | intros [H _]; exact H]).
  - cbn. split; [auto | intros [H _]; exact H].
Qed.

Lemma perform_all_bitmap_header ops : forall hp,
  built hp ->
  (AviFile.bitmap_header (AviFile.self (perform_all ops hp)) = None <->
   AviFile.bitmap_header (AviFile.self hp) = None /\
   existsb initializes_video ops = false).
Proof.
  induction ops as [|o rest IH]; intros hp Hb; cbn [perform_all existsb].
  - split; [auto | intros [H _]; exact H].
  - rewrite (IH _ (perform_built o hp Hb)), (perform_bitmap_header o hp Hb).
    rewrite orb_false_iff. tauto.
Qed.

(** X3.  On a new [AviFile] taken through any operations, [write] raises
    [AttributeError] exactly when [initialize_video_stream] was never
    called, audio stream or not; once it was called, [write] returns a file
    or raises [StructError], and nothing else. *)
Theorem write_needs_video_stream ops :
  let hp := perform_all ops AviFile.initial in
  (existsb initializes_video ops = false ->
   AviFile.write hp = Raise AttributeError) /\
  (existsb initializes_video ops = true ->
   (exists file, AviFile.write hp = Ok file) \/
   AviFile.write hp = Raise StructError).
Proof.
  intros hp.
  pose proof (perform_all_built ops AviFile.initial initial_built) as Hb.
  pose proof (perform_all_bitmap_header ops AviFile.initial initial_built) as Hiff.
  fold hp in Hb, Hiff. split.
  - intros Hno.
    assert (Hnone : AviFile.bitmap_header (AviFile.self hp) = None)
      by (apply Hiff; split; [reflexivity | exact Hno]).
    unfold AviFile.write, AviFile.riff_structure. rewrite Hnone. reflexivity.
  - intros Hyes.
    assert (Hsome : AviFile.bitmap_header (AviFile.self hp) <> None).
    { intros Hnone. apply Hiff in Hnone. destruct Hnone as [_ Hno]. congruence. }
    pose proof (write_built_raises hp Hb Hsome) as Hr.
    destruct (AviFile.write hp) as [file|e].
    + left. exists file. reflexivity.
    + right. rewrite (Hr e eq_refl). reflexivity.
Qed.

Lemma write_needs_video_stream_witness :
  AviFile.write (perform_all audio_only_operations AviFile.initial) =
    Raise AttributeError /\
  ((exists file,
      AviFile.write (perform_all video_and_audio_operations AviFile.initial) = Ok file) \/
   AviFile.write (perform_all video_and_audio_operations AviFile.initial) =
     Raise StructError).
Proof.
  split.
  - apply (proj1 (write_needs_video_stream audio_only_operations)). reflexivity.
  - apply (proj2 (write_needs_video_stream video_and_audio_operations)). reflexivity.
Defined.

(** ** Operations that raise half-way *)



(** X5.  [add_video_frame] without a video stream header raises only after
    it has appended the chunk: the frame stays in the container, and
    nothing else changes. *)
Theorem add_video_frame_failure_keeps_frame hp frame :
  AviFile.video_stream_header (AviFile.self hp) = None ->
  outcome (AviFile.add_video_frame frame) hp = Raise AttributeError /\
  after (AviFile.add_video_frame frame) hp =
    {| AviFile.cls_stream_rectangle := AviFile.cls_stream_rectangle hp;
       AviFile.self :=
         AviFile.set_video_chunks
           (AviFile.video_chunks (AviFile.self hp) ++ [(b "00db", frame)])
           (AviFile.self hp) |}.
Proof.
  intros H. split; [apply add_video_frame_raises; exact H|].
  destruct hp as [rect a]. cbn [AviFile.self] in H.
  unfold after, AviFile.add_video_frame, AviFile.update, AviFile.mbind,
    AviFile.get_self, AviFile.put_self.
  cbn [AviFile.self AviFile.cls_stream_rectangle AviFile.set_video_chunks
       AviFile.video_stream_header].
  rewrite H. reflexivity.
Qed.

Lemma add_video_frame_failure_keeps_frame_witness :
  outcome (AviFile.add_video_frame (b "abcd")) AviFile.initial = Raise AttributeError /\
  after (AviFile.add_video_frame (b "abcd")) AviFile.initial =
    {| AviFile.cls_stream_rectangle := AviFile.cls_stream_rectangle AviFile.initial;
       AviFile.self :=
         AviFile.set_video_chunks
           (AviFile.video_chunks (AviFile.self AviFile.initial) ++ [(b "00db", b "abcd")])
           (AviFile.self AviFile.initial) |}.
Proof.
  apply (add_video_frame_failure_keeps_frame AviFile.initial (b "abcd")).
  reflexivity.
Defined.

(** ** The frame counter and the audio stream header *)

Lemma initialize_video_stream_keeps_chunks hp width height fps bpp palette :
  length (AviFile.cls_stream_rectangle hp) = 4%nat ->
  let hp' := after (AviFile.initialize_video_stream width height fps bpp palette) hp in
  AviFile.video_chunks (AviFile.self hp') = AviFile.video_chunks (AviFile.self hp) /\
  AviFile.audio_chunks (AviFile.self hp') = AviFile.audio_chunks (AviFile.self hp) /\
  option_map AviStreamHeader.stream_size
    (AviFile.video_stream_header (AviFile.self hp')) = Some 0.
Proof.
  intros Hrect. apply length_four in Hrect.
  destruct Hrect as (x0 & x1 & x2 & x3 & Hrect).
  destruct hp as [rect a]. cbn [AviFile.cls_stream_rectangle] in Hrect. subst rect.
  unfold after, AviFile.initialize_video_stream, AviFile.floordiv.
  destruct (fps =? 0); cbn; repeat split.
Qed.

(** X6.  On a new [AviFile] taken through any operations, the frame counter
    of the video stream header is never negative and never more than the
    number of frames held; it can be less, since every call of
    [initialize_video_stream] sets it back to 0 and keeps the frames and the
    audio chunks that are there. *)
Theorem frame_counter_at_most_frames :
  (forall ops h,
     AviFile.video_stream_header (AviFile.self (perform_all ops AviFile.initial)) =
       Some h ->
     0 <= AviStreamHeader.stream_size h <=
     Z.of_nat (length (AviFile.video_chunks
                         (AviFile.self (perform_all ops AviFile.initial))))) /\
  (forall hp width height fps bpp palette,
     length (AviFile.cls_stream_rectangle hp) = 4%nat ->
     let hp' := after (AviFile.initialize_video_stream width height fps bpp palette) hp in
     AviFile.video_chunks (AviFile.self hp') = AviFile.video_chunks (AviFile.self hp) /\
     AviFile.audio_chunks (AviFile.self hp') = AviFile.audio_chunks (AviFile.self hp) /\
     option_map AviStreamHeader.stream_size
       (AviFile.video_stream_header (AviFile.self hp')) = Some 0).
Proof.
  split.
  - intros ops h Hh.
    destruct (perform_all_built ops AviFile.initial initial_built)
      as (_ & _ & Hvideo & _).
    apply (Hvideo h Hh).
  - intros hp width height fps bpp palette Hrect.
    apply initialize_video_stream_keeps_chunks. exact Hrect.
Qed.

Lemma frame_counter_at_most_frames_witness :
  (0 <= AviStreamHeader.stream_size video_header_30 <=
   Z.of_nat (length (AviFile.video_chunks
                       (AviFile.self
                          (perform_all frame_then_video_operations AviFile.initial))))) /\
  (AviFile.video_chunks
     (AviFile.self (after (AviFile.initialize_video_stream 2 2 30 8 None) video_only)) =
     AviFile.video_chunks (AviFile.self video_only) /\
   AviFile.audio_chunks
     (AviFile.self (after (AviFile.initialize_video_stream 2 2 30 8 None) video_only)) =
     AviFile.audio_chunks (AviFile.self video_only) /\
   option_map AviStreamHeader.stream_size
     (AviFile.video_stream_header
        (AviFile.self (after (AviFile.initialize_video_stream 2 2 30 8 None) video_only))) =
     Some 0).
Proof.
  split.
  - apply (proj1 frame_counter_at_most_frames frame_then_video_operations
             video_header_30).
    reflexivity.
  - apply (proj2 frame_counter_at_most_frames video_only 2 2 30 8 None).
    reflexivity.
Defined.

(** X7.  On a new [AviFile] taken through any operations, the audio stream
    header, when there is one, is typed ['auds'] and names the handler
    ['DIB '] like a video stream; its scale is 1 and its rate the sample
    rate of the wave format; and its length stays 0, however many audio
    chunks were added. *)
Theorem audio_stream_header_is_fixed ops h :
  AviFile.audio_stream_header (AviFile.self (perform_all ops AviFile.initial)) =
    Some h ->
  AviStreamHeader.stream_type h = Some (b "auds") /\
  AviStreamHeader.stream_data_handler h = b "DIB " /\
  AviStreamHeader.scale h = 1 /\
  AviStreamHeader.stream_size h = 0 /\
  AviStreamHeader.sample_size h = 0 /\
  exists w,
    AviFile.wave_header (AviFile.self (perform_all ops AviFile.initial)) = Some w /\
    AviStreamHeader.rate h = PcmWaveFormatEx.samples_per_second w.
Proof.
  intros Hh.
  destruct (perform_all_built ops AviFile.initial initial_built)
    as (_ & _ & _ & Haudio & _).
  destruct (Haudio h Hh) as ((rate & Hshape) & Hsize & Hw).
  split; [rewrite Hshape; reflexivity|].
  split; [rewrite Hshape; reflexivity|].
  split; [rewrite Hshape; reflexivity|].
  split; [exact Hsize|].
  split; [rewrite Hshape; reflexivity|].
  exact Hw.
Qed.

Lemma audio_stream_header_is_fixed_witness :
  AviStreamHeader.stream_type
    (AviStreamHeader.set_rate 22050
       (AviStreamHeader.set_stream_type AviStreamType.Audio AviStreamHeader.new)) =
    Some (b "auds") /\
  AviStreamHeader.stream_data_handler
    (AviStreamHeader.set_rate 22050
       (AviStreamHeader.set_stream_type AviStreamType.Audio AviStreamHeader.new)) =
    b "DIB " /\
  AviStreamHeader.scale
    (AviStreamHeader.set_rate 22050
       (AviStreamHeader.set_stream_type AviStreamType.Audio AviStreamHeader.new)) = 1 /\
  AviStreamHeader.stream_size
    (AviStreamHeader.set_rate 22050
       (AviStreamHeader.set_stream_type AviStreamType.Audio AviStreamHeader.new)) = 0 /\
  AviStreamHeader.sample_size
    (AviStreamHeader.set_rate 22050
       (AviStreamHeader.set_stream_type AviStreamType.Audio AviStreamHeader.new)) = 0 /\
  exists w,
    AviFile.wave_header
      (AviFile.self (perform_all video_and_audio_operations AviFile.initial)) = Some w /\
    AviStreamHeader.rate
      (AviStreamHeader.set_rate 22050
         (AviStreamHeader.set_stream_type AviStreamType.Audio AviStreamHeader.new)) =
      PcmWaveFormatEx.samples_per_second w.
Proof.
  apply (audio_stream_header_is_fixed video_and_audio_operations).
  reflexivity.
Defined.

(** ** The stream header and the shared rectangle *)

Lemma stream_header_fields_inv stream_rectangle h fs :
  AviStreamHeader.fields stream_rectangle h = Ok fs ->
  exists x0 x1 x2 x3,
    nth_error stream_rectangle 0 = Some x0 /\
    nth_error stream_rectangle 1 = Some x1 /\
    nth_error stream_rectangle 2 = Some x2 /\
    nth_error stream_rectangle 3 = Some x3 /\
    fs = [ (Type_.uint32_le, Some (AviStreamHeader.flags h));
           (Type_.uint16_le, Some (AviStreamHeader.priority h));
           (Type_.uint16_le, Some (AviStreamHeader.language h));
           (Type_.uint32_le, Some (AviStreamHeader.frames_before_this_stream h));
           (Type_.uint32_le, Some (AviStreamHeader.scale h));
           (Type_.uint32_le, AviStreamHeader.rate h);
           (Type_.uint32_le, Some (AviStreamHeader.start_time h));
           (Type_.uint32_le, Some (AviStreamHeader.stream_size h));
           (Type_.uint32_le, Some (AviStreamHeader.suggested_buffer_size h));
           (Type_.int32_le, Some (AviStreamHeader.quality h));
           (Type_.uint32_le, Some (AviStreamHeader.sample_size h));
           (Type_.int16_le, Some x0);
           (Type_.int16_le, Some x1);
           (Type_.int16_le, Some x2);
           (Type_.int16_le, Some x3) ].
Proof.
  unfold AviStreamHeader.fields, list_get.
  destruct (nth_error stream_rectangle 0) as [x0|]; [|discriminate].
  destruct (nth_error stream_rectangle 1) as [x1|]; [|discriminate].
  destruct (nth_error stream_rectangle 2) as [x2|]; [|discriminate].
  destruct (nth_error stream_rectangle 3) as [x3|]; [|discriminate].
  cbn [rbind]. intros H. apply Ok_inj in H. subst fs.
  exists x0, x1, x2, x3. repeat split.
Qed.

(** A packed field read back, with the value it holds. *)
Lemma from_list_reads fields bs i ty z :
  pack.from_list fields = Ok bs ->
  nth_error fields i = Some (ty, Some z) ->
  Type_.in_range ty z = true /\
  int_from_bytes (Type_.signed ty) (slice (offset fields i) (Type_.width ty) bs) = z.
Proof.
  intros Hp Hn.
  destruct (from_list_field fields bs i ty (Some z) Hp Hn) as (z' & Hz & Hr & Hs).
  injection Hz as <-. split; [exact Hr|].
  rewrite Hs. apply int_from_bytes_packed. exact Hr.
Qed.

(** What a stream header renders: its type, its handler, and 48 packed
    bytes that end with the four entries of the shared rectangle. *)
Lemma render_StreamHeader_inv stream_rectangle h payload :
  render stream_rectangle (StreamHeader h) = Ok payload ->
  exists ty rate x0 x1 x2 x3 packed,
    AviStreamHeader.stream_type h = Some ty /\
    AviStreamHeader.rate h = Some rate /\
    stream_rectangle = x0 :: x1 :: x2 :: x3 :: skipn 4 stream_rectangle /\
    payload = ty ++ AviStreamHeader.stream_data_handler h ++ packed /\
    length packed = 48%nat /\
    int_from_bytes false (slice 12 4 packed) = AviStreamHeader.scale h /\
    int_from_bytes false (slice 16 4 packed) = rate /\
    int_from_bytes false (slice 24 4 packed) = AviStreamHeader.stream_size h /\
    int_from_bytes true (slice 32 4 packed) = AviStreamHeader.quality h /\
    (Type_.in_range Type_.int16_le x0 = true /\
     int_from_bytes true (slice 40 2 packed) = x0) /\
    (Type_.in_range Type_.int16_le x1 = true /\
     int_from_bytes true (slice 42 2 packed) = x1) /\
    (Type_.in_range Type_.int16_le x2 = true /\
     int_from_bytes true (slice 44 2 packed) = x2) /\
    (Type_.in_range Type_.int16_le x3 = true /\
     int_from_bytes true (slice 46 2 packed) = x3).
Proof.
  rewrite render_StreamHeader. unfold then_. intros H.
  destruct (AviStreamHeader.stream_type h) as [ty|]; [|discriminate].
  cbn [rbind] in H.
  destruct (AviStreamHeader.fields stream_rectangle h) as [fs|] eqn:Hfs;
    [|discriminate].
  cbn [rbind] in H.
  destruct (pack.from_list fs) as [packed|] eqn:Hp; [|discriminate].
  cbn [rbind] in H. apply Ok_inj in H. subst payload.
  destruct (stream_header_fields_inv _ _ _ Hfs)
    as (x0 & x1 & x2 & x3 & N0 & N1 & N2 & N3 & ->).
  destruct (from_list_field _ _ 5 _ _ Hp eq_refl) as (rate & Hrate & Hrr & Hrs).
  exists ty, rate, x0, x1, x2, x3, packed.
  split; [reflexivity|]. split; [exact Hrate|].
  split.
  { destruct stream_rectangle as [|y0 [|y1 [|y2 [|y3 rest]]]]; try discriminate.
    cbn [nth_error] in N0, N1, N2, N3.
    injection N0 as ->. injection N1 as ->. injection N2 as ->. injection N3 as ->.
    reflexivity. }
  split; [reflexivity|].
  split; [apply from_list_length in Hp; exact Hp|].
  split; [apply (from_list_reads _ _ 4 Type_.uint32_le _ Hp eq_refl)|].
  split.
  { cbn [offset Type_.width Nat.add] in Hrs. rewrite Hrs.
    apply (int_from_bytes_packed Type_.uint32_le). exact Hrr. }
  split; [apply (from_list_reads _ _ 7 Type_.uint32_le _ Hp eq_refl)|].
  split; [apply (from_list_reads _ _ 9 Type_.int32_le _ Hp eq_refl)|].
  split; [apply (from_list_reads _ _ 11 Type_.int16_le _ Hp eq_refl)|].
  split; [apply (from_list_reads _ _ 12 Type_.int16_le _ Hp eq_refl)|].
  split; [apply (from_list_reads _ _ 13 Type_.int16_le _ Hp eq_refl)|].
  apply (from_list_reads _ _ 14 Type_.int16_le _ Hp eq_refl).
Qed.

Lemma slice_two_tags (ty handler packed : bytes) k len :
  length ty = 4%nat -> length handler = 4%nat ->
  slice (8 + k) len (ty ++ handler ++ packed) = slice k len packed.
Proof.
  intros Ht Hh.
  rewrite (slice_skip_piece ty _ 4) by (assumption || lia).
  rewrite (slice_skip_piece handler _ 4) by (assumption || lia).
  f_equal. lia.
Qed.

(** X8.  A stream header whose type and handler are four bytes long renders
    on 56 bytes: the type, the handler, and among the packed fields the
    scale at offset 20, the rate at 24, the length of the stream at 32 and
    the signed quality at 40. *)
Theorem stream_header_layout stream_rectangle h ty payload :
  AviStreamHeader.stream_type h = Some ty ->
  length ty = 4%nat ->
  length (AviStreamHeader.stream_data_handler h) = 4%nat ->
  render stream_rectangle (StreamHeader h) = Ok payload ->
  length payload = 56%nat /\
  slice 0 4 payload = ty /\
  slice 4 4 payload = AviStreamHeader.stream_data_handler h /\
  int_from_bytes false (slice 20 4 payload) = AviStreamHeader.scale h /\
  Some (int_from_bytes false (slice 24 4 payload)) = AviStreamHeader.rate h /\
  int_from_bytes false (slice 32 4 payload) = AviStreamHeader.stream_size h /\
  int_from_bytes true (slice 40 4 payload) = AviStreamHeader.quality h.
Proof.
  intros Hty Lt Lh H.
  apply render_StreamHeader_inv in H.
  destruct H as (ty' & rate & x0 & x1 & x2 & x3 & packed & Hty' & Hrate & _ &
                 -> & Lp & Hscale & Hr & Hsize & Hq & _).
  rewrite Hty in Hty'. injection Hty' as <-.
  split; [rewrite !length_app; lia|].
  split; [rewrite <- Lt at 1; apply slice_app_take|].
  split.
  { rewrite (slice_skip_piece ty _ 4) by (assumption || lia).
    cbn [Nat.sub]. rewrite <- Lh at 1. apply slice_app_take. }
  split; [rewrite (slice_two_tags ty _ packed 12) by assumption; exact Hscale|].
  split; [rewrite (slice_two_tags ty _ packed 16) by assumption; rewrite Hr, Hrate;
          reflexivity|].
  split; [rewrite (slice_two_tags ty _ packed 24) by assumption; exact Hsize|].
  rewrite (slice_two_tags ty _ packed 32) by assumption. exact Hq.
Qed.

Lemma stream_header_layout_witness :
  length (file_of (render [0; 0; 2; -2] (StreamHeader video_header_30))) = 56%nat /\
  slice 0 4 (file_of (render [0; 0; 2; -2] (StreamHeader video_header_30))) =
    b "vids" /\
  slice 4 4 (file_of (render [0; 0; 2; -2] (StreamHeader video_header_30))) =
    AviStreamHeader.stream_data_handler video_header_30 /\
  int_from_bytes false
    (slice 20 4 (file_of (render [0; 0; 2; -2] (StreamHeader video_header_30)))) =
    AviStreamHeader.scale video_header_30 /\
  Some (int_from_bytes false
          (slice 24 4 (file_of (render [0; 0; 2; -2] (StreamHeader video_header_30))))) =
    AviStreamHeader.rate video_header_30 /\
  int_from_bytes false
    (slice 32 4 (file_of (render [0; 0; 2; -2] (StreamHeader video_header_30)))) =
    AviStreamHeader.stream_size video_header_30 /\
  int_from_bytes true
    (slice 40 4 (file_of (render [0; 0; 2; -2] (StreamHeader video_header_30)))) =
    AviStreamHeader.quality video_header_30.
Proof.
  apply (stream_header_layout [0; 0; 2; -2] video_header_30 (b "vids")
           (file_of (render [0; 0; 2; -2] (StreamHeader video_header_30)))).
  - reflexivity.
  - reflexivity.
  - reflexivity.
  - vm_compute. reflexivity.
Defined.

(** What [initialize_video_stream] leaves in the shared rectangle and in
    the video stream header, whether it returns or raises on a frame rate
    of zero. *)
Lemma initialize_video_stream_rectangle hp width height fps bpp palette :
  length (AviFile.cls_stream_rectangle hp) = 4%nat ->
  let hp' := after (AviFile.initialize_video_stream width height fps bpp palette) hp in
  (exists x0 x1, AviFile.cls_stream_rectangle hp' = [x0; x1; width; - height]) /\
  exists v, AviFile.video_stream_header (AviFile.self hp') = Some v.
Proof.
  intros Hrect. apply length_four in Hrect.
  destruct Hrect as (x0 & x1 & x2 & x3 & Hrect).
  destruct hp as [rect a]. cbn [AviFile.cls_stream_rectangle] in Hrect. subst rect.
  unfold after, AviFile.initialize_video_stream, AviFile.floordiv.
  destruct (fps =? 0); cbn; (split; [exists x0, x1; reflexivity|]);
    eexists; reflexivity.
Qed.

(** X9.  The rectangle belongs to the class, not to a stream header: once
    [initialize_video_stream] has run, every stream header renders the
    width and the negated height of the video in its last two rectangle
    fields, the audio stream header too, whenever it was or will be
    created. *)
Theorem stream_rectangle_is_shared hp width height fps bpp palette h ty payload :
  length (AviFile.cls_stream_rectangle hp) = 4%nat ->
  AviStreamHeader.stream_type h = Some ty ->
  length ty = 4%nat ->
  length (AviStreamHeader.stream_data_handler h) = 4%nat ->
  render
    (AviFile.cls_stream_rectangle
       (after (AviFile.initialize_video_stream width height fps bpp palette) hp))
    (StreamHeader h) = Ok payload ->
  int_from_bytes true (slice 52 2 payload) = width /\
  int_from_bytes true (slice 54 2 payload) = - height.
Proof.
  intros Hrect Hty Lt Lh H.
  destruct (initialize_video_stream_rectangle hp width height fps bpp palette Hrect)
    as ((y0 & y1 & Hcls) & _).
  rewrite Hcls in H.
  apply render_StreamHeader_inv in H.
  destruct H as (ty' & rate & x0 & x1 & x2 & x3 & packed & Hty' & _ & Hr &
                 -> & _ & _ & _ & _ & _ & _ & _ & (_ & H2) & (_ & H3)).
  rewrite Hty in Hty'. injection Hty' as <-.
  cbn [skipn] in Hr. injection Hr as _ _ <- <-.
  split.
  - rewrite (slice_two_tags ty _ packed 44) by assumption. exact H2.
  - rewrite (slice_two_tags ty _ packed 46) by assumption. exact H3.
Qed.

Lemma stream_rectangle_is_shared_witness :
  int_from_bytes true
    (slice 52 2
       (file_of
          (render
             (AviFile.cls_stream_rectangle
                (after (AviFile.initialize_video_stream 160 120 30 8 None)
                   audio_initialized))
             (StreamHeader audio_header_22050)))) = 160 /\
  int_from_bytes true
    (slice 54 2
       (file_of
          (render
             (AviFile.cls_stream_rectangle
                (after (AviFile.initialize_video_stream 160 120 30 8 None)
                   audio_initialized))
             (StreamHeader audio_header_22050)))) = - 120.
Proof.
  apply (stream_rectangle_is_shared audio_initialized 160 120 30 8 None
           audio_header_22050 (b "auds")).
  - reflexivity.
  - reflexivity.
  - reflexivity.
  - reflexivity.
  - vm_compute. reflexivity.
Defined.

(** ** Dimensions that cannot be written *)





(** ** The bitmap header and its palette *)

(** X11.  A bitmap header renders on 40 packed bytes followed by the bytes
    of the palette as they are, nothing for a palette that is [None] or
    empty; the structure size is read at offset 0, the width at 4, the
    planes at 12, the bits per pixel at 14 and the compression at 16. *)
Theorem bitmap_header_layout stream_rectangle i payload :
  render stream_rectangle (Bitmap i) = Ok payload ->
  length payload = (40 + length (palette_bytes i))%nat /\
  skipn 40 payload = palette_bytes i /\
  int_from_bytes false (slice 0 4 payload) = BitmapInfo.STRUCTURE_SIZE i /\
  Some (int_from_bytes true (slice 4 4 payload)) = BitmapInfo.width i /\
  int_from_bytes false (slice 12 2 payload) = BitmapInfo.planes i /\
  Some (int_from_bytes false (slice 14 2 payload)) = BitmapInfo.bits_per_pixel i /\
  int_from_bytes false (slice 16 4 payload) = BitmapInfo.compression i.
Proof.
  rewrite render_Bitmap. unfold then_. fold (palette_bytes i). intros H.
  destruct (pack.from_list (BitmapInfo.fields i)) as [packed|] eqn:Hp; [|discriminate].
  cbn [rbind] in H. apply Ok_inj in H. subst payload.
  pose proof (from_list_length _ _ Hp) as Hlen.
  unfold BitmapInfo.fields in Hlen. cbn [length offset Type_.width Nat.add] in Hlen.
  split; [rewrite length_app; lia|].
  split.
  { rewrite skipn_app, skipn_all2 by lia.
    replace (40 - length packed)%nat with 0%nat by lia. reflexivity. }
  rewrite !slice_app_within by lia.
  split; [apply (from_list_reads _ _ 0 Type_.uint32_le _ Hp eq_refl)|].
  split.
  { destruct (from_list_field _ _ 1 _ _ Hp eq_refl) as (z & Hz & Hr & Hs).
    cbn [offset BitmapInfo.fields Type_.width Nat.add] in Hs.
    pose proof (int_from_bytes_packed Type_.int32_le z Hr) as E.
    cbn [Type_.signed Type_.width] in E. rewrite Hs, E. symmetry. exact Hz. }
  split; [apply (from_list_reads _ _ 3 Type_.uint16_le _ Hp eq_refl)|].
  split.
  { destruct (from_list_field _ _ 4 _ _ Hp eq_refl) as (z & Hz & Hr & Hs).
    cbn [offset BitmapInfo.fields Type_.width Nat.add] in Hs.
    pose proof (int_from_bytes_packed Type_.uint16_le z Hr) as E.
    cbn [Type_.signed Type_.width] in E. rewrite Hs, E. symmetry. exact Hz. }
  apply (from_list_reads _ _ 5 Type_.uint32_le _ Hp eq_refl).
Qed.

Lemma bitmap_header_layout_witness :
  length (file_of (render (AviFile.cls_stream_rectangle video_160_120)
                     (Bitmap (bitmap_of video_160_120)))) =
    (40 + length (palette_bytes (bitmap_of video_160_120)))%nat /\
  skipn 40 (file_of (render (AviFile.cls_stream_rectangle video_160_120)
                       (Bitmap (bitmap_of video_160_120)))) =
    palette_bytes (bitmap_of video_160_120) /\
  int_from_bytes false
    (slice 0 4 (file_of (render (AviFile.cls_stream_rectangle video_160_120)
                           (Bitmap (bitmap_of video_160_120))))) =
    BitmapInfo.STRUCTURE_SIZE (bitmap_of video_160_120) /\
  Some (int_from_bytes true
          (slice 4 4 (file_of (render (AviFile.cls_stream_rectangle video_160_120)
                                 (Bitmap (bitmap_of video_160_120)))))) =
    BitmapInfo.width (bitmap_of video_160_120) /\
  int_from_bytes false
    (slice 12 2 (file_of (render (AviFile.cls_stream_rectangle video_160_120)
                            (Bitmap (bitmap_of video_160_120))))) =
    BitmapInfo.planes (bitmap_of video_160_120) /\
  Some (int_from_bytes false
          (slice 14 2 (file_of (render (AviFile.cls_stream_rectangle video_160_120)
                                  (Bitmap (bitmap_of video_160_120)))))) =
    BitmapInfo.bits_per_pixel (bitmap_of video_160_120) /\
  int_from_bytes false
    (slice 16 4 (file_of (render (AviFile.cls_stream_rectangle video_160_120)
                            (Bitmap (bitmap_of video_160_120))))) =
    BitmapInfo.compression (bitmap_of video_160_120).
Proof.
  apply (bitmap_header_layout (AviFile.cls_stream_rectangle video_160_120)
           (bitmap_of video_160_120)
           (file_of (render (AviFile.cls_stream_rectangle video_160_120)
                       (Bitmap (bitmap_of video_160_120))))).
  vm_compute. reflexivity.
Defined.

(** ** The order of additions *)

Lemma add_audio_chunk_returns hp pcm :
  AviFile.add_audio_chunk pcm hp =
  (Ok tt,
   {| AviFile.cls_stream_rectangle := AviFile.cls_stream_rectangle hp;
      AviFile.self := {|
        AviFile.main_header := AviFile.main_header (AviFile.self hp);
        AviFile.audio_stream_header := AviFile.audio_stream_header (AviFile.self hp);
        AviFile.wave_header := AviFile.wave_header (AviFile.self hp);
        AviFile.audio_chunks :=
          AviFile.audio_chunks (AviFile.self hp) ++ [(b "01wb", pcm)];
        AviFile.video_stream_header := AviFile.video_stream_header (AviFile.self hp);
        AviFile.video_chunks := AviFile.video_chunks (AviFile.self hp);
        AviFile.bitmap_header := AviFile.bitmap_header (AviFile.self hp)
      |}
   |}).
Proof. reflexivity. Qed.

(** What a run of additions leaves, however frames and audio chunks
    alternate in it. *)
Lemma perform_all_adds ops : forall hp h,
  AviFile.video_stream_header (AviFile.self hp) = Some h ->
  forallb adds ops = true ->
  perform_all ops hp =
  {| AviFile.cls_stream_rectangle := AviFile.cls_stream_rectangle hp;
     AviFile.self := {|
       AviFile.main_header := AviFile.main_header (AviFile.self hp);
       AviFile.audio_stream_header := AviFile.audio_stream_header (AviFile.self hp);
       AviFile.wave_header := AviFile.wave_header (AviFile.self hp);
       AviFile.audio_chunks :=
         AviFile.audio_chunks (AviFile.self hp) ++
         map (fun pcm => (b "01wb", pcm)) (pcms_of ops);
       AviFile.video_stream_header :=
         Some (AviStreamHeader.set_stream_size
                 (AviStreamHeader.stream_size h + Z.of_nat (length (frames_of ops))) h);
       AviFile.video_chunks :=
         AviFile.video_chunks (AviFile.self hp) ++
         map (fun frame => (b "00db", frame)) (frames_of ops);
       AviFile.bitmap_header := AviFile.bitmap_header (AviFile.self hp)
     |}
  |}.
Proof.
  induction ops as [|o rest IH]; intros hp h Hh Hadds.
  - destruct hp as [rect a]. cbn [AviFile.self] in Hh.
    destruct a. cbn in Hh. subst.
    cbn [perform_all frames_of pcms_of AviFile.self AviFile.cls_stream_rectangle
         AviFile.main_header AviFile.audio_stream_header AviFile.wave_header
         AviFile.audio_chunks AviFile.video_chunks AviFile.bitmap_header
         map length Z.of_nat].
    rewrite !app_nil_r, Z.add_0_r. destruct h. reflexivity.
  - cbn [forallb] in Hadds. apply andb_true_iff in Hadds.
    destruct Hadds as [Ho Hrest].
    destruct o as [width height fps bpp palette|cc sps bps|frame|pcm];
      try discriminate; cbn [perform_all perform frames_of pcms_of]; unfold after.
    + rewrite (add_video_frame_returns hp h frame Hh). cbn [snd].
      rewrite (IH _ (AviStreamHeader.set_stream_size (AviStreamHeader.stream_size h + 1) h))
        by (reflexivity || assumption).
      cbn [AviFile.self AviFile.cls_stream_rectangle
           AviFile.main_header AviFile.audio_stream_header AviFile.wave_header
           AviFile.audio_chunks AviFile.video_chunks AviFile.bitmap_header
           AviStreamHeader.stream_size AviStreamHeader.set_stream_size map length].
      rewrite <- app_assoc. cbn [app].
      replace (AviStreamHeader.stream_size h + 1 + Z.of_nat (length (frames_of rest)))
        with (AviStreamHeader.stream_size h + Z.of_nat (S (length (frames_of rest))))
        by lia.
      reflexivity.
    + rewrite (add_audio_chunk_returns hp pcm). cbn [snd].
      rewrite (IH _ h) by (assumption || reflexivity).
      cbn [AviFile.self AviFile.cls_stream_rectangle
           AviFile.main_header AviFile.audio_stream_header AviFile.wave_header
           AviFile.audio_chunks AviFile.video_chunks AviFile.bitmap_header map].
      rewrite <- app_assoc. reflexivity.
Qed.

(** X12.  Once the video stream is initialized, only the order among the
    frames and the order among the audio chunks matter: two runs of
    additions that add the same frames and the same audio chunks leave the
    same container, however they interleave them, and [write] gives the
    same result for both. *)
Theorem additions_commute hp h ops ops' :
  AviFile.video_stream_header (AviFile.self hp) = Some h ->
  forallb adds ops = true ->
  forallb adds ops' = true ->
  frames_of ops = frames_of ops' ->
  pcms_of ops = pcms_of ops' ->
  perform_all ops hp = perform_all ops' hp /\
  AviFile.write (perform_all ops hp) = AviFile.write (perform_all ops' hp).
Proof.
  intros Hh Ha Ha' Hf Hp.
  assert (E : perform_all ops hp = perform_all ops' hp).
  { rewrite (perform_all_adds ops hp h Hh Ha), (perform_all_adds ops' hp h Hh Ha').
    rewrite Hf, Hp. reflexivity. }
  split; [exact E|]. rewrite E. reflexivity.
Qed.

Lemma additions_commute_witness :
  perform_all interleaved_operations video_initialized =
    perform_all grouped_operations video_initialized /\
  AviFile.write (perform_all interleaved_operations video_initialized) =
    AviFile.write (perform_all grouped_operations video_initialized).
Proof.
  apply (additions_commute video_initialized video_header_30
           interleaved_operations grouped_operations); reflexivity.
Defined.

(** ** Audio chunks without samples *)

Lemma framed_sublist stream_rectangle name structure :
  framed stream_rectangle (Sublist name structure) =
  framed_list_with (framed stream_rectangle) name structure (b "LIST").
Proof. reflexivity. Qed.

Lemma framed_each_absent f name l :
  f (Chunk name PyNone) = Ok [] ->
  framed_each f (l ++ [Chunk name PyNone]) = framed_each f l.
Proof.
  intros Hf. induction l as [|x rest IH]; cbn [app framed_each].
  - rewrite Hf. reflexivity.
  - rewrite IH. reflexivity.
Qed.

Lemma framed_each_ext (f : entry -> result bytes) l : forall l',
  map f l = map f l' -> framed_each f l = framed_each f l'.
Proof.
  induction l as [|x rest IH]; intros [|y rest'] H; try discriminate.
  - reflexivity.
  - cbn [map] in H. injection H as Hx Hrest.
    cbn [framed_each]. rewrite Hx, (IH rest' Hrest). reflexivity.
Qed.

Lemma framed_list_with_ext (f : entry -> result bytes) name l l' fourcc :
  map f l = map f l' ->
  framed_list_with f name l fourcc = framed_list_with f name l' fourcc.
Proof.
  intros H. unfold framed_list_with. rewrite (framed_each_ext f l l' H). reflexivity.
Qed.

(** X13.  A sound whose samples are [None] is kept as an audio chunk, but
    nothing is written for it: with or without that chunk, [write] gives
    the same file, or raises the same exception. *)
Theorem add_audio_chunk_without_samples hp :
  AviFile.audio_chunks (AviFile.self (after (AviFile.add_audio_chunk None) hp)) =
    AviFile.audio_chunks (AviFile.self hp) ++ [(b "01wb", None)] /\
  AviFile.write (after (AviFile.add_audio_chunk None) hp) = AviFile.write hp.
Proof.
  split; [reflexivity|].
  rewrite !write_framed. unfold after.
  rewrite add_audio_chunk_returns. cbn [snd AviFile.self AviFile.cls_stream_rectangle].
  unfold AviFile.riff_structure.
  cbn [AviFile.bitmap_header AviFile.main_header AviFile.video_stream_header
       AviFile.audio_stream_header AviFile.wave_header AviFile.video_chunks
       AviFile.audio_chunks].
  destruct (AviFile.bitmap_header (AviFile.self hp)) as [bitmap|]; [|reflexivity].
  cbn [rbind]. unfold framed_list.
  apply framed_list_with_ext. cbn [map]. f_equal.
  rewrite !(framed_sublist _ (b "AVI ")).
  apply framed_list_with_ext. cbn [map]. do 2 f_equal.
  rewrite !(framed_sublist _ (b "movi")). unfold framed_list_with.
  rewrite map_app, app_assoc.
  change (map AviFile.audio_entry [(b "01wb", None)]) with [Chunk (b "01wb") PyNone].
  rewrite framed_each_absent by reflexivity.
  reflexivity.
Qed.

(** ** When a container can be written, and how long the file is *)

Lemma in_range_intro ty z :
  Type_.min_value ty <= z <= Type_.max_value ty -> Type_.in_range ty z = true.
Proof.
  intros [H0 H1]. unfold Type_.in_range. apply andb_true_iff.
  split; apply Z.leb_le; assumption.
Qed.

Lemma from_list_returns fields :
  Forall (fun f => exists z, snd f = Some z /\
                             Type_.min_value (fst f) <= z <= Type_.max_value (fst f))
         fields ->
  exists bs, pack.from_list fields = Ok bs /\
             length bs = offset fields (length fields).
Proof.
  induction 1 as [|[ty v] rest (z & Hv & Hz) _ (tail & Ht & Lt)];
    cbn [pack.from_list].
  - exists []. split; reflexivity.
  - cbn [fst snd] in Hv, Hz. subst v.
    unfold pack.value. rewrite (in_range_intro ty z Hz), Ht. cbn [rbind].
    eexists. split; [reflexivity|].
    rewrite length_app, length_le_split, Lt. reflexivity.
Qed.

Ltac in_bounds :=
  eexists; split; [reflexivity|];
  unfold Type_.min_value, Type_.max_value, Type_.bits;
  cbn [Type_.signed Type_.width fst snd];
  change (2 ^ (8 * Z.of_nat 4 - 1)) with 2147483648;
  change (2 ^ (8 * Z.of_nat 4)) with 4294967296;
  change (2 ^ (8 * Z.of_nat 2 - 1)) with 32768;
  change (2 ^ (8 * Z.of_nat 2)) with 65536;
  lia.

Lemma interval_bounds fps : 0 < fps -> 0 <= 1000000 / fps <= 1000000.
Proof.
  intros H. split.
  - apply Z.div_pos; lia.
  - apply Z.div_le_upper_bound; nia.
Qed.

(** The main header of a new [AviFile] renders once the video stream is
    initialized with a positive frame rate and dimensions of at most 32
    signed bits. *)
Lemma render_MainHeader_returns stream_rectangle m interval width height :
  main_header_built m ->
  AviMainHeader.micro_seconds_per_frame m = Some interval ->
  AviMainHeader.width m = Some width ->
  AviMainHeader.height m = Some height ->
  0 <= interval < 2 ^ 32 ->
  - 2 ^ 31 <= width < 2 ^ 31 ->
  - 2 ^ 31 <= height < 2 ^ 31 ->
  exists payload,
    render stream_rectangle (MainHeader m) = Ok payload /\ length payload = 56%nat.
Proof.
  intros (H1 & H2 & H3 & H4 & H5 & H6 & H7 & Hres) Hi Hw Hh Ri Rw Rh.
  rewrite render_MainHeader. unfold AviMainHeader.fields.
  rewrite Hres, Hi, Hw, Hh, H1, H2, H3, H4, H5, H6, H7.
  cbn [list_get nth_error rbind].
  apply from_list_returns.
  repeat (constructor; [in_bounds|]). constructor.
Qed.

Lemma render_StreamHeader_returns x0 x1 x2 x3 ty h rate :
  stream_header_built ty h ->
  length ty = 4%nat ->
  AviStreamHeader.rate h = Some rate ->
  0 <= rate < 2 ^ 32 ->
  0 <= AviStreamHeader.stream_size h < 2 ^ 32 ->
  -32768 <= x0 <= 32767 -> -32768 <= x1 <= 32767 ->
  -32768 <= x2 <= 32767 -> -32768 <= x3 <= 32767 ->
  exists payload,
    render [x0; x1; x2; x3] (StreamHeader h) = Ok payload /\
    length payload = 56%nat.
Proof.
  intros (rate' & Hshape) Lty Hrate Rr Rs R0 R1 R2 R3.
  rewrite render_StreamHeader. unfold AviStreamHeader.fields.
  cbn [list_get nth_error rbind]. rewrite Hrate.
  assert (Hfields : exists packed,
            pack.from_list
              [ (Type_.uint32_le, Some (AviStreamHeader.flags h));
                (Type_.uint16_le, Some (AviStreamHeader.priority h));
                (Type_.uint16_le, Some (AviStreamHeader.language h));
                (Type_.uint32_le, Some (AviStreamHeader.frames_before_this_stream h));
                (Type_.uint32_le, Some (AviStreamHeader.scale h));
                (Type_.uint32_le, Some rate);
                (Type_.uint32_le, Some (AviStreamHeader.start_time h));
                (Type_.uint32_le, Some (AviStreamHeader.stream_size h));
                (Type_.uint32_le, Some (AviStreamHeader.suggested_buffer_size h));
                (Type_.int32_le, Some (AviStreamHeader.quality h));
                (Type_.uint32_le, Some (AviStreamHeader.sample_size h));
                (Type_.int16_le, Some x0);
                (Type_.int16_le, Some x1);
                (Type_.int16_le, Some x2);
                (Type_.int16_le, Some x3) ] = Ok packed /\
            length packed = 48%nat).
  { apply from_list_returns.
    assert (E : AviStreamHeader.flags h = 0 /\ AviStreamHeader.priority h = 0 /\
                AviStreamHeader.language h = 0 /\
                AviStreamHeader.frames_before_this_stream h = 0 /\
                AviStreamHeader.scale h = 1 /\ AviStreamHeader.start_time h = 0 /\
                AviStreamHeader.suggested_buffer_size h = 0 /\
                AviStreamHeader.quality h = -1 /\ AviStreamHeader.sample_size h = 0)
      by (rewrite Hshape; repeat split).
    destruct E as (E1 & E2 & E3 & E4 & E5 & E6 & E7 & E8 & E9).
    rewrite E1, E2, E3, E4, E5, E6, E7, E8, E9.
    repeat (constructor; [in_bounds|]). constructor. }
  destruct Hfields as (packed & Hp & Lp). rewrite Hp.
  assert (Hty : AviStreamHeader.stream_type h = Some ty)
    by (rewrite Hshape; reflexivity).
  assert (Hh : AviStreamHeader.stream_data_handler h = b "DIB ")
    by (rewrite Hshape; reflexivity).
  rewrite Hty, Hh. unfold then_. cbn [rbind].
  eexists. split; [reflexivity|].
  rewrite !length_app, Lty, Lp. reflexivity.
Qed.

Lemma render_Bitmap_returns stream_rectangle i width height bpp :
  BitmapInfo.STRUCTURE_SIZE i = 40 -> BitmapInfo.planes i = 1 ->
  BitmapInfo.compression i = 0 -> BitmapInfo.image_length i = 0 ->
  BitmapInfo.horizontal_resolution i = 0 -> BitmapInfo.vertical_resolution i = 0 ->
  BitmapInfo.used_colors i = 0 -> BitmapInfo.important_colors i = 0 ->
  BitmapInfo.width i = Some width ->
  BitmapInfo.height i = Some height ->
  BitmapInfo.bits_per_pixel i = Some bpp ->
  - 2 ^ 31 <= width < 2 ^ 31 ->
  - 2 ^ 31 <= height < 2 ^ 31 ->
  0 <= bpp < 2 ^ 16 ->
  exists payload,
    render stream_rectangle (Bitmap i) = Ok payload /\
    length payload = (40 + length (or_empty (BitmapInfo.palette i)))%nat.
Proof.
  intros H1 H2 H3 H4 H5 H6 H7 H8 Hw Hh Hb Rw Rh Rb.
  rewrite render_Bitmap. unfold BitmapInfo.fields.
  rewrite H1, H2, H3, H4, H5, H6, H7, H8, Hw, Hh, Hb.
  destruct (from_list_returns
              [ (Type_.uint32_le, Some 40); (Type_.int32_le, Some width);
                (Type_.int32_le, Some height); (Type_.uint16_le, Some 1);
                (Type_.uint16_le, Some bpp); (Type_.uint32_le, Some 0);
                (Type_.uint32_le, Some 0); (Type_.uint32_le, Some 0);
                (Type_.uint32_le, Some 0); (Type_.uint32_le, Some 0);
                (Type_.uint32_le, Some 0) ]) as (packed & Hp & Lp).
  { repeat (constructor; [in_bounds|]). constructor. }
  rewrite Hp. unfold then_. cbn [rbind].
  eexists. split; [reflexivity|].
  rewrite length_app, Lp. reflexivity.
Qed.

Lemma chunk_entries_render stream_rectangle (vc : list (bytes * bytes))
    (ac : list (bytes * option bytes)) :
  forallb (renders stream_rectangle)
    (map AviFile.video_entry vc ++ map AviFile.audio_entry ac) = true.
Proof.
  rewrite forallb_app. apply andb_true_iff. split.
  - induction vc as [|[name frame] rest IH]; [reflexivity|exact IH].
  - induction ac as [|[name [pcm|]] rest IH]; [reflexivity|exact IH|exact IH].
Qed.

Lemma list_sum_app_map {A} (f : A -> nat) (l l' : list A) :
  list_sum (map f (l ++ l')) = (list_sum (map f l) + list_sum (map f l'))%nat.
Proof. rewrite map_app. apply list_sum_app. Qed.

(** The bytes the video and audio chunks take in the ['movi'] list. *)
Lemma chunk_entries_size stream_rectangle frames pcms :
  list_sum
    (map (framed_size stream_rectangle)
       (map AviFile.video_entry (map (fun frame => (b "00db", frame)) frames) ++
        map AviFile.audio_entry (map (fun pcm => (b "01wb", pcm)) pcms))) =
  (frames_size frames + pcms_size pcms)%nat.
Proof.
  rewrite list_sum_app_map. f_equal.
  - unfold frames_size. rewrite !map_map. f_equal.
  - unfold pcms_size. rewrite !map_map. f_equal.
    apply map_ext. intros [pcm|]; reflexivity.
Qed.

Lemma length_le_frames_size frames : (length frames <= frames_size frames)%nat.
Proof.
  unfold frames_size. induction frames as [|frame rest IH]; [apply Nat.le_refl|].
  change (list_sum (map (fun f => (8 + length f)%nat) (frame :: rest)))
    with (8 + length frame + list_sum (map (fun f => (8 + length f)%nat) rest))%nat.
  cbn [length]. lia.
Qed.

(** [write] returns when the three headers of the video stream render, the
    audio list can be framed and the file fits its size field; the length
    of the file is the sum of its parts. *)
Lemma write_returns_of_parts hp bitmap v pm pv pb audio_size chunks_size :
  AviFile.bitmap_header (AviFile.self hp) = Some bitmap ->
  AviFile.video_stream_header (AviFile.self hp) = Some v ->
  render (AviFile.cls_stream_rectangle hp)
    (MainHeader (AviFile.main_header (AviFile.self hp))) = Ok pm ->
  render (AviFile.cls_stream_rectangle hp) (StreamHeader v) = Ok pv ->
  render (AviFile.cls_stream_rectangle hp) (Bitmap bitmap) = Ok pb ->
  renders (AviFile.cls_stream_rectangle hp)
    (Sublist (b "strl")
       [ Chunk (b "strh")
           (AviFile.optional StreamHeader (AviFile.audio_stream_header (AviFile.self hp)));
         Chunk (b "strf")
           (AviFile.optional WaveFormat (AviFile.wave_header (AviFile.self hp))) ]) =
    true ->
  framed_size (AviFile.cls_stream_rectangle hp)
    (Sublist (b "strl")
       [ Chunk (b "strh")
           (AviFile.optional StreamHeader (AviFile.audio_stream_header (AviFile.self hp)));
         Chunk (b "strf")
           (AviFile.optional WaveFormat (AviFile.wave_header (AviFile.self hp))) ]) =
    audio_size ->
  list_sum
    (map (framed_size (AviFile.cls_stream_rectangle hp))
       (map AviFile.video_entry (AviFile.video_chunks (AviFile.self hp)) ++
        map AviFile.audio_entry (AviFile.audio_chunks (AviFile.self hp)))) =
    chunks_size ->
  Z.of_nat (84 + length pm + length pv + length pb + audio_size + chunks_size)
    < 2 ^ 32 + 8 ->
  exists file,
    AviFile.write hp = Ok file /\
    length file =
      (84 + length pm + length pv + length pb + audio_size + chunks_size)%nat.
Proof.
  intros Hb Hv Hpm Hpv Hpb Hra Hsa Hsc Hfit.
  set (rect := AviFile.cls_stream_rectangle hp) in *.
  set (a := AviFile.self hp) in *.
  set (audio_strl := Sublist (b "strl") _) in Hra, Hsa.
  set (chunks := map AviFile.video_entry (AviFile.video_chunks a) ++
                 map AviFile.audio_entry (AviFile.audio_chunks a)) in *.
  assert (Hs : AviFile.riff_structure a =
               Ok [ Sublist (b "AVI ")
                      [ Sublist (b "hdrl")
                          [ Chunk (b "avih") (PyObject (MainHeader (AviFile.main_header a)));
                            Sublist (b "strl")
                              [ Chunk (b "strh") (PyObject (StreamHeader v));
                                Chunk (b "strf") (PyObject (Bitmap bitmap)) ];
                            audio_strl ];
                        Sublist (b "movi") chunks ] ]).
  { unfold AviFile.riff_structure. rewrite Hb, Hv. reflexivity. }
  assert (Hsize :
            list_sum (map (framed_size rect)
                        [ Sublist (b "AVI ")
                            [ Sublist (b "hdrl")
                                [ Chunk (b "avih")
                                    (PyObject (MainHeader (AviFile.main_header a)));
                                  Sublist (b "strl")
                                    [ Chunk (b "strh") (PyObject (StreamHeader v));
                                      Chunk (b "strf") (PyObject (Bitmap bitmap)) ];
                                  audio_strl ];
                              Sublist (b "movi") chunks ] ]) =
            (72 + length pm + length pv + length pb + audio_size + chunks_size)%nat).
  { change (list_sum (map (framed_size rect)
              [ Sublist (b "AVI ")
                  [ Sublist (b "hdrl")
                      [ Chunk (b "avih") (PyObject (MainHeader (AviFile.main_header a)));
                        Sublist (b "strl")
                          [ Chunk (b "strh") (PyObject (StreamHeader v));
                            Chunk (b "strf") (PyObject (Bitmap bitmap)) ];
                        audio_strl ];
                    Sublist (b "movi") chunks ] ]))
      with (8 + 4 +
            (8 + 4 +
             (4 + 4 + length (file_of (render rect (MainHeader (AviFile.main_header a)))) +
              (8 + 4 +
               (4 + 4 + length (file_of (render rect (StreamHeader v))) +
                (4 + 4 + length (file_of (render rect (Bitmap bitmap))) + 0)) +
               (framed_size rect audio_strl + 0))) +
             (8 + 4 + list_sum (map (framed_size rect) chunks) + 0)) + 0)%nat.
    rewrite Hpm, Hpv, Hpb, Hsa, Hsc. cbn [file_of]. lia. }
  destruct (write_returns hp _ Hs) as (file & Hfile & Lfile).
  - fold rect. cbn [forallb renders]. fold audio_strl.
    rewrite Hpm, Hpv, Hpb, Hra.
    unfold chunks. rewrite chunk_entries_render. reflexivity.
  - fold rect. rewrite Hsize. lia.
  - exists file. split; [exact Hfile|]. fold rect in Lfile. rewrite Lfile, Hsize. lia.
Qed.

(** X14.  A new [AviFile] whose video stream is initialized with a positive
    frame rate below 2^32, a width and a negated height within sixteen signed bits and
    at most sixteen bits of colour depth can always be written, after any
    additions of frames and of audio chunks, as long as the file fits its
    size field: without an audio stream the file takes 248 bytes, plus the
    palette, plus each frame and each audio chunk with eight bytes of tag
    and size. *)
Theorem write_video_container_returns width height fps bpp palette ops :
  0 < fps < 2 ^ 32 ->
  -32768 <= width <= 32767 ->
  -32767 <= height <= 32768 ->
  0 <= bpp <= 65535 ->
  forallb adds ops = true ->
  Z.of_nat (248 + length (or_empty palette) +
            frames_size (frames_of ops) + pcms_size (pcms_of ops)) < 2 ^ 32 + 8 ->
  exists file,
    AviFile.write
      (perform_all ops
         (after (AviFile.initialize_video_stream width height fps bpp palette)
            AviFile.initial)) = Ok file /\
    length file =
      (248 + length (or_empty palette) +
       frames_size (frames_of ops) + pcms_size (pcms_of ops))%nat.
Proof.
  intros Hfps Hw Hh Hbpp Hadds Hfit.
  pose proof (interval_bounds fps (proj1 Hfps)) as Hint.
  pose proof (length_le_frames_size (frames_of ops)) as Hframes.
  unfold after.
  rewrite (initialize_video_stream_returns AviFile.initial width height fps bpp palette
             0 0 0 0 eq_refl) by lia.
  cbn [snd].
  erewrite perform_all_adds by (reflexivity || exact Hadds).
  cbn [AviFile.self AviFile.cls_stream_rectangle AviFile.main_header
       AviFile.audio_stream_header AviFile.wave_header AviFile.audio_chunks
       AviFile.video_chunks AviFile.bitmap_header AviFile.initial AviFile.__init__
       AviStreamHeader.stream_size AviStreamHeader.set_stream_size app].
  set (m := AviMainHeader.set_height _ _).
  set (v := AviStreamHeader.set_stream_size _ _).
  set (bitmap := BitmapInfo.Build_t _ _ _ _ _ _ _ _ _ _ _ _).
  set (rect := [0; 0; width; - height]).
  destruct (render_MainHeader_returns rect m (1000000 / fps) width (- height))
    as (pm & Hpm & Lpm); try reflexivity; try lia.
  { repeat split. }
  destruct (render_StreamHeader_returns 0 0 width (- height) AviStreamType.Video v fps)
    as (pv & Hpv & Lpv); try reflexivity; try lia.
  { exists fps. reflexivity. }
  { cbn [v AviStreamHeader.stream_size AviStreamHeader.set_stream_size]. lia. }
  destruct (render_Bitmap_returns rect bitmap width (- height) bpp)
    as (pb & Hpb & Lpb); try reflexivity; try lia.
  cbn [bitmap BitmapInfo.palette] in Lpb.
  destruct (write_returns_of_parts
              {| AviFile.cls_stream_rectangle := rect;
                 AviFile.self := {|
                   AviFile.main_header := m;
                   AviFile.audio_stream_header := None;
                   AviFile.wave_header := None;
                   AviFile.audio_chunks :=
                     map (fun pcm => (b "01wb", pcm)) (pcms_of ops);
                   AviFile.video_stream_header := Some v;
                   AviFile.video_chunks :=
                     map (fun frame => (b "00db", frame)) (frames_of ops);
                   AviFile.bitmap_header := Some bitmap |} |}
              bitmap v pm pv pb 12
              (frames_size (frames_of ops) + pcms_size (pcms_of ops)))
    as (file & Hfile & Lfile);
    try reflexivity; try assumption.
  - apply chunk_entries_size.
  - rewrite Lpm, Lpv, Lpb. lia.
  - exists file. split; [exact Hfile|]. rewrite Lfile, Lpm, Lpv, Lpb. lia.
Qed.

Lemma write_video_container_returns_witness :
  exists file,
    AviFile.write
      (perform_all interleaved_operations
         (after (AviFile.initialize_video_stream 2 2 30 8 (Some two_colours))
            AviFile.initial)) = Ok file /\
    length file =
      (248 + length (or_empty (Some two_colours)) +
       frames_size (frames_of interleaved_operations) +
       pcms_size (pcms_of interleaved_operations))%nat.
Proof.
  apply (write_video_container_returns 2 2 30 8 (Some two_colours)
           interleaved_operations).
  - lia.
  - lia.
  - lia.
  - lia.
  - reflexivity.
  - vm_compute. reflexivity.
Defined.

Lemma initialize_audio_stream_returns hp channel_count samples_per_second bits_per_sample :
  AviFile.initialize_audio_stream channel_count samples_per_second bits_per_sample hp =
  (Ok tt,
   {| AviFile.cls_stream_rectangle := AviFile.cls_stream_rectangle hp;
      AviFile.self := {|
        AviFile.main_header := AviFile.main_header (AviFile.self hp);
        AviFile.audio_stream_header :=
          Some (AviStreamHeader.set_rate samples_per_second
                  (AviStreamHeader.set_stream_type AviStreamType.Audio
                     AviStreamHeader.new));
        AviFile.wave_header := Some {|
          PcmWaveFormatEx.format_tag := 1;
          PcmWaveFormatEx.channel_count := Some channel_count;
          PcmWaveFormatEx.samples_per_second := Some samples_per_second;
          PcmWaveFormatEx.bits_per_sample := Some bits_per_sample;
          PcmWaveFormatEx.additional_information_size := 0 |};
        AviFile.audio_chunks := AviFile.audio_chunks (AviFile.self hp);
        AviFile.video_stream_header := AviFile.video_stream_header (AviFile.self hp);
        AviFile.video_chunks := AviFile.video_chunks (AviFile.self hp);
        AviFile.bitmap_header := AviFile.bitmap_header (AviFile.self hp)
      |}
   |}).
Proof. reflexivity. Qed.

Lemma render_WaveFormat_returns stream_rectangle w cc sps bps :
  PcmWaveFormatEx.format_tag w = 1 ->
  PcmWaveFormatEx.additional_information_size w = 0 ->
  PcmWaveFormatEx.channel_count w = Some cc ->
  PcmWaveFormatEx.samples_per_second w = Some sps ->
  PcmWaveFormatEx.bits_per_sample w = Some bps ->
  0 <= cc <= 65535 -> 0 <= bps <= 65535 -> 0 <= cc * bps <= 65535 ->
  0 <= sps < 2 ^ 32 -> 0 <= sps * (cc * bps) < 2 ^ 32 ->
  exists payload,
    render stream_rectangle (WaveFormat w) = Ok payload /\ length payload = 18%nat.
Proof.
  intros Hf Ha Hc Hs Hb Rc Rb Rcb Rs Rscb.
  rewrite render_WaveFormat.
  unfold PcmWaveFormatEx.fields, PcmWaveFormatEx.average_bytes_per_second_transfer_rate,
    PcmWaveFormatEx.block_alignment.
  rewrite Hf, Ha, Hc, Hs, Hb. cbn [py_mul rbind].
  apply from_list_returns.
  repeat (constructor; [in_bounds|]). constructor.
Qed.

(** X15.  The same with the audio stream initialized after the video
    stream: when moreover the channel count, the bits per sample and their
    product fit sixteen bits and the sample rate and the average rate fit
    thirty-two, the container can be written, and the audio ['strl'] list,
    now holding a stream header of 56 bytes and a wave format of 18, makes
    the file 90 bytes longer: 338 bytes plus palette, frames and audio
    chunks. *)
Theorem write_audio_video_container_returns
    width height fps bpp palette channel_count samples_per_second bits_per_sample ops :
  0 < fps < 2 ^ 32 ->
  -32768 <= width <= 32767 ->
  -32767 <= height <= 32768 ->
  0 <= bpp <= 65535 ->
  0 <= channel_count <= 65535 ->
  0 <= bits_per_sample <= 65535 ->
  0 <= channel_count * bits_per_sample <= 65535 ->
  0 <= samples_per_second < 2 ^ 32 ->
  0 <= samples_per_second * (channel_count * bits_per_sample) < 2 ^ 32 ->
  forallb adds ops = true ->
  Z.of_nat (338 + length (or_empty palette) +
            frames_size (frames_of ops) + pcms_size (pcms_of ops)) < 2 ^ 32 + 8 ->
  exists file,
    AviFile.write
      (perform_all ops
         (after (AviFile.initialize_audio_stream
                   channel_count samples_per_second bits_per_sample)
            (after (AviFile.initialize_video_stream width height fps bpp palette)
               AviFile.initial))) = Ok file /\
    length file =
      (338 + length (or_empty palette) +
       frames_size (frames_of ops) + pcms_size (pcms_of ops))%nat.
Proof.
  intros Hfps Hw Hh Hbpp Hcc Hbps Hcb Hsps Hscb Hadds Hfit.
  pose proof (interval_bounds fps (proj1 Hfps)) as Hint.
  pose proof (length_le_frames_size (frames_of ops)) as Hframes.
  unfold after.
  rewrite (initialize_video_stream_returns AviFile.initial width height fps bpp palette
             0 0 0 0 eq_refl) by lia.
  cbn [snd]. rewrite initialize_audio_stream_returns. cbn [snd].
  erewrite perform_all_adds by (reflexivity || exact Hadds).
  cbn [AviFile.self AviFile.cls_stream_rectangle AviFile.main_header
       AviFile.audio_stream_header AviFile.wave_header AviFile.audio_chunks
       AviFile.video_chunks AviFile.bitmap_header AviFile.video_stream_header
       AviFile.initial AviFile.__init__
       AviStreamHeader.stream_size AviStreamHeader.set_stream_size app].
  set (m := AviMainHeader.set_height _ _).
  set (v := AviStreamHeader.set_stream_size _ _).
  set (s := AviStreamHeader.set_rate samples_per_second _).
  set (wave := PcmWaveFormatEx.Build_t _ _ _ _ _).
  set (bitmap := BitmapInfo.Build_t _ _ _ _ _ _ _ _ _ _ _ _).
  set (rect := [0; 0; width; - height]).
  destruct (render_MainHeader_returns rect m (1000000 / fps) width (- height))
    as (pm & Hpm & Lpm); try reflexivity; try lia.
  { repeat split. }
  destruct (render_StreamHeader_returns 0 0 width (- height) AviStreamType.Video v fps)
    as (pv & Hpv & Lpv); try reflexivity; try lia.
  { exists fps. reflexivity. }
  { cbn [v AviStreamHeader.stream_size AviStreamHeader.set_stream_size]. lia. }
  destruct (render_StreamHeader_returns 0 0 width (- height) AviStreamType.Audio s
              samples_per_second)
    as (ps & Hps & Lps); try reflexivity; try lia.
  { exists samples_per_second. reflexivity. }
  { cbn. lia. }
  destruct (render_Bitmap_returns rect bitmap width (- height) bpp)
    as (pb & Hpb & Lpb); try reflexivity; try lia.
  cbn [bitmap BitmapInfo.palette] in Lpb.
  destruct (render_WaveFormat_returns rect wave channel_count samples_per_second
              bits_per_sample) as (pw & Hpw & Lpw); try reflexivity; try lia.
  destruct (write_returns_of_parts
              {| AviFile.cls_stream_rectangle := rect;
                 AviFile.self := {|
                   AviFile.main_header := m;
                   AviFile.audio_stream_header := Some s;
                   AviFile.wave_header := Some wave;
                   AviFile.audio_chunks :=
                     map (fun pcm => (b "01wb", pcm)) (pcms_of ops);
                   AviFile.video_stream_header := Some v;
                   AviFile.video_chunks :=
                     map (fun frame => (b "00db", frame)) (frames_of ops);
                   AviFile.bitmap_header := Some bitmap |} |}
              bitmap v pm pv pb 102
              (frames_size (frames_of ops) + pcms_size (pcms_of ops)))
    as (file & Hfile & Lfile);
    try reflexivity; try assumption.
  - cbn [AviFile.self AviFile.cls_stream_rectangle AviFile.audio_stream_header
         AviFile.wave_header AviFile.optional renders forallb].
    fold rect in Hps. rewrite Hps, Hpw. reflexivity.
  - cbn [AviFile.self AviFile.cls_stream_rectangle AviFile.audio_stream_header
         AviFile.wave_header AviFile.optional].
    fold rect.
    change (framed_size rect
              (Sublist (b "strl")
                 [ Chunk (b "strh") (PyObject (StreamHeader s));
                   Chunk (b "strf") (PyObject (WaveFormat wave)) ]))
      with (8 + 4 + (4 + 4 + length (file_of (render rect (StreamHeader s))) +
                     (4 + 4 + length (file_of (render rect (WaveFormat wave))) + 0)))%nat.
    fold rect in Hps. rewrite Hps, Hpw. cbn [file_of]. rewrite Lps, Lpw. reflexivity.
  - apply chunk_entries_size.
  - rewrite Lpm, Lpv, Lpb. lia.
  - exists file. split; [exact Hfile|]. rewrite Lfile, Lpm, Lpv, Lpb. lia.
Qed.

Lemma write_audio_video_container_returns_witness :
  exists file,
    AviFile.write
      (perform_all interleaved_operations
         (after (AviFile.initialize_audio_stream 2 22050 16)
            (after (AviFile.initialize_video_stream 2 2 30 8 (Some two_colours))
               AviFile.initial))) = Ok file /\
    length file =
      (338 + length (or_empty (Some two_colours)) +
       frames_size (frames_of interleaved_operations) +
       pcms_size (pcms_of interleaved_operations))%nat.
Proof.
  apply (write_audio_video_container_returns 2 2 30 8 (Some two_colours) 2 22050 16
           interleaved_operations).
  - lia.
  - lia.
  - lia.
  - lia.
  - lia.
  - lia.
  - lia.
  - lia.
  - lia.
  - reflexivity.
  - vm_compute. reflexivity.
Defined.

(** ** The order of the two initializations *)

(** X16.  The two initializations touch different parts of the container:
    in either order they leave the same heap and raise or return alike, and
    an audio stream initialized again is as if it had been initialized once
    with the last arguments. *)
Theorem initializations_commute hp width height fps bpp palette cc sps bps :
  length (AviFile.cls_stream_rectangle hp) = 4%nat ->
  after (AviFile.initialize_audio_stream cc sps bps)
    (after (AviFile.initialize_video_stream width height fps bpp palette) hp) =
  after (AviFile.initialize_video_stream width height fps bpp palette)
    (after (AviFile.initialize_audio_stream cc sps bps) hp) /\
  outcome (AviFile.initialize_video_stream width height fps bpp palette)
    (after (AviFile.initialize_audio_stream cc sps bps) hp) =
  outcome (AviFile.initialize_video_stream width height fps bpp palette) hp /\
  outcome (AviFile.initialize_audio_stream cc sps bps)
    (after (AviFile.initialize_video_stream width height fps bpp palette) hp) = Ok tt /\
  forall cc' sps' bps',
    after (AviFile.initialize_audio_stream cc sps bps)
      (after (AviFile.initialize_audio_stream cc' sps' bps') hp) =
    after (AviFile.initialize_audio_stream cc sps bps) hp.
Proof.
  intros Hrect. apply length_four in Hrect.
  destruct Hrect as (x0 & x1 & x2 & x3 & Hrect).
  destruct hp as [rect a]. cbn [AviFile.cls_stream_rectangle] in Hrect. subst rect.
  unfold after, outcome, AviFile.initialize_video_stream, AviFile.floordiv.
  destruct (fps =? 0); repeat split.
Qed.

Lemma initializations_commute_witness :
  after (AviFile.initialize_audio_stream 2 22050 16)
    (after (AviFile.initialize_video_stream 2 2 30 8 None) video_only) =
  after (AviFile.initialize_video_stream 2 2 30 8 None)
    (after (AviFile.initialize_audio_stream 2 22050 16) video_only) /\
  outcome (AviFile.initialize_video_stream 2 2 30 8 None)
    (after (AviFile.initialize_audio_stream 2 22050 16) video_only) =
  outcome (AviFile.initialize_video_stream 2 2 30 8 None) video_only /\
  outcome (AviFile.initialize_audio_stream 2 22050 16)
    (after (AviFile.initialize_video_stream 2 2 30 8 None) video_only) = Ok tt /\
  forall cc' sps' bps',
    after (AviFile.initialize_audio_stream 2 22050 16)
      (after (AviFile.initialize_audio_stream cc' sps' bps') video_only) =
    after (AviFile.initialize_audio_stream 2 22050 16) video_only.
Proof.
  apply (initializations_commute video_only 2 2 30 8 None 2 22050 16).
  reflexivity.
Defined.

(** ** The frames and samples in the file *)

Lemma framed_each_stored stream_rectangle vc ac x :
  framed_each (framed stream_rectangle)
    (map AviFile.video_entry vc ++ map AviFile.audio_entry ac) = Ok x ->
  x = flat_map stored_video vc ++ flat_map stored_audio ac.
Proof.
  revert x. induction vc as [|[name frame] rest IH]; intros x H.
  - cbn [map app flat_map]. revert x H.
    induction ac as [|[name pcm] rest IH]; intros x H.
    + cbn [map framed_each] in H. apply Ok_inj in H. subst x. reflexivity.
    + cbn [map] in H. apply framed_each_cons_inv in H.
      destruct H as (y & z & Hy & Hz & ->).
      apply IH in Hz. subst z. cbn [flat_map]. f_equal.
      unfold AviFile.audio_entry, stored_audio in *. cbn [fst snd] in *.
      destruct pcm as [pcm|]; cbn [framed framed_chunk] in Hy.
      * destruct (pack.uint32_le _) as [size|] eqn:Hsize; [|discriminate].
        cbn [rbind] in Hy. apply Ok_inj in Hy. subst y.
        apply pack_uint32_le_inv in Hsize. destruct Hsize as [_ ->]. reflexivity.
      * apply Ok_inj in Hy. subst y. reflexivity.
  - cbn [map app] in H. apply framed_each_cons_inv in H.
    destruct H as (y & z & Hy & Hz & ->).
    apply IH in Hz. subst z. cbn [flat_map]. rewrite <- app_assoc. f_equal.
    unfold AviFile.video_entry, stored_video in *. cbn [fst snd] in *.
    cbn [framed framed_chunk] in Hy.
    destruct (pack.uint32_le _) as [size|] eqn:Hsize; [|discriminate].
    cbn [rbind] in Hy. apply Ok_inj in Hy. subst y.
    apply pack_uint32_le_inv in Hsize. destruct Hsize as [_ ->]. reflexivity.
Qed.

(** X17.  Every file [write] produces ends with the ['movi'] list, and that
    list holds the video chunks of the container in their order, then its
    audio chunks with samples in theirs: each as its name, the length of
    its data on four bytes and the data unchanged, one directly after the
    other, with no padding after a chunk of odd length and no index after
    the list. *)
Theorem write_stores_chunks_verbatim hp file :
  AviFile.write hp = Ok file ->
  let chunks := flat_map stored_video (AviFile.video_chunks (AviFile.self hp)) ++
                flat_map stored_audio (AviFile.audio_chunks (AviFile.self hp)) in
  exists head,
    file = head ++ b "LIST" ++ le_split 4 (Z.of_nat (4 + length chunks)) ++
           b "movi" ++ chunks.
Proof.
  intros H chunks. apply write_layout in H.
  destruct H as (bitmap & avih & video_strl & audio_strl & movi &
                 size_riff & size_avi & size_hdrl &
                 _ & _ & _ & _ & Hm & _ & _ & _ & ->).
  rewrite framed_sublist in Hm. unfold framed_list_with in Hm.
  destruct (framed_each _ _) as [body|] eqn:Hbody; [|discriminate].
  cbn [rbind] in Hm.
  destruct (pack.uint32_le _) as [size|] eqn:Hsize; [|discriminate].
  cbn [rbind] in Hm. apply Ok_inj in Hm. subst movi.
  apply framed_each_stored in Hbody. fold chunks in Hbody. subst body.
  apply pack_uint32_le_inv in Hsize. destruct Hsize as [_ ->].
  rewrite length_app. change (length (b "movi")) with 4%nat.
  exists (b "RIFF" ++ size_riff ++ b "AVI " ++ b "LIST" ++ size_avi ++ b "AVI " ++
          b "LIST" ++ size_hdrl ++ b "hdrl" ++ avih ++ video_strl ++ audio_strl).
  rewrite <- !app_assoc. reflexivity.
Qed.

Lemma write_stores_chunks_verbatim_witness :
  exists head,
    file_of (AviFile.write video_and_audio) =
    head ++ b "LIST" ++
    le_split 4
      (Z.of_nat
         (4 + length
                (flat_map stored_video (AviFile.video_chunks (AviFile.self video_and_audio)) ++
                 flat_map stored_audio
                   (AviFile.audio_chunks (AviFile.self video_and_audio))))) ++
    b "movi" ++
    flat_map stored_video (AviFile.video_chunks (AviFile.self video_and_audio)) ++
    flat_map stored_audio (AviFile.audio_chunks (AviFile.self video_and_audio)).
Proof.
  apply (write_stores_chunks_verbatim video_and_audio
           (file_of (AviFile.write video_and_audio))).
  vm_compute. reflexivity.
Defined.

(** ** The frame counts in the file *)

(** The total number of frames of a rendered main header, at offset 16. *)
Lemma render_MainHeader_total_frames stream_rectangle m payload :
  render stream_rectangle (MainHeader m) = Ok payload ->
  length payload = 56%nat /\
  int_from_bytes false (slice 16 4 payload) = AviMainHeader.total_frames m.
Proof.
  rewrite render_MainHeader. intros H.
  destruct (AviMainHeader.fields m) as [fs|] eqn:Hfs; [|discriminate].
  cbn [rbind] in H.
  destruct (main_header_fields_inv m fs Hfs) as (r0 & r1 & r2 & r3 & ->).
  split; [apply from_list_length in H; exact H|].
  apply (from_list_reads _ _ 4 Type_.uint32_le _ H eq_refl).
Qed.

(** X18.  Whatever operations led to it, a file [write] produces says in
    its main header, at offset 60, that it has no frames at all; the frames
    are counted only in the length field of the video stream header, at
    offset 152 of the file, and that count is the frame counter of the
    stream header, which is at most the number of frames the ['movi'] list
    holds. *)
Theorem write_frame_counts ops file :
  AviFile.write (perform_all ops AviFile.initial) = Ok file ->
  int_from_bytes false (slice 60 4 file) = 0 /\
  exists v,
    AviFile.video_stream_header (AviFile.self (perform_all ops AviFile.initial)) =
      Some v /\
    slice 112 4 file = b "strh" /\
    slice 120 4 file = b "vids" /\
    int_from_bytes false (slice 152 4 file) = AviStreamHeader.stream_size v /\
    0 <= AviStreamHeader.stream_size v <=
      Z.of_nat (length (AviFile.video_chunks
                          (AviFile.self (perform_all ops AviFile.initial)))).
Proof.
  set (hp := perform_all ops AviFile.initial). intros H.
  pose proof (perform_all_built ops AviFile.initial initial_built) as Hb.
  fold hp in Hb.
  destruct Hb as (_ & Hmain & Hvideo & _ & _ & Hiff & _).
  destruct Hmain as (_ & _ & _ & Htotal & _).
  apply write_layout in H.
  destruct H as (bitmap & avih & video_strl & audio_strl & movi &
                 size_riff & size_avi & size_hdrl &
                 Hbitmap & Havih & Hstrl & _ & _ & L1 & L2 & L3 & ->).
  destruct (AviFile.video_stream_header (AviFile.self hp)) as [v|] eqn:Hv.
  2:{ destruct Hiff as [_ Hnone]. rewrite Hnone in Hbitmap by reflexivity.
      discriminate. }
  destruct (Hvideo v eq_refl) as ((rate & Hshape) & Hcount).
  cbn [framed framed_chunk] in Havih.
  destruct (render _ _) as [payload|] eqn:Hp in Havih; [|discriminate].
  cbn [rbind] in Havih.
  destruct (pack.uint32_le _) as [size|] eqn:Hsize in Havih; [|discriminate].
  cbn [rbind] in Havih. apply Ok_inj in Havih. subst avih.
  apply pack_uint32_le_length in Hsize.
  apply render_MainHeader_total_frames in Hp. destruct Hp as (Lp & Hframes).
  rewrite Htotal in Hframes.
  cbn [AviFile.optional] in Hstrl. rewrite framed_sublist in Hstrl.
  apply framed_list_with_inv in Hstrl.
  destruct Hstrl as (children & size_strl & Hc & L4 & _ & ->).
  apply framed_each_cons_inv in Hc.
  destruct Hc as (strh & rest & Hstrh & _ & ->).
  cbn [framed framed_chunk] in Hstrh.
  destruct (render _ _) as [header|] eqn:Hh in Hstrh; [|discriminate].
  cbn [rbind] in Hstrh.
  destruct (pack.uint32_le _) as [size_strh|] eqn:Hsize' in Hstrh; [|discriminate].
  cbn [rbind] in Hstrh. apply Ok_inj in Hstrh. subst strh.
  apply pack_uint32_le_length in Hsize'.
  apply render_StreamHeader_inv in Hh.
  destruct Hh as (ty & rate' & x0 & x1 & x2 & x3 & packed & Hty & _ & _ &
                  -> & Lpacked & _ & _ & Hlength & _).
  assert (ty = b "vids" /\ AviStreamHeader.stream_data_handler v = b "DIB ")
    as [-> Hhandler].
  { rewrite Hshape in Hty |- *.
    cbn [AviStreamHeader.stream_type AviStreamHeader.set_stream_size
         AviStreamHeader.set_rate AviStreamHeader.set_stream_type
         AviStreamHeader.stream_data_handler AviStreamHeader.new] in Hty |- *.
    apply (f_equal (fun o => match o with Some x => x | None => [] end)) in Hty.
    split; [symmetry; exact Hty|reflexivity]. }
  rewrite Hhandler. rewrite <- !app_assoc.
  split.
  { do 11 skip_piece.
    rewrite slice_app_within by lia. exact Hframes. }
  exists v. split; [reflexivity|].
  split.
  { do 11 skip_piece.
    rewrite (slice_skip_piece payload _ 56) by (assumption || lia).
    cbn [Nat.sub]. do 3 skip_piece.
    rewrite (slice_app_within (b "strh")) by (cbn; lia). reflexivity. }
  split.
  { do 11 skip_piece.
    rewrite (slice_skip_piece payload _ 56) by (assumption || lia).
    cbn [Nat.sub]. do 5 skip_piece.
    rewrite (slice_app_within (b "vids")) by (cbn; lia). reflexivity. }
  split; [|exact Hcount].
  do 11 skip_piece.
  rewrite (slice_skip_piece payload _ 56) by (assumption || lia).
  cbn [Nat.sub]. do 7 skip_piece.
  rewrite slice_app_within by lia. exact Hlength.
Qed.

Lemma write_frame_counts_witness :
  int_from_bytes false (slice 60 4 (file_of (AviFile.write video_and_audio))) = 0 /\
  exists v,
    AviFile.video_stream_header
      (AviFile.self (perform_all video_and_audio_operations AviFile.initial)) = Some v /\
    slice 112 4 (file_of (AviFile.write video_and_audio)) = b "strh" /\
    slice 120 4 (file_of (AviFile.write video_and_audio)) = b "vids" /\
    int_from_bytes false (slice 152 4 (file_of (AviFile.write video_and_audio))) =
      AviStreamHeader.stream_size v /\
    0 <= AviStreamHeader.stream_size v <=
      Z.of_nat (length (AviFile.video_chunks
                          (AviFile.self
                             (perform_all video_and_audio_operations AviFile.initial)))).
Proof.
  apply (write_frame_counts video_and_audio_operations
           (file_of (AviFile.write video_and_audio))).
  vm_compute. reflexivity.
Defined.
